(** * mVSOBase: input tables, scenarios and result comparison

    A shallow embedding of the data-handling code of the repository:
    - [MvsoModel/input.py]: [read_excel], [pyomo_model_prep],
      [split_columns], [get_input];
    - [runme.py]: [scenario_base], [scenario_Node_2_process_caps], the
      directory and file names of [prepare_result_directory] and
      [run_scenario];
    - [comp.py]: [get_most_recent_entry], [glob_result_files],
      [deduplicate_legend], and of [compare_scenarios] the reordering
      step and the extraction of the commodities;
    - [runmes/run1node.py]: [scenario_generator].

    Python exceptions are results of an error monad that also threads the
    store of DataFrame objects, because the code shares DataFrames between
    the input dict and the model instance and mutates them in place.
    float64 arithmetic is kept abstract (class [Float64]). *)

From Stdlib Require Import Ascii String QArith Qround.
From stdpp Require Import base option list gmap strings sorting.

Set Default Proof Using "Type".
Local Open Scope string_scope.
Local Open Scope list_scope.

(** ** Exceptions and results *)

Inductive exn : Type :=
  | KeyError
  | ValueError
  | TypeError
  | AttributeError
  | IndexError
  | XLRDError
  | Unsupported.

Inductive result (A : Type) : Type :=
  | Ret (a : A)
  | Raise (e : exn).
Arguments Ret {A} a.
Arguments Raise {A} e.

Definition rbind {A B} (r : result A) (k : A -> result B) : result B :=
  match r with
  | Ret a => k a
  | Raise e => Raise e
  end.

Fixpoint rmapM {A B} (f : A -> result B) (l : list A) : result (list B) :=
  match l with
  | [] => Ret []
  | x :: l' =>
      rbind (f x) (fun y => rbind (rmapM f l') (fun ys => Ret (y :: ys)))
  end.

(** ** Python strings *)

Module PyStr.

(** [s.split(sep)] for a non-empty [sep]: the head of the result is the
    field being read; [skip] counts the characters of a separator that
    has been recognised and is still to be consumed. *)
Fixpoint split_go (sep : string) (skip : nat) (s : string) : list string :=
  match s with
  | EmptyString => [""]
  | String c s' =>
      match skip with
      | S k => split_go sep k s'
      | O =>
          if String.prefix sep s
          then "" :: split_go sep (String.length sep - 1) s'
          else match split_go sep 0 s' with
               | f :: fs => String c f :: fs
               | [] => [String c ""]
               end
      end
  end.

Definition split_on (sep s : string) : list string := split_go sep 0 s.

(** [str.split] raises ValueError on an empty separator. *)
Definition split (s sep : string) : result (list string) :=
  if String.eqb sep "" then Raise ValueError else Ret (split_on sep s).

(** [s.replace(old, new)], all non-overlapping occurrences, left to
    right.  For an empty [old] Python inserts [new] around every
    character. *)
Fixpoint replace_go (old new : string) (skip : nat) (s : string) : string :=
  match s with
  | EmptyString => ""
  | String c s' =>
      match skip with
      | S k => replace_go old new k s'
      | O =>
          if String.prefix old s
          then new +:+ replace_go old new (String.length old - 1) s'
          else String c (replace_go old new 0 s')
      end
  end.

Fixpoint intersperse_str (new s : string) : string :=
  match s with
  | EmptyString => new
  | String c s' => new +:+ String c (intersperse_str new s')
  end.

Definition replace (s old new : string) : string :=
  if String.eqb old "" then intersperse_str new s
  else replace_go old new 0 s.

Definition has_char (c : ascii) (s : string) : bool :=
  existsb (Ascii.eqb c) (list_ascii_of_string s).

(** [os.path.basename] (posix): what follows the last slash. *)
Fixpoint basename (p : string) : string :=
  match p with
  | EmptyString => ""
  | String c p' =>
      if Ascii.eqb c "/"%char then basename p'
      else if has_char "/"%char p' then basename p' else p
  end.

End PyStr.


(** ** float64 and table cells *)

(** The float64 operations of numpy/pandas are parameters of the
    development.  [flit q] is the double denoted by the decimal literal
    [q]; [fisnan] is [numpy.isnan]; [fsort_leb] is the total order in
    which pandas arranges numeric index labels when it sorts (NaN
    last), as opposed to the IEEE comparisons [fleb] and [fltb]. *)
Class Float64 (F : Type) : Type := {
  flit : Q -> F;
  fnan : F;
  fisnan : F -> bool;
  fadd : F -> F -> F;
  fsub : F -> F -> F;
  fmul : F -> F -> F;
  fdiv : F -> F -> F;
  fpow : F -> F -> F;
  fleb : F -> F -> bool;
  fltb : F -> F -> bool;
  fsort_leb : F -> F -> bool;
  fisnan_nan : fisnan fnan = true;
  fsort_total : forall x y, fsort_leb x y = true \/ fsort_leb y x = true;
  fsort_nan_last : forall x y, fisnan y = true -> fsort_leb x y = true;
  fsort_nan_only : forall x y,
    fisnan x = true -> fsort_leb x y = true -> fisnan y = true
}.

(** Exact rational arithmetic with one more value for NaN as an
    instance, for running the model on concrete tables; NaN propagates
    through the arithmetic and compares false, a division by zero gives
    NaN, and the exponent of a power is rounded down to an integer. *)
Definition qlift2 (f : Q -> Q -> Q) (x y : option Q) : option Q :=
  match x, y with
  | Some a, Some b => Some (Qred (f a b))
  | _, _ => None
  end.

Definition qtest2 (f : Q -> Q -> bool) (x y : option Q) : bool :=
  match x, y with
  | Some a, Some b => f a b
  | _, _ => false
  end.

Definition qsort_leb (x y : option Q) : bool :=
  match x, y with
  | _, None => true
  | None, Some _ => false
  | Some a, Some b => Qle_bool a b
  end.

Definition QFloat : Float64 (option Q) := {|
  flit q := Some q;
  fnan := None;
  fisnan x := match x with None => true | Some _ => false end;
  fadd := qlift2 Qplus;
  fsub := qlift2 Qminus;
  fmul := qlift2 Qmult;
  fdiv x y :=
    match y with
    | Some b => if Qeq_bool b 0 then None else qlift2 Qdiv x y
    | None => None
    end;
  fpow := qlift2 (fun a n => Qpower a (Qfloor n));
  fleb := qtest2 Qle_bool;
  fltb := qtest2 (fun a b => negb (Qle_bool b a));
  fsort_leb := qsort_leb;
  fisnan_nan := eq_refl;
  fsort_total := fun x y =>
    match x as x', y as y'
          return qsort_leb x' y' = true \/ qsort_leb y' x' = true with
    | Some a, Some b =>
        match Qlt_le_dec b a with
        | left Hlt =>
            or_intror (proj2 (Qle_bool_iff b a) (Qlt_le_weak b a Hlt))
        | right Hle => or_introl (proj2 (Qle_bool_iff a b) Hle)
        end
    | Some _, None => or_introl eq_refl
    | None, Some _ => or_intror eq_refl
    | None, None => or_introl eq_refl
    end;
  fsort_nan_last := fun x y =>
    match x as x', y as y'
          return match y' with None => true | Some _ => false end = true ->
                 qsort_leb x' y' = true with
    | _, Some _ => fun E => match Bool.diff_false_true E with end
    | Some _, None => fun _ => eq_refl
    | None, None => fun _ => eq_refl
    end;
  fsort_nan_only := fun x y =>
    match x as x', y as y'
          return match x' with None => true | Some _ => false end = true ->
                 qsort_leb x' y' = true ->
                 match y' with None => true | Some _ => false end = true with
    | Some _, _ => fun E _ => match Bool.diff_false_true E with end
    | None, None => fun _ _ => eq_refl
    | None, Some _ => fun _ E => match Bool.diff_false_true E with end
    end
|}.

(** Generic list helpers used by the table operations. *)

Fixpoint index_of (x : string) (l : list string) : option nat :=
  match l with
  | [] => None
  | y :: l' => if String.eqb x y then Some 0 else S <$> index_of x l'
  end.

(** Positions [i, i+1, ...] of [l] that are not listed in [ps]. *)
Fixpoint drop_at {A} (ps : list nat) (i : nat) (l : list A) : list A :=
  match l with
  | [] => []
  | x :: l' =>
      if bool_decide (i ∈ ps) then drop_at ps (S i) l'
      else x :: drop_at ps (S i) l'
  end.

(** Stable insertion sort: an element goes in front of the first element
    it is not greater than, so equal elements keep their order. *)
Fixpoint insert_by {A} (leb : A -> A -> bool) (x : A) (l : list A) : list A :=
  match l with
  | [] => [x]
  | y :: l' => if leb x y then x :: l else y :: insert_by leb x l'
  end.

Fixpoint sort_by {A} (leb : A -> A -> bool) (l : list A) : list A :=
  match l with
  | [] => []
  | x :: l' => insert_by leb x (sort_by leb l')
  end.

Definition loc := positive.

(** A Python dict with string keys, in insertion order. *)
Definition pydict := list (string * loc).

Fixpoint dict_find (d : pydict) (k : string) : option loc :=
  match d with
  | [] => None
  | (k', v) :: d' => if String.eqb k k' then Some v else dict_find d' k
  end.

Definition dict_get (d : pydict) (k : string) : result loc :=
  match dict_find d k with
  | Some v => Ret v
  | None => Raise KeyError
  end.

(** ** DataFrames *)

Section Model.
Context {F : Type} `{Float64 F}.

(** A cell of a sheet or table: a number or a text. *)
Inductive cell : Type :=
  | CNum (x : F)
  | CStr (s : string).

Definition NaN : cell := CNum fnan.

(** [c == s] for a text [s]: a number is not equal to a text. *)
Definition cell_is_str (s : string) (c : cell) : bool :=
  match c with
  | CStr t => String.eqb s t
  | CNum _ => false
  end.

(** The texts of a list of cells, when every cell is a text. *)
Fixpoint texts (ts : list cell) : option (list string) :=
  match ts with
  | [] => Some []
  | CStr s :: ts' => cons s <$> texts ts'
  | CNum _ :: _ => None
  end.

(** The position of the first title equal to the text [x]. *)
Fixpoint title_index (x : string) (ts : list cell) : option nat :=
  match ts with
  | [] => None
  | c :: ts' => if cell_is_str x c then Some 0 else S <$> title_index x ts'
  end.

(** The column axis: a flat [Index] of text labels, a [MultiIndex] of
    tuples (as built by [pd.MultiIndex.from_tuples]), or a flat axis
    with a title that is not a text, such as a number typed into the
    header row of a sheet ([MixedIndex]). *)
Inductive Columns : Type :=
  | Index (labels : list string)
  | MultiIndex (tuples : list (list string))
  | MixedIndex (titles : list cell).

Definition ncols (c : Columns) : nat :=
  match c with
  | Index l => length l
  | MultiIndex t => length t
  | MixedIndex ts => length ts
  end.

(** The flat axis of a list of titles. *)
Definition flat_index (ts : list cell) : Columns :=
  match texts ts with
  | Some labels => Index labels
  | None => MixedIndex ts
  end.

(** A DataFrame, row by row: the names of the index levels, the column
    axis, and for every row its index key (one cell per level) and its
    values (one cell per column).  The default RangeIndex of a freshly
    parsed sheet has no named level and is represented by empty keys. *)
Record DataFrame : Type := mkFrame {
  index_names : list string;
  columns : Columns;
  rows : list (list cell * list cell)
}.

Record Series : Type := mkSeries {
  s_names : list string;
  s_items : list (list cell * cell)
}.

(** A sheet as pandas reads it: the titles of the header row (texts,
    or numbers where a number was typed; pandas mangles repeated
    titles, so they arrive distinct) and the body. *)
Record Sheet : Type := mkSheet {
  header : list cell;
  body : list (list cell)
}.

(** [isinstance(df.index, MultiIndex)]: [set_index] with two or more
    keys builds a MultiIndex, with one key a flat Index. *)
Definition has_multiindex (df : DataFrame) : bool :=
  bool_decide (2 <= length (index_names df)).

(** *** Order of index keys *)

(** Within a level pandas arranges numbers before texts and puts a
    blank (NaN) label last. *)
Definition cell_leb (a b : cell) : bool :=
  match a, b with
  | CNum x, CNum y => fsort_leb x y
  | CNum x, CStr _ => negb (fisnan x)
  | CStr _, CNum y => fisnan y
  | CStr s, CStr t => String.leb s t
  end.

Fixpoint key_leb (k1 k2 : list cell) : bool :=
  match k1, k2 with
  | [], _ => true
  | _ :: _, [] => false
  | a :: k1', b :: k2' =>
      if cell_leb a b then (if cell_leb b a then key_leb k1' k2' else true)
      else false
  end.

Definition row_leb (r1 r2 : list cell * list cell) : bool :=
  key_leb r1.1 r2.1.

(** *** Operations of pandas used by the code *)

(** [xls.parse(name)] *)
Definition parse (xls : gmap string Sheet) (name : string) : result DataFrame :=
  match xls !! name with
  | Some sh =>
      Ret (mkFrame [] (flat_index (header sh))
             (map (fun r => ([], r)) (body sh)))
  | None => Raise XLRDError
  end.

Definition positions (keys : list string) (labels : list string)
  : result (list nat) :=
  rmapM (fun k => match index_of k labels with
                  | Some i => Ret i
                  | None => Raise KeyError
                  end) keys.

Definition title_positions (keys : list string) (ts : list cell)
  : result (list nat) :=
  rmapM (fun k => match title_index k ts with
                  | Some i => Ret i
                  | None => Raise KeyError
                  end) keys.

(** [df.set_index(keys)]: the key columns become the index and leave
    the column axis. *)
Definition set_index (keys : list string) (df : DataFrame) : result DataFrame :=
  match columns df with
  | Index labels =>
      rbind (positions keys labels) (fun ps =>
        Ret (mkFrame keys
               (Index (drop_at ps 0 labels))
               (map (fun r => (map (fun i => nth i r.2 NaN) ps,
                               drop_at ps 0 r.2))
                    (rows df))))
  | MixedIndex ts =>
      rbind (title_positions keys ts) (fun ps =>
        Ret (mkFrame keys
               (flat_index (drop_at ps 0 ts))
               (map (fun r => (map (fun i => nth i r.2 NaN) ps,
                               drop_at ps 0 r.2))
                    (rows df))))
  | MultiIndex _ => Raise Unsupported
  end.

(** [df.sort_index()] *)
Definition sort_index (df : DataFrame) : DataFrame :=
  mkFrame (index_names df) (columns df) (sort_by row_leb (rows df)).

(** Looking up a column by its label ([drop], [df[label]], [df.loc])
    is modelled on a flat axis of text labels; on the other axes the
    model stops with [Unsupported]. *)

(** [df.drop(label, axis=1)] *)
Definition drop (label : string) (df : DataFrame) : result DataFrame :=
  match columns df with
  | Index labels =>
      match index_of label labels with
      | Some i =>
          Ret (mkFrame (index_names df)
                 (Index (drop_at [i] 0 labels))
                 (map (fun r => (r.1, drop_at [i] 0 r.2)) (rows df)))
      | None => Raise KeyError
      end
  | MultiIndex _ | MixedIndex _ => Raise Unsupported
  end.

(** [df[label]] on a flat column axis. *)
Definition getitem (df : DataFrame) (label : string) : result Series :=
  match columns df with
  | Index labels =>
      match index_of label labels with
      | Some i =>
          Ret (mkSeries (index_names df)
                 (map (fun r => (r.1, nth i r.2 NaN)) (rows df)))
      | None => Raise KeyError
      end
  | MultiIndex _ | MixedIndex _ => Raise Unsupported
  end.

(** Writing position [i] of a row; a row that is too short is filled
    up with NaN first. *)
Definition set_nth (i : nat) (v : cell) (vs : list cell) : list cell :=
  if bool_decide (i < length vs) then <[i := v]> vs
  else vs ++ replicate (i - length vs) NaN ++ [v].

Fixpoint zip_rows (rs : list (list cell * list cell))
    (items : list (list cell * cell)) (i : nat)
  : list (list cell * list cell) :=
  match rs, items with
  | r :: rs', it :: items' => (r.1, set_nth i it.2 r.2) :: zip_rows rs' items' i
  | _, _ => []
  end.

(** [df[label] = s] for a Series [s] that carries the index of [df]:
    the column is overwritten, or appended when the label is new. *)
Definition setitem (df : DataFrame) (label : string) (s : Series)
  : result DataFrame :=
  match columns df with
  | Index labels =>
      if bool_decide (length (s_items s) = length (rows df)) then
        match index_of label labels with
        | Some i =>
            Ret (mkFrame (index_names df) (Index labels)
                   (zip_rows (rows df) (s_items s) i))
        | None =>
            Ret (mkFrame (index_names df) (Index (labels ++ [label]))
                   (zip_rows (rows df) (s_items s) (length labels)))
        end
      else Raise ValueError
  | MultiIndex _ | MixedIndex _ => Raise Unsupported
  end.

(** [df.xs(key, level=name)]: the rows whose index has [key] at the
    named level, with that level dropped. *)
Definition xs (df : DataFrame) (key : string) (level : string)
  : result DataFrame :=
  match index_of level (index_names df) with
  | Some i =>
      let sel := filter (fun r => cell_is_str key (nth i r.1 NaN) = true)
                        (rows df) in
      match sel with
      | [] => Raise KeyError
      | _ =>
          Ret (mkFrame (drop_at [i] 0 (index_names df)) (columns df)
                 (map (fun r => (drop_at [i] 0 r.1, r.2)) sel))
      end
  | None => Raise KeyError
  end.

(** [s[s >= 0]] and [s[s > 0]]: comparing a text with a number raises
    TypeError; NaN compares false and is dropped. *)
Definition compare_items (test : F -> bool) (s : Series)
  : result (list bool) :=
  rmapM (fun it => match it.2 with
                   | CNum x => Ret (test x)
                   | CStr _ => Raise TypeError
                   end) (s_items s).

Fixpoint mask {A} (l : list A) (bs : list bool) : list A :=
  match l, bs with
  | x :: l', b :: bs' => if b then x :: mask l' bs' else mask l' bs'
  | _, _ => []
  end.

Definition select (test : F -> bool) (s : Series) : result Series :=
  rbind (compare_items test s) (fun bs =>
    Ret (mkSeries (s_names s) (mask (s_items s) bs))).

(** [df.to_dict()] and [s.to_dict()]: per column, the cells by index
    key, listed in row order (a later entry of the same key is the one
    the Python dict keeps). *)
Definition column_tuples (c : Columns) : list (list cell) :=
  match c with
  | Index l => map (fun s => [CStr s]) l
  | MultiIndex t => map (map CStr) t
  | MixedIndex ts => map (fun c => [c]) ts
  end.

Definition to_dict (df : DataFrame)
  : list (list cell * list (list cell * cell)) :=
  imap (fun i lbl => (lbl, map (fun r => (r.1, nth i r.2 NaN)) (rows df)))
       (column_tuples (columns df)).

Definition series_to_dict (s : Series) : list (list cell * cell) :=
  s_items s.

(** [df.loc[key, label]] for a tuple [key] of texts: the rows whose
    index key starts with [key]. *)
Fixpoint key_matches (key : list string) (k : list cell) : bool :=
  match key, k with
  | [], _ => true
  | s :: key', c :: k' => cell_is_str s c && key_matches key' k'
  | _ :: _, [] => false
  end.

Definition cell_mul (c : cell) (x : F) : result cell :=
  match c with
  | CNum y => Ret (CNum (fmul y x))
  | CStr _ => Raise TypeError
  end.

(** [df.loc[key, label] *= x]: the selected entries are read,
    multiplied and written back.  The write-back is modelled for a
    [key] that names every level of the index.  With a shorter [key]
    pandas selects a Series that carries the remaining levels and
    assigns the product by alignment of its index; that is not
    modelled. *)
Definition loc_imul (df : DataFrame) (key : list string) (label : string)
    (x : F) : result DataFrame :=
  match columns df with
  | Index labels =>
      match index_of label labels with
      | Some i =>
          if existsb (fun r => key_matches key r.1) (rows df) then
            rbind (rmapM (fun r : list cell * list cell =>
                            if key_matches key r.1
                            then rbind (cell_mul (nth i r.2 NaN) x)
                                   (fun v => Ret (r.1, set_nth i v r.2))
                            else Ret r)
                         (rows df))
                  (fun rs =>
                     if bool_decide (length key = length (index_names df))
                     then Ret (mkFrame (index_names df) (Index labels) rs)
                     else Raise Unsupported)
          else Raise KeyError
      | None => Raise KeyError
      end
  | MultiIndex _ | MixedIndex _ => Raise Unsupported
  end.

(** ** The store of DataFrame objects *)

(** Python variables, dict entries and model attributes hold references
    to DataFrames; [store] maps a reference to the current content of
    the object.  A computation returns a value or raises, and in both
    cases leaves a store behind. *)
Local Abbreviation store := (gmap loc DataFrame).

Definition M (A : Type) : Type := store -> result A * store.

#[local] Instance M_ret : MRet M := fun A a σ => (Ret a, σ).

#[local] Instance M_bind : MBind M := fun A B k c σ =>
  match c σ with
  | (Ret a, σ') => k a σ'
  | (Raise e, σ') => (Raise e, σ')
  end.

Definition lift {A} (r : result A) : M A := fun σ => (r, σ).

(** A new object gets a reference that is not in use. *)
Definition alloc (df : DataFrame) : M loc := fun σ =>
  let l := fresh (dom σ) in (Ret l, <[l := df]> σ).

(** Reading the object behind a reference.  Every reference that the
    code can hold points to an object; for a store that lacks it the
    model stops with [Unsupported]. *)
Definition load (l : loc) : M DataFrame := fun σ =>
  match σ !! l with
  | Some df => (Ret df, σ)
  | None => (Raise Unsupported, σ)
  end.

(** In-place update of an object. *)
Definition store_at (l : loc) (df : DataFrame) : M unit := fun σ =>
  (Ret tt, <[l := df]> σ).

Definition new (r : result DataFrame) : M loc :=
  df ← lift r; alloc df.

Fixpoint mfor {A} (l : list A) (body : A -> M unit) : M unit :=
  match l with
  | [] => mret tt
  | x :: l' => _ ← body x; mfor l' body
  end.

(** ** MvsoModel/input.py *)

(** [split_columns(columns, sep='.')].  A text has a [split] method;
    a tuple of a MultiIndex and a number have none, so the
    comprehension raises AttributeError at the first such label. *)
Definition split_columns (columns : Columns) (sep : string) : result Columns :=
  if Nat.eqb (ncols columns) 0 then Ret columns
  else
    match columns with
    | Index labels =>
        rbind (rmapM (fun col => PyStr.split col ".") labels) (fun column_tuples =>
          Ret (MultiIndex column_tuples))
    | MixedIndex titles =>
        match texts titles with
        | Some labels =>
            rbind (rmapM (fun col => PyStr.split col ".") labels)
                  (fun column_tuples => Ret (MultiIndex column_tuples))
        | None => Raise AttributeError
        end
    | MultiIndex _ => Raise AttributeError
    end.

(** [df.columns = cols]: pandas refuses an axis of another length. *)
Definition set_columns (l : loc) (cols : Columns) : M unit :=
  df ← load l;
  if Nat.eqb (ncols cols) (ncols (columns df))
  then store_at l (mkFrame (index_names df) cols (rows df))
  else lift (Raise ValueError).

Definition read_excel (xls : gmap string Sheet) : M pydict :=
  site ← new (rbind (parse xls "Site") (set_index ["Name"]));
  commodity ← new (rbind (parse xls "Commodity")
                          (set_index ["Site"; "Commodity"; "Type"]));
  process ← new (rbind (parse xls "Process") (set_index ["Site"; "Process"]));
  process_commodity ← new (rbind (parse xls "Process-Commodity")
                          (set_index ["Process"; "Commodity"; "Direction"]));
  transmission ← new (rbind (parse xls "Transmission")
                          (set_index ["Site In"; "Site Out";
                                      "Transmission"; "Commodity"]));
  storage ← new (rbind (parse xls "Storage")
                        (set_index ["Site"; "Storage"; "Commodity"]));
  demand ← new (rbind (parse xls "Demand") (set_index ["t"]));
  supim ← new (rbind (parse xls "SupIm") (set_index ["t"]));
  buy_sell_price ← new (rbind (parse xls "Buy-Sell-Price") (set_index ["t"]));
  dsm ← new (rbind (parse xls "DSM") (set_index ["Site"; "Commodity"]));
  global_prop ← new (rbind (parse xls "Global") (set_index ["Property"]));
  (* split columns by dots *)
  df ← load demand;
  cols ← lift (split_columns (columns df) ".");
  _ ← set_columns demand cols;
  df ← load supim;
  cols ← lift (split_columns (columns df) ".");
  _ ← set_columns supim cols;
  df ← load buy_sell_price;
  cols ← lift (split_columns (columns df) ".");
  _ ← set_columns buy_sell_price cols;
  let data : pydict :=
    [ ("global_prop", global_prop);
      ("site", site);
      ("commodity", commodity);
      ("process", process);
      ("process_commodity", process_commodity);
      ("transmission", transmission);
      ("storage", storage);
      ("demand", demand);
      ("supim", supim);
      ("buy_sell_price", buy_sell_price);
      ("dsm", dsm) ] in
  (* sort nested indexes *)
  _ ← mfor (map fst data) (fun key =>
        l ← lift (dict_get data key);
        df ← load l;
        if has_multiindex df then store_at l (sort_index df) else mret tt);
  mret data.

(** Values that the attributes of a model instance hold. *)
Inductive value : Type :=
  | VFrame (l : loc)
  | VSeries (s : Series)
  | VDict (d : list (list cell * list (list cell * cell)))
  | VSeriesDict (d : list (list cell * cell))
  | VTimesteps (t : list Z)
  | VCache (d : pydict).

(** A model instance: its attribute table and, for an instance loaded
    from a file, the input data cache dict [_data]. *)
Record Model : Type := mkModel {
  attrs : gmap string value;
  cache : option pydict
}.

Definition hasattr (prob : Model) (name : string) : bool :=
  if String.eqb name "_data" then bool_decide (is_Some (cache prob))
  else bool_decide (is_Some (attrs prob !! name)).

Definition getattr (prob : Model) (name : string) : result value :=
  if String.eqb name "_data" then
    match cache prob with
    | Some d => Ret (VCache d)
    | None => Raise AttributeError
    end
  else
    match attrs prob !! name with
    | Some v => Ret v
    | None => Raise AttributeError
    end.

(** [m.name = v] for the attribute names that [pyomo_model_prep]
    assigns (none of them is [_data]). *)
Definition setattr (m : Model) (name : string) (v : value) : Model :=
  mkModel (<[name := v]> (attrs m)) (cache m).

(** Modelled from the spec: [annuity_factor] of [modelhelper.py], which
    is not among the sources; the coefficient that amortizes an
    investment over the depreciation period [n] at discount rate [i],
    (1+i)^n * i / ((1+i)^n - 1). *)
Definition annuity_factor (n i : F) : F :=
  fdiv (fmul (fpow (fadd (flit 1) i) n) i)
       (fsub (fpow (fadd (flit 1) i) n) (flit 1)).

(** Modelled from the spec: [annuity_factor] applied to two columns of
    one table, row by row; arithmetic on a text raises TypeError. *)
Definition annuity_factor_series (n i : Series) : result Series :=
  rbind (rmapM (fun p : (list cell * cell) * (list cell * cell) =>
                  match p.1.2, p.2.2 with
                  | CNum dn, CNum di => Ret (p.1.1, CNum (annuity_factor dn di))
                  | _, _ => Raise TypeError
                  end)
               (zip (s_items n) (s_items i)))
        (fun items => Ret (mkSeries (s_names n) items)).

(** [df['annuity-factor'] = annuity_factor(df['depreciation'], df['wacc'])]
    on the object behind [l]. *)
Definition derive_annuity_factor (l : loc) : M unit :=
  df ← load l;
  n ← lift (getitem df "depreciation");
  i ← lift (getitem df "wacc");
  a ← lift (annuity_factor_series n i);
  df' ← lift (setitem df "annuity-factor" a);
  store_at l df'.

(** [ConcreteModel] is the attribute table of a new pyomo model. *)
Variable ConcreteModel : Model.

Definition pyomo_model_prep (data : pydict) (timesteps : list Z) : M Model :=
  let m := ConcreteModel in
  (* data import *)
  gp ← lift (dict_get data "global_prop");
  gpdf ← load gp;
  global_prop ← new (drop "description" gpdf);
  let m := setattr m "global_prop" (VFrame global_prop) in
  site ← lift (dict_get data "site");
  let m := setattr m "site" (VFrame site) in
  commodity ← lift (dict_get data "commodity");
  let m := setattr m "commodity" (VFrame commodity) in
  process ← lift (dict_get data "process");
  let m := setattr m "process" (VFrame process) in
  process_commodity ← lift (dict_get data "process_commodity");
  let m := setattr m "process_commodity" (VFrame process_commodity) in
  transmission ← lift (dict_get data "transmission");
  let m := setattr m "transmission" (VFrame transmission) in
  storage ← lift (dict_get data "storage");
  let m := setattr m "storage" (VFrame storage) in
  demand ← lift (dict_get data "demand");
  let m := setattr m "demand" (VFrame demand) in
  supim ← lift (dict_get data "supim");
  let m := setattr m "supim" (VFrame supim) in
  buy_sell_price ← lift (dict_get data "buy_sell_price");
  let m := setattr m "buy_sell_price" (VFrame buy_sell_price) in
  let m := setattr m "timesteps" (VTimesteps timesteps) in
  dsm ← lift (dict_get data "dsm");
  let m := setattr m "dsm" (VFrame dsm) in
  (* converting data frames to dict *)
  df ← load commodity;
  let m := setattr m "commodity_dict" (VDict (to_dict df)) in
  df ← load demand;
  let m := setattr m "demand_dict" (VDict (to_dict df)) in
  df ← load supim;
  let m := setattr m "supim_dict" (VDict (to_dict df)) in
  df ← load dsm;
  let m := setattr m "dsm_dict" (VDict (to_dict df)) in
  df ← load buy_sell_price;
  let m := setattr m "buy_sell_price_dict" (VDict (to_dict df)) in
  (* process input/output ratios *)
  pc ← load process_commodity;
  r_in ← lift (rbind (xs pc "In" "Direction") (fun d => getitem d "ratio"));
  let m := setattr m "r_in" (VSeries r_in) in
  r_out ← lift (rbind (xs pc "Out" "Direction") (fun d => getitem d "ratio"));
  let m := setattr m "r_out" (VSeries r_out) in
  let m := setattr m "r_in_dict" (VSeriesDict (series_to_dict r_in)) in
  let m := setattr m "r_out_dict" (VSeriesDict (series_to_dict r_out)) in
  (* process areas *)
  df ← load process;
  proc_area ← lift (getitem df "area-per-cap");
  let m := setattr m "proc_area" (VSeries proc_area) in
  df ← load site;
  sit_area ← lift (getitem df "area");
  let m := setattr m "sit_area" (VSeries sit_area) in
  proc_area ← lift (select (fleb (flit 0)) proc_area);
  let m := setattr m "proc_area" (VSeries proc_area) in
  sit_area ← lift (select (fleb (flit 0)) sit_area);
  let m := setattr m "sit_area" (VSeries sit_area) in
  (* input ratios for partial efficiencies *)
  r_in_min_fraction ← new (xs pc "In" "Direction");
  let m := setattr m "r_in_min_fraction" (VFrame r_in_min_fraction) in
  df ← load r_in_min_fraction;
  r_in_min_fraction ← lift (getitem df "ratio-min");
  let m := setattr m "r_in_min_fraction" (VSeries r_in_min_fraction) in
  r_in_min_fraction ← lift (select (fltb (flit 0)) r_in_min_fraction);
  let m := setattr m "r_in_min_fraction" (VSeries r_in_min_fraction) in
  (* output ratios for partial efficiencies *)
  r_out_min_fraction ← new (xs pc "Out" "Direction");
  let m := setattr m "r_out_min_fraction" (VFrame r_out_min_fraction) in
  df ← load r_out_min_fraction;
  r_out_min_fraction ← lift (getitem df "ratio-min");
  let m := setattr m "r_out_min_fraction" (VSeries r_out_min_fraction) in
  r_out_min_fraction ← lift (select (fltb (flit 0)) r_out_min_fraction);
  let m := setattr m "r_out_min_fraction" (VSeries r_out_min_fraction) in
  (* derive annuity factor from WACC and depreciation duration *)
  _ ← derive_annuity_factor process;
  _ ← derive_annuity_factor transmission;
  _ ← derive_annuity_factor storage;
  (* converting data frames to dictionaries *)
  df ← load process;
  let m := setattr m "process_dict" (VDict (to_dict df)) in
  df ← load transmission;
  let m := setattr m "transmission_dict" (VDict (to_dict df)) in
  df ← load storage;
  let m := setattr m "storage_dict" (VDict (to_dict df)) in
  mret m.

(** [get_input(prob, name)] *)
Definition get_input (prob : Model) (name : string) : M value :=
  if hasattr prob name then
    lift (getattr prob name)
  else if hasattr prob "_data"
          && match cache prob with
             | Some d => bool_decide (is_Some (dict_find d name))
             | None => false
             end
  then
    match cache prob with
    | Some d => lift (rbind (dict_get d name) (fun l => Ret (VFrame l)))
    | None => lift (Raise AttributeError)
    end
  else
    lift (Raise ValueError).

(** ** runme.py *)

Definition scenario_base (data : pydict) : M pydict :=
  mret data.

(** [pro.loc[key, label] *= x] on the object behind [pro]. *)
Definition loc_imul_at (pro : loc) (key : list string) (label : string)
    (x : F) : M unit :=
  df ← load pro;
  df' ← lift (loc_imul df key label x);
  store_at pro df'.

Definition scenario_Node_2_process_caps (data : pydict) : M pydict :=
  pro ← lift (dict_get data "process");
  _ ← loc_imul_at pro ["Node_2"; "Gas plant"] "cap-up" (flit 0.5);
  _ ← loc_imul_at pro ["Node_2"; "Biomass plant"] "cap-up" (flit 0.25);
  mret data.

(** ** comp.py *)

Section Legend.
Variable Handle : Type.

(** The loop of [deduplicate_legend]: one step per pair of
    [zip(handles, labels)], appending to both lists. *)
Definition dedup_step (acc : list Handle * list string)
    (p : Handle * string) : list Handle * list string :=
  let '(new_handles, new_labels) := acc in
  let '(hdl, lbl) := p in
  if bool_decide (lbl ∈ new_labels) then acc
  else (new_handles ++ [hdl], new_labels ++ [lbl]).

(** Order of the tuples [(label, handle)] in [sorted]: tuples compare
    by their first components where these differ, and the labels
    that reach the sort are pairwise different. *)
Definition pair_leb (p q : string * Handle) : bool := String.leb p.1 q.1.

(** [deduplicate_legend(handles, labels)]: the transposing zip
    of an empty list yields nothing, and unpacking nothing into two
    names raises ValueError. *)
Definition deduplicate_legend (handles : list Handle) (labels : list string)
  : result (list Handle * list string) :=
  let '(new_handles, new_labels) :=
    fold_left dedup_step (zip handles labels) ([], []) in
  match sort_by pair_leb (zip new_labels new_handles) with
  | [] => Raise ValueError
  | sorted =>
      let new_labels := map fst sorted in
      let new_handles := map snd sorted in
      Ret (new_handles, new_labels)
  end.

(** The handle that comes with the first occurrence of a label. *)
Fixpoint first_handle (lbl : string) (ps : list (Handle * string))
  : option Handle :=
  match ps with
  | [] => None
  | (h, l) :: ps' => if String.eqb lbl l then Some h else first_handle lbl ps'
  end.

(** What the loop maintains, [ps] being the pairs seen so far: the
    labels kept are those seen, each once, each with the handle of
    its first occurrence. *)
Definition dedup_inv (ps : list (Handle * string))
    (acc : list Handle * list string) : Prop :=
  length acc.1 = length acc.2
  /\ NoDup acc.2
  /\ (forall l, l ∈ acc.2 <-> l ∈ map snd ps)
  /\ (forall k l h, acc.2 !! k = Some l -> acc.1 !! k = Some h ->
                    first_handle l ps = Some h).
End Legend.
Arguments dedup_step {Handle} acc p.
Arguments pair_leb {Handle} p q.
Arguments deduplicate_legend {Handle} handles labels.
Arguments first_handle {Handle} lbl ps.
Arguments dedup_inv {Handle} ps acc.

(** [l.index(x)] *)
Fixpoint list_index (x : string) (l : list string) : result nat :=
  match l with
  | [] => Raise ValueError
  | y :: l' =>
      if String.eqb x y then Ret 0
      else rbind (list_index x l') (fun i => Ret (S i))
  end.

(** [l.pop(i)] for [i >= 0]: the element and the remaining list. *)
Definition list_pop {A} (l : list A) (i : nat) : result (A * list A) :=
  match l !! i with
  | Some x => Ret (x, delete i l)
  | None => Raise IndexError
  end.

(** The scenario names that [compare_scenarios] derives from the file
    names. *)
Definition scenario_names_of (result_files : list string) : list string :=
  map (fun rf =>
         PyStr.replace
           (PyStr.replace
              (PyStr.replace (PyStr.basename rf) "_" " ")
              ".xlsx" "")
           "scenario " "")
      result_files.

(** The body of the [try] in [compare_scenarios]; both lists are
    updated in place, so an exception leaves what was done before it. *)
Definition move_base (st : list string * list string)
  : result unit * (list string * list string) :=
  let '(result_files, scenario_names) := st in
  match list_index "base" scenario_names with
  | Raise e => (Raise e, st)
  | Ret base_scenario =>
      match list_pop result_files base_scenario with
      | Raise e => (Raise e, st)
      | Ret (rf, rest) =>
          let result_files := rest ++ [rf] in
          match list_pop scenario_names base_scenario with
          | Raise e => (Raise e, (result_files, scenario_names))
          | Ret (sn, rest') => (Ret tt, (result_files, rest' ++ [sn]))
          end
      end
  end.

(** [compare_scenarios] up to and including the [try ... except
    ValueError: pass]; what follows reads the files and plots. *)
Definition compare_scenarios_reorder (result_files : list string)
  : result unit * (list string * list string) :=
  let scenario_names := scenario_names_of result_files in
  match move_base (result_files, scenario_names) with
  | (Raise ValueError, st) => (Ret tt, st)
  | r => r
  end.

(** ** A small workbook

    Two sites, three processes; the rows of the Process sheet are not
    in index order. *)

Definition num (q : Q) : cell := CNum (flit q).

Definition example_workbook : gmap string Sheet :=
  list_to_map
    [ ("Site",
       mkSheet (map CStr ["Name"; "area"])
         [ [CStr "Node_2"; num 100]; [CStr "Node_1"; num 50] ]);
      ("Commodity",
       mkSheet (map CStr ["Site"; "Commodity"; "Type"; "price"])
         [ [CStr "Node_2"; CStr "Gas"; CStr "Stock"; num 27];
           [CStr "Node_2"; CStr "Elec"; CStr "Demand"; num 0] ]);
      ("Process",
       mkSheet (map CStr ["Site"; "Process"; "cap-up"; "area-per-cap";
                          "wacc"; "depreciation"])
         [ [CStr "Node_2"; CStr "Gas plant"; num 80; num 0; num 0.07; num 30];
           [CStr "Node_2"; CStr "Biomass plant"; num 5; num 0; num 0.07; num 25];
           [CStr "Node_1"; CStr "Wind park"; num 13; num 0.5; num 0.07; num 25] ]);
      ("Process-Commodity",
       mkSheet (map CStr ["Process"; "Commodity"; "Direction"; "ratio";
                          "ratio-min"])
         [ [CStr "Gas plant"; CStr "Gas"; CStr "In"; num 1; num 0.5];
           [CStr "Gas plant"; CStr "Elec"; CStr "Out"; num 0.6; num 0.3] ]);
      ("Transmission",
       mkSheet (map CStr ["Site In"; "Site Out"; "Transmission"; "Commodity";
                          "wacc"; "depreciation"])
         [ [CStr "Node_2"; CStr "Node_1"; CStr "hvac"; CStr "Elec";
            num 0.07; num 40] ]);
      ("Storage",
       mkSheet (map CStr ["Site"; "Storage"; "Commodity"; "wacc";
                          "depreciation"])
         [ [CStr "Node_2"; CStr "Pump"; CStr "Elec"; num 0.07; num 50] ]);
      ("Demand",
       mkSheet (map CStr ["t"; "Node_2.Elec"; "Node_1.Elec"])
         [ [num 0; num 0; num 0]; [num 1; num 50; num 20] ]);
      ("SupIm",
       mkSheet (map CStr ["t"; "Node_1.Wind"])
         [ [num 0; num 0]; [num 1; num 0.4] ]);
      ("Buy-Sell-Price",
       mkSheet (map CStr ["t"])
         [ [num 0]; [num 1] ]);
      ("DSM",
       mkSheet (map CStr ["Site"; "Commodity"; "delay"])
         [ [CStr "Node_2"; CStr "Elec"; num 3] ]);
      ("Global",
       mkSheet (map CStr ["Property"; "value"; "description"])
         [ [CStr "CO2 limit"; num 150000000; CStr "annual limit"] ]) ].

(** The same workbook without its DSM sheet. *)
Definition workbook_without_DSM : gmap string Sheet :=
  delete "DSM" example_workbook.

(** The same workbook with the year 2020 typed as a number into the
    header row of the Demand sheet, or of the Process sheet. *)
Definition workbook_numeric_Demand_title : gmap string Sheet :=
  <[ "Demand" :=
       mkSheet [CStr "t"; CStr "Node_2.Elec"; num 2020]
         [ [num 0; num 0; num 0]; [num 1; num 50; num 20] ] ]>
    example_workbook.

Definition workbook_numeric_Process_title : gmap string Sheet :=
  <[ "Process" :=
       mkSheet [CStr "Site"; CStr "Process"; num 2020]
         [ [CStr "Node_2"; CStr "Gas plant"; num 80] ] ]>
    example_workbook.

(** The same workbook with a Process sheet whose first row has a blank
    cell under 'Site'. *)
Definition workbook_blank_Site : gmap string Sheet :=
  <[ "Process" :=
       mkSheet (map CStr ["Site"; "Process"; "cap-up"])
         [ [NaN; CStr "Gas plant"; num 80];
           [CStr "Node_2"; CStr "Gas plant"; num 80];
           [num 7; CStr "Gas plant"; num 80];
           [CStr "Node_1"; CStr "Wind park"; num 13] ] ]>
    example_workbook.

(** ** The spreadsheet schema, as the specification words it

    Each key of the input dict with the sheet it is parsed from and its
    fixed index columns, in the order of the dict. *)
Definition schema : list (string * string * list string) :=
  [ ("global_prop", "Global", ["Property"]);
    ("site", "Site", ["Name"]);
    ("commodity", "Commodity", ["Site"; "Commodity"; "Type"]);
    ("process", "Process", ["Site"; "Process"]);
    ("process_commodity", "Process-Commodity",
     ["Process"; "Commodity"; "Direction"]);
    ("transmission", "Transmission",
     ["Site In"; "Site Out"; "Transmission"; "Commodity"]);
    ("storage", "Storage", ["Site"; "Storage"; "Commodity"]);
    ("demand", "Demand", ["t"]);
    ("supim", "SupIm", ["t"]);
    ("buy_sell_price", "Buy-Sell-Price", ["t"]);
    ("dsm", "DSM", ["Site"; "Commodity"]) ].

(** The time series tables, whose column labels are split. *)
Definition time_series (key : string) : bool :=
  existsb (String.eqb key) ["demand"; "supim"; "buy_sell_price"].

Definition sorted_if_multiindex (df : DataFrame) : DataFrame :=
  if has_multiindex df then sort_index df else df.

(** The table expected under a key: the sheet, set to its index
    columns, with split column labels for a time series, and sorted by
    its index when that is a MultiIndex. *)
Definition table_of (xls : gmap string Sheet)
    (e : string * string * list string) : result DataFrame :=
  let '(key, sheet, idx) := e in
  rbind (rbind (parse xls sheet) (set_index idx)) (fun df =>
    rbind (if time_series key then split_columns (columns df) "."
           else Ret (columns df))
          (fun cols =>
             Ret (sorted_if_multiindex
                    (mkFrame (index_names df) cols (rows df))))).

(** A workbook adheres to the schema when it has every sheet, every
    sheet has its index columns, and every title of a time series
    sheet is a text. *)
Definition adheres (xls : gmap string Sheet) : Prop :=
  Forall (fun e : string * string * list string =>
            exists sh, xls !! e.1.2 = Some sh
                       /\ Forall (fun c => CStr c ∈ header sh) e.2
                       /\ (time_series e.1.1 = true ->
                           Forall (fun t => exists s, t = CStr s)
                                  (header sh)))
         schema.

(** The entries of a row at the positions that are not in [ps]. *)
Definition others {A} (ps : list nat) (row : list A) : list A :=
  (filter (fun p : nat * A => p.1 ∉ ps) (imap pair row)).*2.

(** A row of a sheet as a row of its table, [ps] being the positions
    of the index columns: the key are the cells at [ps], in the order
    of [ps], and the values are the other cells. *)
Definition keyed (ps : list nat) (row : list cell) : list cell * list cell :=
  (map (fun p => nth p row NaN) ps, others ps row).

(** [p] is the position of the first title of the text [c]. *)
Definition first_title (ts : list cell) (c : string) (p : nat) : Prop :=
  ts !! p = Some (CStr c) /\ forall q, q < p -> ts !! q <> Some (CStr c).

(** What [df.loc[key, label] *= x] does to one row, [i] being the
    position of the column: the entry of a row that [key] selects is
    multiplied by [x], any other row is kept. *)
Definition cell_times (c : cell) (x : F) : cell :=
  match c with
  | CNum y => CNum (fmul y x)
  | CStr s => CStr s
  end.

Definition scale_row (key : list string) (i : nat) (x : F)
    (r : list cell * list cell) : list cell * list cell :=
  if key_matches key r.1
  then (r.1, set_nth i (cell_times (nth i r.2 NaN) x) r.2)
  else r.

(** [df'] is [df] after
    [df['annuity-factor'] = annuity_factor(df['depreciation'], df['wacc'])]. *)
Definition with_annuity_factor (df df' : DataFrame) : Prop :=
  exists n i a,
    getitem df "depreciation" = Ret n
    /\ getitem df "wacc" = Ret i
    /\ annuity_factor_series n i = Ret a
    /\ setitem df "annuity-factor" a = Ret df'.

(** [df'] is [df] with the column 'annuity-factor' added: the index
    and the other columns are those of [df], the new column stands at
    position [i_a] (that of the label when [df] has it, behind the last
    column otherwise), and row by row its entry is
    (1+i)^n * i / ((1+i)^n - 1) for the entries [n] and [i] of the row
    under 'depreciation' and 'wacc'; every other entry is kept. *)
Definition annuity_added (df df' : DataFrame) : Prop :=
  exists labels i_n i_w i_a,
    columns df = Index labels
    /\ index_of "depreciation" labels = Some i_n
    /\ index_of "wacc" labels = Some i_w
    /\ index_names df' = index_names df
    /\ (index_of "annuity-factor" labels = Some i_a
          /\ columns df' = Index labels
        \/ index_of "annuity-factor" labels = None
           /\ i_a = length labels
           /\ columns df' = Index (labels ++ ["annuity-factor"]))
    /\ Forall2 (fun r r' : list cell * list cell =>
                  r'.1 = r.1
                  /\ (exists n i,
                        nth i_n r.2 NaN = CNum n
                        /\ nth i_w r.2 NaN = CNum i
                        /\ nth i_a r'.2 NaN
                           = CNum (fdiv (fmul (fpow (fadd (flit 1) i) n) i)
                                        (fsub (fpow (fadd (flit 1) i) n)
                                              (flit 1))))
                  /\ forall c, c <> i_a -> nth c r'.2 NaN = nth c r.2 NaN)
               (rows df) (rows df').

(** The round trip of the input tables as it is claimed: whatever key
    of the input dict is asked for, [get_input] on the prepared model
    yields a DataFrame equal to the one under that key, be it as
    [read_excel] left it or as it is after the preparation. *)
Definition round_trip_claim : Prop :=
  forall (xls : gmap string Sheet) (σ σ1 σ2 : store) (data : pydict)
         (timesteps : list Z) (m : Model) (k : string),
    read_excel xls σ = (Ret data, σ1) ->
    pyomo_model_prep data timesteps σ1 = (Ret m, σ2) ->
    k ∈ map (fun e : string * string * list string => e.1.1) schema ->
    exists l l' df,
      dict_find data k = Some l
      /\ get_input m k σ2 = (Ret (VFrame l'), σ2)
      /\ σ2 !! l' = Some df
      /\ (σ1 !! l = Some df \/ σ2 !! l = Some df).

(** The example workbook read into an empty store, and the model
    prepared from it. *)
Definition example_read : result pydict * store :=
  read_excel example_workbook ∅.

Definition example_data : pydict :=
  match example_read.1 with
  | Ret data => data
  | Raise _ => []
  end.

Definition example_prep : result Model * store :=
  pyomo_model_prep example_data [0%Z; 1%Z] example_read.2.

Definition example_model : Model :=
  match example_prep.1 with
  | Ret m => m
  | Raise _ => ConcreteModel
  end.

(** A new model without attributes, as the starting point of the
    examples. *)
Definition empty_model : Model := mkModel ∅ None.

(** A model instance with one attribute and a cache of one table, and
    the 'process' table of the example. *)
Definition example_prob : Model :=
  mkModel {[ "process" := VFrame 3%positive ]} (Some [("site", 1%positive)]).

Definition example_process : DataFrame :=
  match example_read.2 !! 3%positive with
  | Some df => df
  | None => mkFrame [] (Index []) []
  end.

(** A computation that returns normally from a given store. *)
Definition returns {A} (r : result A * store) : Prop :=
  exists a σ', r = (Ret a, σ').

(** ** Further operations of the code *)

(** [sep.join(parts)] *)
Fixpoint str_join (sep : string) (parts : list string) : string :=
  match parts with
  | [] => ""
  | [p] => p
  | p :: parts' => p +:+ sep +:+ str_join sep parts'
  end.


(** [get_most_recent_entry(search_dir)]: [entries] is the list that
    [glob.glob] yields for the directory, in the order of the listing,
    and [getmtime] gives the modification time of an entry in seconds.
    [list.sort] is stable, and the last element of an empty list does
    not exist. *)
Definition mtime_leb (getmtime : string -> Q) (x y : string) : bool :=
  Qle_bool (getmtime x) (getmtime y).

Definition get_most_recent_entry (entries : list string)
    (getmtime : string -> Q) : result string :=
  let entries := sort_by (mtime_leb getmtime) entries in
  match last entries with
  | Some e => Ret e
  | None => Raise IndexError
  end.

(** [glob_result_files(folder_name)]: [matches] is the list that
    [glob.glob] yields for the pattern. *)
Definition glob_result_files (matches : list string) : list string :=
  sort_by String.leb matches.

(** The loop body of [__main__] for one directory, as far as
    [compare_scenarios] is modelled. *)
Definition main_compare (matches : list string)
  : result unit * (list string * list string) :=
  let result_files := glob_result_files matches in
  compare_scenarios_reorder (reverse result_files).

(** ** File names of runme.py *)

(** [s.endswith(c)] for a single character. *)
Fixpoint endswith_char (c : ascii) (s : string) : bool :=
  match s with
  | EmptyString => false
  | String x EmptyString => Ascii.eqb x c
  | String _ s' => endswith_char c s'
  end.

(** [os.path.join(a, b)] of posixpath: an absolute [b] replaces [a]. *)
Definition path_join (a b : string) : string :=
  if String.prefix "/" b then b
  else if String.eqb a "" || endswith_char "/" a then a +:+ b
  else a +:+ "/" +:+ b.

(** [s.format(a1, a2, ...)] with string arguments, for format strings whose
    replacement fields are all of the form [{}]; [{{] and [}}] stand
    for a brace.  A field without an argument left raises IndexError, a
    single brace ValueError; fields with a name, an index, a conversion
    or a format specification are not modelled. *)
Fixpoint format (s : string) (args : list string) : result string :=
  match s with
  | EmptyString => Ret ""
  | String c s' =>
      if Ascii.eqb c "{" then
        match s' with
        | EmptyString => Raise ValueError
        | String d s'' =>
            if Ascii.eqb d "}" then
              match args with
              | a :: args' =>
                  rbind (format s'' args') (fun r => Ret (a +:+ r))
              | [] => Raise IndexError
              end
            else if Ascii.eqb d "{" then
              rbind (format s'' args) (fun r => Ret (String "{" r))
            else Raise Unsupported
        end
      else if Ascii.eqb c "}" then
        match s' with
        | EmptyString => Raise ValueError
        | String d s'' =>
            if Ascii.eqb d "}" then
              rbind (format s'' args) (fun r => Ret (String "}" r))
            else Raise ValueError
        end
      else rbind (format s' args) (fun r => Ret (String c r))
  end.

(** [result_dir] as [prepare_result_directory] derives it; [now] is the
    time stamp that [strftime] yields. *)
Definition result_dir_of (result_name now : string) : result string :=
  rbind (format "{}-{}" [result_name; now])
        (fun d => Ret (path_join "result" d)).

(** The file names that [run_scenario] derives from [result_dir] and
    the scenario name: the log file, the HDF5 file, the report
    spreadsheet and the stem of the figure files. *)
Definition log_filename (result_dir sce : string) : result string :=
  format (path_join result_dir "{}.log") [sce].

Definition h5_filename (result_dir sce : string) : result string :=
  rbind (format "{}.h5" [sce]) (fun f => Ret (path_join result_dir f)).

Definition report_filename (result_dir sce : string) : result string :=
  format (path_join result_dir "{}.xlsx") [sce].

Definition figure_basename (result_dir sce : string) : result string :=
  rbind (format "{}" [sce]) (fun f => Ret (path_join result_dir f)).

(** The commodities that [compare_scenarios] extracts from the labels
    of the columns of a sheet 'Commodity sums': every label is split at
    its dots, and the parts are unpacked into site and commodity. *)
Definition commodities_of (values : list string) : result (gset string) :=
  let sitcom := map (PyStr.split_on ".") values in
  rbind (rmapM (fun sc : list string =>
                  match sc with
                  | [_; com] => Ret com
                  | _ => Raise ValueError
                  end)
               sitcom)
        (fun coms => Ret (list_to_set coms)).

(** A label made of a site and a commodity, neither with a dot. *)
Definition site_commodity (p : string * string) : string :=
  p.1 +:+ "." +:+ p.2.

Definition dotless (p : string * string) : Prop :=
  PyStr.has_char "." p.1 = false /\ PyStr.has_char "." p.2 = false.

(** ** runmes/run1node.py *)

(** [df.loc[key, label] = v] for a tuple [key] of texts and a number
    [v]: the entry of every row whose index key starts with [key] is
    replaced.  When the column or such a row is missing, pandas
    enlarges the table; that is not modelled. *)
Definition set_row (key : list string) (i : nat) (v : F)
    (r : list cell * list cell) : list cell * list cell :=
  if key_matches key r.1 then (r.1, set_nth i (CNum v) r.2) else r.

Definition loc_set (df : DataFrame) (key : list string) (label : string)
    (v : F) : result DataFrame :=
  match columns df with
  | Index labels =>
      match index_of label labels with
      | Some i =>
          if existsb (fun r => key_matches key r.1) (rows df) then
            Ret (mkFrame (index_names df) (Index labels)
                   (map (set_row key i v) (rows df)))
          else Raise Unsupported
      | None => Raise Unsupported
      end
  | MultiIndex _ | MixedIndex _ => Raise Unsupported
  end.

Definition loc_set_at (l : loc) (key : list string) (label : string)
    (v : F) : M unit :=
  df ← load l;
  df' ← lift (loc_set df key label v);
  store_at l df'.

(** [scenario_generator(scenario_name, pv_cost, bat_cost,
    diesel_gen_cost, fuel_cost)]: the scenario function together with
    its [__name__]. *)
Definition scenario_generator (scenario_name : string)
    (pv_cost bat_cost diesel_gen_cost fuel_cost : F)
  : string * (pydict -> M pydict) :=
  let scenario := fun data : pydict =>
    (* short-hands for individual DataFrames *)
    com ← lift (dict_get data "commodity");
    pro ← lift (dict_get data "process");
    sto ← lift (dict_get data "storage");
    (* row indices for entries *)
    let diesel := ["StRupertMayer"; "Diesel"; "Stock"] in
    let pv_plant := ["StRupertMayer"; "Photovoltaics"] in
    let diesel_gen := ["StRupertMayer"; "Diesel generator"] in
    let battery := ["StRupertMayer"; "Battery"; "Electricity"] in
    (* change investment/fuel cost values according to arguments *)
    _ ← loc_set_at pro pv_plant "inv-cost" pv_cost;
    _ ← loc_set_at sto battery "inv-cost-c" bat_cost;
    _ ← loc_set_at pro diesel_gen "inv-cost" diesel_gen_cost;
    _ ← loc_set_at com diesel "price" fuel_cost;
    (* for the 3 investment costs, also change fix costs accordingly *)
    _ ← loc_set_at pro pv_plant "fix-cost" (fmul (flit 0.05) pv_cost);
    _ ← loc_set_at sto battery "fix-cost-c" (fmul (flit 0.05) bat_cost);
    _ ← loc_set_at pro diesel_gen "fix-cost"
          (fmul (flit 0.1) diesel_gen_cost);
    mret data in
  (scenario_name, scenario).

(** The rows of the tables 'process' and 'storage' after a generated
    scenario: [i] is the position of the investment cost column and
    [f] that of the fix cost column. *)
Definition pro_row (pv_cost diesel_gen_cost : F) (i f : nat)
    (r : list cell * list cell) : list cell * list cell :=
  set_row ["StRupertMayer"; "Diesel generator"] f
    (fmul (flit 0.1) diesel_gen_cost)
    (set_row ["StRupertMayer"; "Photovoltaics"] f
       (fmul (flit 0.05) pv_cost)
       (set_row ["StRupertMayer"; "Diesel generator"] i diesel_gen_cost
          (set_row ["StRupertMayer"; "Photovoltaics"] i pv_cost r))).

Definition sto_row (bat_cost : F) (i f : nat)
    (r : list cell * list cell) : list cell * list cell :=
  set_row ["StRupertMayer"; "Battery"; "Electricity"] f
    (fmul (flit 0.05) bat_cost)
    (set_row ["StRupertMayer"; "Battery"; "Electricity"] i bat_cost r).

(** ** Small tables for the scenarios *)

(** A dict with a 'process' table only, and tables that lack what
    [scenario_Node_2_process_caps] writes. *)
Definition caps_data : pydict := [("process", 1%positive)].

Definition process_gas_only : DataFrame :=
  mkFrame ["Site"; "Process"] (Index ["cap-up"])
    [ ([CStr "Node_1"; CStr "Wind park"], [num 13]);
      ([CStr "Node_2"; CStr "Gas plant"], [num 80]) ].

Definition process_text_entry : DataFrame :=
  mkFrame ["Site"; "Process"] (Index ["cap-up"])
    [ ([CStr "Node_2"; CStr "Gas plant"], [CStr "inf"]) ].

Definition process_no_cap_up : DataFrame :=
  mkFrame ["Site"; "Process"] (Index ["inst-cap"])
    [ ([CStr "Node_2"; CStr "Gas plant"], [num 80]) ].

Definition process_no_gas : DataFrame :=
  mkFrame ["Site"; "Process"] (Index ["cap-up"])
    [ ([CStr "Node_1"; CStr "Wind park"], [num 13]) ].

(** A 'process' table with a third index level. *)
Definition process_three_levels : DataFrame :=
  mkFrame ["Site"; "Process"; "Year"] (Index ["cap-up"])
    [ ([CStr "Node_2"; CStr "Gas plant"; num 2020], [num 80]);
      ([CStr "Node_2"; CStr "Biomass plant"; num 2020], [num 5]) ].

(** The tables of a one-node system that the generated scenarios of
    run1node.py write to. *)
Definition node_commodity : DataFrame :=
  mkFrame ["Site"; "Commodity"; "Type"] (Index ["price"; "max"])
    [ ([CStr "StRupertMayer"; CStr "Diesel"; CStr "Stock"],
       [num 0.14; num 1000]);
      ([CStr "StRupertMayer"; CStr "Electricity"; CStr "Demand"],
       [num 0; num 0]) ].

Definition node_process : DataFrame :=
  mkFrame ["Site"; "Process"] (Index ["inv-cost"; "fix-cost"; "cap-up"])
    [ ([CStr "StRupertMayer"; CStr "Diesel generator"],
       [num 300; num 30; num 100]);
      ([CStr "StRupertMayer"; CStr "Photovoltaics"],
       [num 3000; num 150; num 500]) ].

Definition node_storage : DataFrame :=
  mkFrame ["Site"; "Storage"; "Commodity"] (Index ["inv-cost-c"; "fix-cost-c"])
    [ ([CStr "StRupertMayer"; CStr "Battery"; CStr "Electricity"],
       [num 1500; num 75]) ].

Definition node_data : pydict :=
  [("commodity", 1%positive); ("process", 2%positive);
   ("storage", 3%positive)].

Definition node_store : store :=
  {[ 1%positive := node_commodity; 2%positive := node_process;
     3%positive := node_storage ]}.
(** * Properties *)

(** ** The string operations on the labels and file names of the code *)

Example split_DE_Elec : PyStr.split "DE.Elec" "." = Ret ["DE"; "Elec"].
Proof. reflexivity. Qed.

Example split_dots : PyStr.split_on "." ".a.." = [""; "a"; ""; ""].
Proof. reflexivity. Qed.

Example split_long_separator :
  PyStr.split_on "ab" "xabyabab" = ["x"; "y"; ""; ""].
Proof. reflexivity. Qed.

Example split_empty_separator : PyStr.split "DE.Elec" "" = Raise ValueError.
Proof. reflexivity. Qed.

Example replace_overlapping : PyStr.replace "aaa" "aa" "b" = "ba".
Proof. reflexivity. Qed.

Example replace_empty_old : PyStr.replace "abc" "" "-" = "-a-b-c-".
Proof. reflexivity. Qed.

Example basename_of_path :
  PyStr.basename "result/run-1/scenario_base.xlsx" = "scenario_base.xlsx".
Proof. reflexivity. Qed.

Example scenario_names_of_files :
  scenario_names_of ["result/scenario_base.xlsx";
                     "result/scenario_Node_2_process_caps.xlsx"]
  = ["base"; "Node 2 process caps"].
Proof. reflexivity. Qed.

(** ** The error monad *)

Lemma rmapM_total {A B} (f : A -> result B) (g : A -> B) (l : list A) :
  (forall x, f x = Ret (g x)) -> rmapM f l = Ret (map g l).
Proof.
  intros Hf. induction l as [|x l IH]; simpl; [done|].
  by rewrite Hf, IH.
Qed.

Lemma rbind_inv {A B} (r : result A) (k : A -> result B) (b : B) :
  rbind r k = Ret b -> exists a, r = Ret a /\ k a = Ret b.
Proof. destruct r as [a|e]; simpl; [eauto | done]. Qed.

Lemma rmapM_length {A B} (f : A -> result B) (l : list A) (l' : list B) :
  rmapM f l = Ret l' -> length l' = length l.
Proof.
  revert l'. induction l as [|x l IH]; intros l' E; simpl in E.
  - by inversion E.
  - apply rbind_inv in E as (y & _ & E).
    apply rbind_inv in E as (ys & E1 & E).
    inversion E; subst. simpl. by rewrite (IH ys).
Qed.

Lemma bind_inv {A B} (c : M A) (k : A -> M B) (σ σ' : store) (b : B) :
  (c ≫= k) σ = (Ret b, σ') ->
  exists a σ1, c σ = (Ret a, σ1) /\ k a σ1 = (Ret b, σ').
Proof.
  unfold mbind, M_bind. destruct (c σ) as [[a|e] σ1]; [eauto | done].
Qed.

Lemma bind_ret {A B} (c : M A) (k : A -> M B) (σ σ1 : store) (a : A) :
  c σ = (Ret a, σ1) -> (c ≫= k) σ = k a σ1.
Proof. unfold mbind, M_bind. by intros ->. Qed.

Lemma lift_inv {A} (r : result A) (σ σ' : store) (a : A) :
  lift r σ = (Ret a, σ') -> r = Ret a /\ σ' = σ.
Proof. unfold lift. by intros [= -> ->]. Qed.

Lemma load_inv (l : loc) (σ σ' : store) (df : DataFrame) :
  load l σ = (Ret df, σ') -> σ !! l = Some df /\ σ' = σ.
Proof.
  unfold load. destruct (σ !! l) as [d|]; [|done]. by intros [= -> ->].
Qed.

Lemma load_ret (l : loc) (σ : store) (df : DataFrame) :
  σ !! l = Some df -> load l σ = (Ret df, σ).
Proof. unfold load. by intros ->. Qed.

Lemma store_at_inv (l : loc) (df : DataFrame) (σ σ' : store) (u : unit) :
  store_at l df σ = (Ret u, σ') -> σ' = <[l := df]> σ.
Proof. unfold store_at. by intros [= <-]. Qed.

Lemma alloc_inv (df : DataFrame) (σ σ' : store) (l : loc) :
  alloc df σ = (Ret l, σ') -> σ !! l = None /\ σ' = <[l := df]> σ.
Proof.
  unfold alloc. intros [= <- <-]. split; [|done].
  apply not_elem_of_dom, is_fresh.
Qed.

Lemma new_inv (r : result DataFrame) (σ σ' : store) (l : loc) :
  new r σ = (Ret l, σ') ->
  exists df, r = Ret df /\ σ !! l = None /\ σ' = <[l := df]> σ.
Proof.
  unfold new. intros E. apply bind_inv in E as (df & σ1 & E1 & E).
  apply lift_inv in E1 as [-> ->]. apply alloc_inv in E. eauto.
Qed.

(** ** Splitting labels *)

Lemma has_char_cons (c d : ascii) (s : string) :
  PyStr.has_char c (String d s) = false ->
  c <> d /\ PyStr.has_char c s = false.
Proof.
  unfold PyStr.has_char. simpl. intros E.
  apply orb_false_iff in E as [E1 E2]. split; [|done].
  by apply Ascii.eqb_neq.
Qed.

Lemma prefix_cons (a b : ascii) (s1 s2 : string) :
  String.prefix (String a s1) (String b s2)
  = if ascii_dec a b then String.prefix s1 s2 else false.
Proof. reflexivity. Qed.

Lemma prefix_nil (s : string) : String.prefix "" s = true.
Proof. by destruct s. Qed.

Lemma split_go_dot_cons (c : ascii) (s : string) :
  "."%char <> c ->
  PyStr.split_go "." 0 (String c s)
  = match PyStr.split_go "." 0 s with
    | f :: fs => String c f :: fs
    | [] => [String c ""]
    end.
Proof.
  intros Hc. cbn [PyStr.split_go]. rewrite prefix_cons.
  by destruct (ascii_dec "." c).
Qed.

Lemma split_on_no_dot (s : string) :
  PyStr.has_char "." s = false -> PyStr.split_on "." s = [s].
Proof.
  unfold PyStr.split_on. induction s as [|c s IH]; intros Hs; [done|].
  apply has_char_cons in Hs as [Hc Hs].
  rewrite split_go_dot_cons by done. by rewrite IH.
Qed.

Lemma split_on_site_commodity (site commodity : string) :
  PyStr.has_char "." site = false ->
  PyStr.has_char "." commodity = false ->
  PyStr.split_on "." (site +:+ "." +:+ commodity) = [site; commodity].
Proof.
  intros Hs Hc. unfold PyStr.split_on.
  induction site as [|c site IH].
  - change ("" +:+ "." +:+ commodity) with (String "." commodity).
    cbn [PyStr.split_go]. rewrite prefix_cons.
    destruct (ascii_dec "." ".") as [_|Hne]; [|done].
    rewrite prefix_nil.
    change (PyStr.split_go "." (String.length "." - 1) commodity)
      with (PyStr.split_on "." commodity).
    by rewrite split_on_no_dot.
  - apply has_char_cons in Hs as [Hne Hs].
    change (String c site +:+ "." +:+ commodity)
      with (String c (site +:+ "." +:+ commodity)).
    rewrite split_go_dot_cons by done. by rewrite IH.
Qed.

(** ** Titles of a flat column axis *)

Lemma texts_map (ts : list cell) (labels : list string) :
  texts ts = Some labels <-> ts = map CStr labels.
Proof.
  revert labels. induction ts as [|[x|s] ts IH]; intros labels; simpl.
  - split; [by intros [= <-]|]. by destruct labels.
  - split; [done|]. by destruct labels.
  - split.
    + destruct (texts ts) as [l|]; [|done]. intros [= <-]. simpl.
      f_equal. by apply IH.
    + destruct labels as [|l labels]; [done|]. intros [= -> E].
      apply IH in E. by rewrite E.
Qed.

Lemma texts_Forall (ts : list cell) :
  is_Some (texts ts) <-> Forall (fun t => exists s, t = CStr s) ts.
Proof.
  split.
  - intros [labels E]. apply texts_map in E as ->.
    apply Forall_forall. intros t Ht. change (map CStr labels) with (CStr <$> labels) in Ht.
    apply list_elem_of_fmap in Ht as (s & -> & _). eauto.
  - induction 1 as [|t ts [s ->] _ [labels IH]]; simpl; [eauto|].
    rewrite IH. simpl. eauto.
Qed.

Lemma title_index_map (x : string) (labels : list string) :
  title_index x (map CStr labels) = index_of x labels.
Proof.
  induction labels as [|l labels IH]; simpl; [done|]. by rewrite IH.
Qed.

Lemma title_positions_map (keys labels : list string) :
  title_positions keys (map CStr labels) = positions keys labels.
Proof.
  unfold title_positions, positions.
  induction keys as [|k keys IH]; simpl; [done|].
  by rewrite title_index_map, IH.
Qed.

Lemma flat_index_map (labels : list string) :
  flat_index (map CStr labels) = Index labels.
Proof.
  unfold flat_index.
  by rewrite (proj2 (texts_map (map CStr labels) labels) eq_refl).
Qed.

Lemma drop_at_map {A B} (f : A -> B) (ps : list nat) (i : nat) (l : list A) :
  drop_at ps i (map f l) = map f (drop_at ps i l).
Proof.
  revert i. induction l as [|x l IH]; intros i; simpl; [done|].
  rewrite IH. by destruct (bool_decide (i ∈ ps)).
Qed.

Lemma drop_at_others_from {A} (ps : list nat) (i : nat) (l : list A) :
  drop_at ps i l
  = (filter (fun p : nat * A => p.1 ∉ ps)
            (imap (fun j x => (i + j, x)) l)).*2.
Proof.
  revert i. induction l as [|x l IH]; intros i; [done|].
  cbn [drop_at imap]. rewrite filter_cons. cbn [fst]. rewrite Nat.add_0_r.
  rewrite (IH (S i)).
  assert (imap ((fun j (y : A) => (i + j, y)) ∘ S) l
          = imap (fun j y => (S i + j, y)) l) as ->.
  { apply imap_ext. intros j y _. cbn. f_equal. lia. }
  case_bool_decide as Hi.
  - by rewrite decide_False by auto.
  - by rewrite decide_True by done.
Qed.

Lemma drop_at_others {A} (ps : list nat) (l : list A) :
  drop_at ps 0 l = others ps l.
Proof. apply drop_at_others_from. Qed.

(** [set_index] on a freshly parsed sheet, whatever its titles are. *)
Lemma set_index_flat (keys names : list string) (ts : list cell)
    (rs : list (list cell * list cell)) :
  set_index keys (mkFrame names (flat_index ts) rs)
  = rbind (title_positions keys ts) (fun ps =>
      Ret (mkFrame keys (flat_index (drop_at ps 0 ts))
             (map (fun r => (map (fun p => nth p r.2 NaN) ps,
                             drop_at ps 0 r.2)) rs))).
Proof.
  unfold set_index, flat_index at 1. cbn [columns rows].
  destruct (texts ts) as [labels|] eqn:Et; [|done].
  apply texts_map in Et as ->. rewrite title_positions_map.
  destruct (positions keys labels) as [ps|e]; [|done]. simpl.
  by rewrite drop_at_map, flat_index_map.
Qed.

Lemma split_columns_nonempty (labels : list string) (sep : string) :
  labels <> [] ->
  split_columns (Index labels) sep
  = Ret (MultiIndex (map (PyStr.split_on ".") labels)).
Proof.
  intros Hne. unfold split_columns. simpl.
  destruct labels as [|l labels]; [done|]. simpl length. simpl Nat.eqb.
  by rewrite (rmapM_total _ (PyStr.split_on ".")).
Qed.

Lemma split_columns_empty (columns : Columns) (sep : string) :
  ncols columns = 0 -> split_columns columns sep = Ret columns.
Proof. intros E. unfold split_columns. by rewrite E. Qed.

Lemma split_columns_ncols (columns columns' : Columns) (sep : string) :
  split_columns columns sep = Ret columns' -> ncols columns' = ncols columns.
Proof.
  unfold split_columns. destruct (Nat.eqb (ncols columns) 0).
  - by intros [= ->].
  - destruct columns as [labels|t|ts]; [|done|].
    + intros E. apply rbind_inv in E as (tu & E1 & [= <-]). simpl.
      by apply rmapM_length in E1.
    + destruct (texts ts) as [labels|] eqn:Et; [|done]. intros E.
      apply rbind_inv in E as (tu & E1 & [= <-]). simpl.
      apply rmapM_length in E1. apply texts_map in Et as ->.
      by rewrite length_map.
Qed.

(** C8: [split_columns] ignores its [sep] argument; whatever separator
    is passed, the labels are split at the dot. *)
Theorem split_columns_ignores_sep (columns : Columns) (sep : string) :
  split_columns columns sep = split_columns columns ".".
Proof. reflexivity. Qed.

(** ** Sorting *)

Section Sorting.
Context {A : Type} (leb : A -> A -> bool).
Hypothesis leb_total : forall x y, leb x y = true \/ leb y x = true.

Lemma insert_by_Permutation (x : A) (l : list A) :
  insert_by leb x l ≡ₚ x :: l.
Proof using Type.
  induction l as [|y l IH]; simpl; [done|].
  destruct (leb x y); [done|]. rewrite IH. apply Permutation_swap.
Qed.

Lemma sort_by_Permutation (l : list A) : sort_by leb l ≡ₚ l.
Proof using Type.
  induction l as [|x l IH]; simpl; [done|].
  by rewrite insert_by_Permutation, IH.
Qed.

Lemma insert_by_HdRel (a x : A) (l : list A) :
  leb a x = true -> HdRel (fun u v => leb u v = true) a l ->
  HdRel (fun u v => leb u v = true) a (insert_by leb x l).
Proof using Type.
  intros Hax Hl. destruct l as [|y l]; simpl; [by constructor|].
  destruct (leb x y); constructor; [done|]. by inversion Hl.
Qed.

Lemma insert_by_Sorted (x : A) (l : list A) :
  Sorted (fun u v => leb u v = true) l ->
  Sorted (fun u v => leb u v = true) (insert_by leb x l).
Proof using leb_total.
  induction 1 as [|y l Hl IH Hy]; simpl.
  - repeat constructor.
  - destruct (leb x y) eqn:E.
    + constructor; [by constructor | by constructor].
    + constructor; [done|]. apply insert_by_HdRel; [|done].
      destruct (leb_total x y); congruence.
Qed.

Lemma sort_by_Sorted (l : list A) :
  Sorted (fun u v => leb u v = true) (sort_by leb l).
Proof using leb_total.
  induction l as [|x l IH]; simpl; [constructor|].
  by apply insert_by_Sorted.
Qed.
End Sorting.

Lemma cell_leb_total (a b : cell) :
  cell_leb a b = true \/ cell_leb b a = true.
Proof.
  destruct a as [x|s], b as [y|t]; simpl.
  - apply fsort_total.
  - destruct (fisnan x); auto.
  - destruct (fisnan y); auto.
  - apply String.leb_total.
Qed.

(** A blank (NaN) label comes last: only a blank follows it. *)
Lemma cell_leb_NaN_last (a b : cell) :
  cell_leb a NaN = true
  /\ (cell_leb NaN b = true -> exists y, b = CNum y /\ fisnan y = true).
Proof.
  unfold NaN. split.
  - destruct a as [x|s]; simpl.
    + apply fsort_nan_last, fisnan_nan.
    + apply fisnan_nan.
  - destruct b as [y|t]; simpl.
    + intros E. exists y. split; [done|].
      by apply (fsort_nan_only fnan y fisnan_nan).
    + by rewrite fisnan_nan.
Qed.

Lemma key_leb_total (k1 k2 : list cell) :
  key_leb k1 k2 = true \/ key_leb k2 k1 = true.
Proof.
  revert k2. induction k1 as [|a k1 IH]; intros [|b k2]; simpl; auto.
  destruct (cell_leb_total a b) as [E|E]; rewrite E;
    destruct (cell_leb b a) eqn:E', (cell_leb a b) eqn:E''; auto;
    congruence.
Qed.

Lemma row_leb_total (r1 r2 : list cell * list cell) :
  row_leb r1 r2 = true \/ row_leb r2 r1 = true.
Proof. apply key_leb_total. Qed.

Lemma sort_index_Sorted (df : DataFrame) :
  Sorted (fun r1 r2 => key_leb r1.1 r2.1 = true) (rows (sort_index df)).
Proof. apply (sort_by_Sorted row_leb row_leb_total). Qed.

Lemma sort_index_Permutation (df : DataFrame) :
  rows (sort_index df) ≡ₚ rows df.
Proof. apply sort_by_Permutation. Qed.
(** ** [read_excel] *)

Lemma title_index_first (x : string) (ts : list cell) (i : nat) :
  title_index x ts = Some i -> first_title ts x i.
Proof.
  revert i. induction ts as [|c ts IH]; intros i; simpl; [done|].
  destruct (cell_is_str x c) eqn:E.
  - intros [= <-]. split; [|intros q Hq; lia].
    destruct c as [y|t]; simpl in E; [done|].
    by apply String.eqb_eq in E as ->.
  - destruct (title_index x ts) as [j|]; [|done]. intros [= <-].
    destruct (IH j eq_refl) as [Hj Hmin]. split; [done|].
    intros [|q] Hq; simpl.
    + intros [= ->]. simpl in E. by rewrite String.eqb_refl in E.
    + apply Hmin. lia.
Qed.

Lemma title_index_elem (x : string) (ts : list cell) :
  CStr x ∈ ts -> exists i, title_index x ts = Some i.
Proof.
  induction ts as [|c ts IH]; intros Hx; [by apply elem_of_nil in Hx|].
  simpl. destruct (cell_is_str x c) eqn:E; [eauto|].
  apply elem_of_cons in Hx as [<-|Hx].
  - simpl in E. by rewrite String.eqb_refl in E.
  - destruct (IH Hx) as [i ->]. simpl. eauto.
Qed.

Lemma title_positions_returns (keys : list string) (ts : list cell) :
  Forall (fun c => CStr c ∈ ts) keys ->
  exists ps, title_positions keys ts = Ret ps.
Proof.
  unfold title_positions.
  induction 1 as [|k keys Hk _ [ps IH]]; simpl; [eauto|].
  destruct (title_index_elem _ _ Hk) as [i ->]. simpl. rewrite IH. simpl. eauto.
Qed.

Lemma title_positions_inv (keys : list string) (ts : list cell)
    (ps : list nat) :
  title_positions keys ts = Ret ps -> Forall2 (first_title ts) keys ps.
Proof.
  unfold title_positions. revert ps.
  induction keys as [|k keys IH]; intros ps E; simpl in E.
  - injection E as <-. constructor.
  - apply rbind_inv in E as (i & Ei & E).
    apply rbind_inv in E as (ps' & Eps & [= <-]).
    constructor; [|by apply IH].
    destruct (title_index k ts) as [j|] eqn:Hj; [|done].
    injection Ei as <-. by apply title_index_first.
Qed.

Lemma first_title_elem (ts : list cell) (keys : list string) (ps : list nat) :
  Forall2 (first_title ts) keys ps -> Forall (fun c => CStr c ∈ ts) keys.
Proof.
  induction 1 as [|k p keys ps [Hk _] _ IH]; constructor; [|done].
  by eapply list_elem_of_lookup_2.
Qed.

Lemma drop_at_Forall {A} (P : A -> Prop) (ps : list nat) (i : nat)
    (l : list A) :
  Forall P l -> Forall P (drop_at ps i l).
Proof.
  intros Hl. revert i. induction Hl as [|x l Hx _ IH]; intros i; simpl.
  - constructor.
  - destruct (bool_decide (i ∈ ps)); [apply IH|]. constructor; [done|apply IH].
Qed.

Lemma drop_at_Forall_inv {A} (P : A -> Prop) (ps : list nat) (i : nat)
    (l : list A) :
  Forall P (drop_at ps i l) ->
  (forall p x, p ∈ ps -> i <= p -> l !! (p - i) = Some x -> P x) ->
  Forall P l.
Proof.
  revert i. induction l as [|x l IH]; intros i Hd Hp; [constructor|].
  simpl in Hd.
  assert (forall p y, p ∈ ps -> S i <= p -> l !! (p - S i) = Some y -> P y)
    as Hp'.
  { intros p y Hin Hle Hl. apply (Hp p y Hin); [lia|].
    replace (p - i) with (S (p - S i)) by lia. done. }
  case_bool_decide as Hi.
  - constructor; [|by apply (IH (S i))].
    apply (Hp i x Hi); [lia|]. by rewrite Nat.sub_diag.
  - apply Forall_cons in Hd as [Hx Hd]. constructor; [done|].
    by apply (IH (S i)).
Qed.

(** What [xls.parse(sheet).set_index(keys)] is when it returns: the
    sheet exists, every key is a title, and the rows are those of the
    sheet with the cells under the keys taken out. *)
Lemma table_sheet (xls : gmap string Sheet) (sheet : string)
    (keys : list string) (df : DataFrame) :
  rbind (parse xls sheet) (set_index keys) = Ret df ->
  exists sh ps,
    xls !! sheet = Some sh
    /\ title_positions keys (header sh) = Ret ps
    /\ df = mkFrame keys (flat_index (others ps (header sh)))
                    (map (keyed ps) (body sh)).
Proof.
  intros E. apply rbind_inv in E as (df0 & E0 & E). unfold parse in E0.
  destruct (xls !! sheet) as [sh|]; [|done]. injection E0 as <-.
  rewrite set_index_flat in E. apply rbind_inv in E as (ps & Eps & [= <-]).
  exists sh, ps. split; [done|]. split; [done|].
  rewrite map_map, drop_at_others. f_equal. apply map_ext.
  intros row. unfold keyed. cbn [snd]. by rewrite drop_at_others.
Qed.

Lemma table_shape (xls : gmap string Sheet) (sheet : string)
    (keys : list string) (df : DataFrame) :
  rbind (parse xls sheet) (set_index keys) = Ret df ->
  index_names df = keys.
Proof. intros E. by apply table_sheet in E as (sh & ps & _ & _ & ->). Qed.

Lemma set_columns_inv (l : loc) (cols : Columns) (σ σ' : store) (u : unit) :
  set_columns l cols σ = (Ret u, σ') ->
  exists df, σ !! l = Some df /\ ncols cols = ncols (columns df)
             /\ σ' = <[l := mkFrame (index_names df) cols (rows df)]> σ.
Proof.
  unfold set_columns. intros E.
  apply bind_inv in E as (df & σ1 & E1 & E).
  apply load_inv in E1 as [E1 ->].
  destruct (Nat.eqb (ncols cols) (ncols (columns df))) eqn:En.
  - apply store_at_inv in E. apply Nat.eqb_eq in En. eauto.
  - by apply lift_inv in E as [? _].
Qed.

Lemma sort_step_inv (data : pydict) (key : string) (σ σ' : store) (u : unit) :
  (l ← lift (dict_get data key);
   df ← load l;
   if has_multiindex df then store_at l (sort_index df) else mret tt) σ
  = (Ret u, σ') ->
  exists l df, dict_find data key = Some l /\ σ !! l = Some df
               /\ σ' = <[l := sorted_if_multiindex df]> σ.
Proof.
  intros E. apply bind_inv in E as (l & σ1 & E1 & E).
  apply lift_inv in E1 as [E1 ->].
  apply bind_inv in E as (df & σ1 & E2 & E).
  apply load_inv in E2 as [E2 ->].
  exists l, df. unfold dict_get in E1.
  destruct (dict_find data key) as [l'|]; [|done]. injection E1 as ->.
  split; [done|]. split; [done|]. unfold sorted_if_multiindex.
  destruct (has_multiindex df).
  - by apply store_at_inv in E.
  - injection E as _ <-. by rewrite insert_id.
Qed.

Ltac fresh_split H :=
  repeat (let Hne := fresh "Hne" in
          apply lookup_insert_None in H as [H Hne]).

Ltac lookup_norm H :=
  repeat (rewrite lookup_insert_ne in H by done);
  try rewrite lookup_insert_eq in H.

Ltac new_step H :=
  let l := fresh "l" in let σ1 := fresh "σ" in
  let df := fresh "df" in
  let Hc := fresh "Hc" in let Hdf := fresh "Hdf" in
  let Hfr := fresh "Hfr" in
  apply bind_inv in H as (l & σ1 & Hc & H);
  apply new_inv in Hc as (df & Hdf & Hfr & ->);
  fresh_split Hfr.

Ltac load_step H :=
  let σ1 := fresh "σ" in let df := fresh "df" in
  let Hc := fresh "Hld" in
  apply bind_inv in H as (df & σ1 & Hc & H);
  apply load_inv in Hc as [Hc ->];
  lookup_norm Hc; try (injection Hc as <-).

Ltac lift_step H :=
  let σ1 := fresh "σ" in let a := fresh "a" in
  let Hc := fresh "Hlift" in
  apply bind_inv in H as (a & σ1 & Hc & H);
  apply lift_inv in Hc as [Hc ->].

Ltac columns_step H :=
  let σ1 := fresh "σ" in let u := fresh "u" in let df := fresh "df" in
  let Hc := fresh "Hc" in let Hl := fresh "Hl" in let Hn := fresh "Hn" in
  apply bind_inv in H as (u & σ1 & Hc & H);
  apply set_columns_inv in Hc as (df & Hl & Hn & ->);
  lookup_norm Hl; try (injection Hl as <-).

Ltac sort_step H :=
  let σ1 := fresh "σ" in let u := fresh "u" in let df := fresh "df" in
  let l := fresh "l" in
  let Hc := fresh "Hc" in let Hl := fresh "Hl" in let Hd := fresh "Hd" in
  apply bind_inv in H as (u & σ1 & Hc & H);
  apply sort_step_inv in Hc as (l & df & Hd & Hl & ->);
  cbn in Hd; injection Hd as <-;
  lookup_norm Hl; try (injection Hl as <-).

Lemma read_excel_inv (xls : gmap string Sheet) (σ σ' : store) (data : pydict) :
  read_excel xls σ = (Ret data, σ') ->
  map fst data = map (fun e => e.1.1) schema
  /\ NoDup (map snd data)
  /\ (forall l, l ∈ map snd data -> σ !! l = None)
  /\ (forall l, l ∉ map snd data -> σ' !! l = σ !! l)
  /\ Forall (fun e => exists l df, dict_find data e.1.1 = Some l
                        /\ table_of xls e = Ret df
                        /\ σ' !! l = Some df) schema.
Proof.
  unfold read_excel. intros E.
  do 11 new_step E.
  load_step E. lift_step E. columns_step E.
  load_step E. lift_step E. columns_step E.
  load_step E. lift_step E. columns_step E.
  apply bind_inv in E as (uu & σ1 & Hc & E).
  injection E as <- <-.
  cbn [map fst mfor] in Hc.
  do 11 sort_step Hc.
  injection Hc as _ <-.
  split; [reflexivity|]. cbn [map snd].
  split.
  { repeat (apply NoDup_cons_2;
            [rewrite ?not_elem_of_cons; repeat split;
             first [done | apply not_elem_of_nil] |]).
    apply NoDup_nil_2. }
  split.
  { intros l' Hl.
    repeat (apply elem_of_cons in Hl as [->|Hl]; [done|]).
    by apply elem_of_nil in Hl. }
  split.
  { intros l' Hl. rewrite !not_elem_of_cons in Hl. destruct_and!.
    by rewrite !lookup_insert_ne by done. }
  unfold schema.
  repeat (apply Forall_cons_2;
          [eexists _, _; split; [reflexivity|]; split;
           [|repeat (rewrite lookup_insert_ne by done);
             rewrite lookup_insert_eq; reflexivity];
           unfold table_of; cbn [time_series existsb String.eqb Ascii.eqb Bool.eqb orb];
           first [rewrite Hdf | rewrite Hdf0 | rewrite Hdf1 | rewrite Hdf2
                 | rewrite Hdf3 | rewrite Hdf4 | rewrite Hdf5 | rewrite Hdf6
                 | rewrite Hdf7 | rewrite Hdf8 | rewrite Hdf9];
           cbn [rbind];
           first [ rewrite Hlift | rewrite Hlift0 | rewrite Hlift1 | idtac ];
           cbn [rbind];
           first [ reflexivity
                 | match goal with
                   | |- Ret (sorted_if_multiindex ?d) = _ =>
                       match d with
                       | context [index_names ?x] => by destruct x
                       end
                   end ] |]).
  apply Forall_nil_2.
Qed.
(** *** [read_excel] returns on a workbook that adheres to the schema *)

Lemma index_of_elem (x : string) (l : list string) :
  x ∈ l -> exists i, index_of x l = Some i.
Proof.
  induction l as [|y l IH]; intros Hx; [by apply elem_of_nil in Hx|].
  simpl. destruct (String.eqb x y) eqn:E; [eauto|].
  apply elem_of_cons in Hx as [->|Hx].
  - by rewrite String.eqb_refl in E.
  - destruct (IH Hx) as [i ->]. simpl. eauto.
Qed.

Lemma table_returns (xls : gmap string Sheet) (sheet : string)
    (idx : list string) (sh : Sheet) :
  xls !! sheet = Some sh -> Forall (fun c => CStr c ∈ header sh) idx ->
  exists df,
    rbind (parse xls sheet) (set_index idx) = Ret df
    /\ (Forall (fun t => exists s, t = CStr s) (header sh) ->
        exists labels, columns df = Index labels).
Proof.
  intros Hsh Hidx. unfold parse. rewrite Hsh. cbn [rbind].
  rewrite set_index_flat.
  destruct (title_positions_returns _ _ Hidx) as [ps ->]. cbn [rbind].
  eexists. split; [done|]. cbn [columns]. intros Ht.
  apply (drop_at_Forall _ ps 0) in Ht. apply texts_Forall in Ht as [labels Ht].
  exists labels. unfold flat_index. by rewrite Ht.
Qed.

Lemma split_columns_Index_returns (labels : list string) (sep : string) :
  exists cols, split_columns (Index labels) sep = Ret cols.
Proof.
  destruct labels as [|l labels].
  - exists (Index []). by apply split_columns_empty.
  - eexists. by apply split_columns_nonempty.
Qed.

Lemma new_ret (r : result DataFrame) (df : DataFrame) (σ : store) :
  r = Ret df ->
  exists l, σ !! l = None /\ new r σ = (Ret l, <[l := df]> σ).
Proof.
  intros ->. exists (fresh (dom σ)). split.
  - apply not_elem_of_dom, is_fresh.
  - reflexivity.
Qed.

Lemma set_columns_ret (l : loc) (cols : Columns) (df : DataFrame) (σ : store) :
  σ !! l = Some df -> ncols cols = ncols (columns df) ->
  set_columns l cols σ
  = (Ret tt, <[l := mkFrame (index_names df) cols (rows df)]> σ).
Proof.
  intros Hl Hn. unfold set_columns.
  rewrite (bind_ret _ _ _ _ _ (load_ret _ _ _ Hl)).
  apply Nat.eqb_eq in Hn. by rewrite Hn.
Qed.

Lemma sort_step_ret (data : pydict) (key : string) (l : loc)
    (df : DataFrame) (σ : store) :
  dict_find data key = Some l -> σ !! l = Some df ->
  (l ← lift (dict_get data key);
   df ← load l;
   if has_multiindex df then store_at l (sort_index df) else mret tt) σ
  = (Ret tt, <[l := sorted_if_multiindex df]> σ).
Proof.
  intros Hd Hl. unfold dict_get. rewrite Hd.
  unfold mbind at 1, M_bind at 1, lift.
  rewrite (bind_ret _ _ _ _ _ (load_ret _ _ _ Hl)).
  unfold sorted_if_multiindex. destruct (has_multiindex df); [done|].
  by rewrite insert_id.
Qed.

Lemma returns_bind {A B} (c : M A) (k : A -> M B) (σ σ1 : store) (a : A) :
  c σ = (Ret a, σ1) -> returns (k a σ1) -> returns ((c ≫= k) σ).
Proof. intros E. by rewrite (bind_ret _ _ _ _ _ E). Qed.

Lemma returns_mfor_cons {A B} (x : A) (l : list A) (body : A -> M unit)
    (k : unit -> M B) (σ σ1 : store) :
  body x σ = (Ret tt, σ1) -> returns ((mfor l body ≫= k) σ1) ->
  returns ((mfor (x :: l) body ≫= k) σ).
Proof.
  intros E. cbn [mfor]. unfold mbind, M_bind. by rewrite E.
Qed.

Ltac lookup_goal :=
  repeat (rewrite lookup_insert_ne by done); apply lookup_insert_eq.

Ltac new_fwd :=
  match goal with
  | Hdf : ?r = Ret ?df |- returns ((new ?r ≫= _) ?s) =>
      let l := fresh "l" in let Hfr := fresh "Hfr" in let E := fresh "E" in
      destruct (new_ret r df s Hdf) as (l & Hfr & E);
      apply (returns_bind _ _ _ _ _ E); clear E; fresh_split Hfr
  end.

Ltac columns_fwd :=
  match goal with
  | |- returns ((load ?l ≫= _) ?s) =>
      eapply returns_bind; [apply load_ret; lookup_goal|]
  end;
  match goal with
  | Hc : columns ?df = Index ?labels
    |- returns ((lift (split_columns (columns ?df) ".") ≫= _) _) =>
      let cols := fresh "cols" in let Hcols := fresh "Hcols" in
      rewrite Hc;
      destruct (split_columns_Index_returns labels ".") as [cols Hcols];
      rewrite Hcols;
      eapply returns_bind; [reflexivity|];
      eapply returns_bind;
      [apply set_columns_ret;
       [lookup_goal
       |rewrite Hc; apply (split_columns_ncols _ _ _ Hcols)] |]
  end.

Ltac sort_fwd :=
  eapply returns_mfor_cons;
  [apply sort_step_ret; [reflexivity | lookup_goal] |].

Ltac table_fwd Hxls :=
  let sh := fresh "sh" in let Hsh := fresh "Hsh" in
  let Hidx := fresh "Hidx" in let df := fresh "df" in
  let Hdf := fresh "Hdf" in let Hc := fresh "Hc" in
  let Hts := fresh "Hts" in
  apply Forall_cons in Hxls as [(sh & Hsh & Hidx & Hts) Hxls];
  cbn [fst snd] in Hsh, Hidx, Hts;
  destruct (table_returns _ _ _ _ Hsh Hidx) as (df & Hdf & Hc);
  try (destruct (Hc (Hts eq_refl)) as [? ?]);
  clear Hsh Hidx Hts.

Lemma read_excel_returns (xls : gmap string Sheet) (σ : store) :
  adheres xls -> returns (read_excel xls σ).
Proof.
  intros Hxls. unfold adheres, schema in Hxls. cbn [fst snd] in Hxls.
  do 11 table_fwd Hxls. clear Hxls.
  unfold read_excel.
  do 11 new_fwd.
  do 3 columns_fwd.
  cbn [map fst].
  do 11 sort_fwd.
  eexists _, _. reflexivity.
Qed.
(** *** The tables that [read_excel] returns *)

Lemma table_of_inv (xls : gmap string Sheet) (key sheet : string)
    (idx : list string) (df : DataFrame) :
  table_of xls (key, sheet, idx) = Ret df ->
  exists df0 cols,
    rbind (parse xls sheet) (set_index idx) = Ret df0
    /\ (if time_series key then split_columns (columns df0) "."
        else Ret (columns df0)) = Ret cols
    /\ df = sorted_if_multiindex (mkFrame idx cols (rows df0)).
Proof.
  unfold table_of. intros E.
  apply rbind_inv in E as (df0 & E0 & E).
  apply rbind_inv in E as (cols & Ec & [= <-]).
  destruct (table_shape _ _ _ _ E0). eauto.
Qed.

Lemma sorted_if_multiindex_names (df : DataFrame) :
  index_names (sorted_if_multiindex df) = index_names df.
Proof. unfold sorted_if_multiindex. by destruct (has_multiindex df). Qed.

Lemma sorted_if_multiindex_columns (df : DataFrame) :
  columns (sorted_if_multiindex df) = columns df.
Proof. unfold sorted_if_multiindex. by destruct (has_multiindex df). Qed.

Lemma sorted_if_multiindex_Sorted (df : DataFrame) :
  2 <= length (index_names df) ->
  Sorted (fun r1 r2 => key_leb r1.1 r2.1 = true)
         (rows (sorted_if_multiindex df)).
Proof.
  intros Hn. unfold sorted_if_multiindex, has_multiindex.
  rewrite bool_decide_eq_true_2 by done. apply sort_index_Sorted.
Qed.

Lemma split_columns_flat_inv (ts : list cell) (sep : string)
    (cols : Columns) :
  split_columns (flat_index ts) sep = Ret cols ->
  exists labels,
    ts = map CStr labels
    /\ cols = match labels with
              | [] => Index []
              | _ :: _ => MultiIndex (map (PyStr.split_on ".") labels)
              end.
Proof.
  unfold flat_index. destruct (texts ts) as [labels|] eqn:Et.
  - apply texts_map in Et as ->. intros E. exists labels. split; [done|].
    destruct labels as [|l labels].
    + rewrite split_columns_empty in E by done. by injection E.
    + rewrite split_columns_nonempty in E by done. by injection E.
  - unfold split_columns. destruct ts as [|t ts]; [done|].
    cbn [ncols length Nat.eqb]. by rewrite Et.
Qed.

(** The table under each key of the dict that [read_excel] returns, in
    terms of the sheet. *)
Lemma read_excel_tables (xls : gmap string Sheet) (σ σ' : store)
    (data : pydict) :
  read_excel xls σ = (Ret data, σ') ->
  Forall (fun e : string * string * list string =>
            exists l df sh ps,
              dict_find data e.1.1 = Some l
              /\ σ' !! l = Some df
              /\ table_of xls e = Ret df
              /\ xls !! e.1.2 = Some sh
              /\ Forall2 (first_title (header sh)) e.2 ps
              /\ index_names df = e.2
              /\ (time_series e.1.1 = false ->
                  columns df = flat_index (others ps (header sh)))
              /\ (time_series e.1.1 = true ->
                  exists labels,
                    others ps (header sh) = map CStr labels
                    /\ columns df
                       = match labels with
                         | [] => Index []
                         | _ :: _ =>
                             MultiIndex (map (PyStr.split_on ".") labels)
                         end)
              /\ rows df ≡ₚ map (keyed ps) (body sh)
              /\ (length e.2 < 2 -> rows df = map (keyed ps) (body sh))
              /\ (2 <= length e.2 ->
                  Sorted (fun r1 r2 => key_leb r1.1 r2.1 = true)
                         (rows df)))
         schema.
Proof.
  intros E. destruct (read_excel_inv _ _ _ _ E) as (_ & _ & _ & _ & Htab).
  eapply Forall_impl; [exact Htab|].
  intros [[key sheet] idx] (l & df & Hl & Ht & Hdf). cbn [fst snd] in *.
  pose proof Ht as Ht0.
  apply table_of_inv in Ht as (df0 & cols & E0 & Ec & ->).
  apply table_sheet in E0 as (sh & ps & Hsh & Hps & ->).
  cbn [rows columns] in *.
  eexists l, _, sh, ps.
  do 4 (split; [done|]).
  split; [by apply title_positions_inv|].
  split; [by rewrite sorted_if_multiindex_names|].
  split.
  { intros Hts. rewrite Hts in Ec. injection Ec as <-.
    by rewrite sorted_if_multiindex_columns. }
  split.
  { intros Hts. rewrite Hts in Ec.
    apply split_columns_flat_inv in Ec as (labels & Hd & ->).
    exists labels. split; [done|]. by rewrite sorted_if_multiindex_columns. }
  unfold sorted_if_multiindex, has_multiindex. cbn [index_names].
  case_bool_decide as Hm; cbn [rows].
  - split; [apply sort_by_Permutation|]. split; [intros; lia|].
    intros _. apply (sort_by_Sorted row_leb row_leb_total).
  - split; [done|]. split; [done|]. intros; lia.
Qed.

(** C4: on a workbook that adheres to the schema, [read_excel] returns
    a dict with exactly the eleven keys.  The table under each key is
    parsed from its sheet: its index levels are the fixed index columns,
    found at the positions [ps] of their first titles in the header;
    the key of a row are the cells of the sheet's row at [ps] and its
    values are the other cells; its column axis are the other titles,
    split at the dot for a time series; its rows are those of the
    sheet, in the order of the sheet for a flat index and sorted by
    key for a MultiIndex. *)
Theorem read_excel_schema (xls : gmap string Sheet) (σ : store) :
  adheres xls ->
  exists data σ',
    read_excel xls σ = (Ret data, σ')
    /\ map fst data
       = ["global_prop"; "site"; "commodity"; "process";
          "process_commodity"; "transmission"; "storage"; "demand";
          "supim"; "buy_sell_price"; "dsm"]
    /\ Forall (fun e : string * string * list string =>
                 exists l df sh ps,
                   dict_find data e.1.1 = Some l
                   /\ σ' !! l = Some df
                   /\ table_of xls e = Ret df
                   /\ xls !! e.1.2 = Some sh
                   /\ Forall2 (first_title (header sh)) e.2 ps
                   /\ index_names df = e.2
                   /\ (time_series e.1.1 = false ->
                       columns df = flat_index (others ps (header sh)))
                   /\ (time_series e.1.1 = true ->
                       exists labels,
                         others ps (header sh) = map CStr labels
                         /\ columns df
                            = match labels with
                              | [] => Index []
                              | _ :: _ =>
                                  MultiIndex (map (PyStr.split_on ".") labels)
                              end)
                   /\ rows df ≡ₚ map (keyed ps) (body sh)
                   /\ (length e.2 < 2 -> rows df = map (keyed ps) (body sh))
                   /\ (2 <= length e.2 ->
                       Sorted (fun r1 r2 => key_leb r1.1 r2.1 = true)
                              (rows df)))
              schema.
Proof.
  intros Hxls. destruct (read_excel_returns xls σ Hxls) as (data & σ' & E).
  exists data, σ'. split; [done|].
  destruct (read_excel_inv _ _ _ _ E) as (Hkeys & _).
  split; [done|]. by apply read_excel_tables in E.
Qed.

Lemma read_excel_time_series_columns (xls : gmap string Sheet)
    (σ σ' : store) (data : pydict) (key sheet : string) :
  read_excel xls σ = (Ret data, σ') ->
  (key, sheet) ∈ [("demand", "Demand"); ("supim", "SupIm");
                  ("buy_sell_price", "Buy-Sell-Price")] ->
  exists l df df0,
    dict_find data key = Some l
    /\ σ' !! l = Some df
    /\ rbind (parse xls sheet) (set_index ["t"]) = Ret df0
    /\ split_columns (columns df0) "." = Ret (columns df).
Proof.
  intros E Hk.
  destruct (read_excel_inv _ _ _ _ E) as (_ & _ & _ & _ & Htab).
  rewrite Forall_forall in Htab.
  assert ((key, sheet, ["t"]) ∈ schema) as He.
  { unfold schema.
    repeat (apply elem_of_cons in Hk as [[= -> ->]|Hk];
      [repeat first [apply list_elem_of_here | apply list_elem_of_further]|]).
    by apply elem_of_nil in Hk. }
  destruct (Htab _ He) as (l & df & Hl & Ht & Hdf).
  apply table_of_inv in Ht as (df0 & cols & E0 & Ec & ->).
  eexists l, _, df0. repeat (split; [done|]).
  rewrite sorted_if_multiindex_columns. cbn [columns].
  assert (time_series key = true) as Hts.
  { repeat (apply elem_of_cons in Hk as [[= -> ->]|Hk]; [done|]).
    by apply elem_of_nil in Hk. }
  by rewrite Hts in Ec.
Qed.

Lemma split_columns_pairs (pairs : list (string * string)) (sep : string) :
  pairs <> [] ->
  Forall (fun p => PyStr.has_char "." p.1 = false
                   /\ PyStr.has_char "." p.2 = false) pairs ->
  split_columns (Index (map (fun p => p.1 +:+ "." +:+ p.2) pairs)) sep
  = Ret (MultiIndex (map (fun p => [p.1; p.2]) pairs)).
Proof.
  intros Hne Hp.
  rewrite split_columns_nonempty by (by destruct pairs).
  do 2 f_equal. rewrite map_map. apply map_ext_Forall.
  eapply Forall_impl; [exact Hp|]. intros [a b] [Ha Hb]. cbn [fst snd].
  by apply split_on_site_commodity.
Qed.

(** C5: in the dict that [read_excel] returns, the column labels of
    'demand', 'supim' and 'buy_sell_price' are [split_columns] of the
    labels of the sheet, hence the two-level MultiIndex of the pairs
    (Site, Commodity) when the sheet has labels and they read
    'Site.Commodity'; on a non-empty list of labels [split_columns] is
    the MultiIndex of the labels split at the dot, in input order; an
    empty axis is returned unchanged. *)
Theorem read_excel_splits_labels :
  (forall (xls : gmap string Sheet) (σ σ' : store) (data : pydict)
          (key sheet : string),
      read_excel xls σ = (Ret data, σ') ->
      (key, sheet) ∈ [("demand", "Demand"); ("supim", "SupIm");
                      ("buy_sell_price", "Buy-Sell-Price")] ->
      exists l df df0,
        dict_find data key = Some l
        /\ σ' !! l = Some df
        /\ rbind (parse xls sheet) (set_index ["t"]) = Ret df0
        /\ split_columns (columns df0) "." = Ret (columns df)
        /\ forall pairs : list (string * string),
             columns df0 = Index (map (fun p => p.1 +:+ "." +:+ p.2) pairs) ->
             pairs <> [] ->
             Forall (fun p => PyStr.has_char "." p.1 = false
                              /\ PyStr.has_char "." p.2 = false) pairs ->
             columns df = MultiIndex (map (fun p => [p.1; p.2]) pairs))
  /\ (forall (labels : list string) (sep : string),
         labels <> [] ->
         split_columns (Index labels) sep
         = Ret (MultiIndex (map (PyStr.split_on ".") labels)))
  /\ (forall (pairs : list (string * string)) (sep : string),
         pairs <> [] ->
         Forall (fun p => PyStr.has_char "." p.1 = false
                          /\ PyStr.has_char "." p.2 = false) pairs ->
         split_columns (Index (map (fun p => p.1 +:+ "." +:+ p.2) pairs)) sep
         = Ret (MultiIndex (map (fun p => [p.1; p.2]) pairs)))
  /\ (forall (columns : Columns) (sep : string),
         ncols columns = 0 -> split_columns columns sep = Ret columns).
Proof.
  split; [|split; [|split]].
  - intros xls σ σ' data key sheet E Hk.
    destruct (read_excel_time_series_columns _ _ _ _ _ _ E Hk)
      as (l & df & df0 & Hl & Hdf & Hdf0 & Hcols).
    exists l, df, df0. repeat (split; [done|]).
    intros pairs Hc Hne Hp. rewrite Hc in Hcols.
    rewrite (split_columns_pairs _ _ Hne Hp) in Hcols. by injection Hcols.
  - apply split_columns_nonempty.
  - apply split_columns_pairs.
  - apply split_columns_empty.
Qed.

(** ** [get_input] *)

(** C3: [get_input] returns the attribute when the instance has one of
    that name, else the entry of the [_data] dict when there is one,
    else raises ValueError; it raises exactly when both lookups fail,
    and it changes nothing. *)
Theorem get_input_lookup (prob : Model) (name : string) (σ : store) :
  (get_input prob name σ).2 = σ
  /\ (hasattr prob name = true ->
      exists v, getattr prob name = Ret v
                /\ (get_input prob name σ).1 = Ret v)
  /\ (forall (d : pydict) (l : loc),
        hasattr prob name = false ->
        cache prob = Some d -> dict_find d name = Some l ->
        (get_input prob name σ).1 = Ret (VFrame l))
  /\ (hasattr prob name = false ->
      (forall d, cache prob = Some d -> dict_find d name = None) ->
      (get_input prob name σ).1 = Raise ValueError)
  /\ ((exists e, (get_input prob name σ).1 = Raise e)
      <-> hasattr prob name = false
          /\ (forall d, cache prob = Some d -> dict_find d name = None)).
Proof.
  assert (hasattr prob name = true ->
          exists v, getattr prob name = Ret v) as Hget.
  { unfold hasattr, getattr. destruct (String.eqb name "_data").
    - destruct (cache prob); [eauto|]. intros Hc.
      apply bool_decide_eq_true in Hc. by destruct Hc.
    - destruct (attrs prob !! name); [eauto|]. intros Hc.
      apply bool_decide_eq_true in Hc. by destruct Hc. }
  unfold get_input.
  destruct (hasattr prob name) eqn:Hn.
  - destruct (Hget eq_refl) as [v Hv]. rewrite Hv. cbn.
    split; [done|]. split; [eauto|].
    split; [done|]. split; [done|].
    split; [by intros [e He] | by intros [? _]].
  - clear Hget. destruct (cache prob) as [d|] eqn:Hc.
    + replace (hasattr prob "_data") with true
        by (unfold hasattr; cbn; by rewrite Hc).
      cbn [andb]. unfold dict_get.
      destruct (dict_find d name) as [l|] eqn:Hd; cbn.
      * split; [done|]. split; [done|].
        split; [by intros d' l' _ [= <-]; rewrite Hd; intros [= <-]|].
        split; [by intros _ Hall; rewrite (Hall d eq_refl) in Hd|].
        split; [by intros [e He]|].
        intros [_ Hall]. by rewrite (Hall d eq_refl) in Hd.
      * split; [done|]. split; [done|].
        split; [by intros d' l' _ [= <-]; rewrite Hd|].
        split; [done|].
        split; [|eauto]. intros _. split; [done|].
        by intros d' [= <-].
    + replace (hasattr prob "_data") with false
        by (unfold hasattr; cbn; by rewrite Hc).
      cbn.
      split; [done|]. split; [done|]. split; [done|]. split; [done|].
      split; [|eauto]. intros _. split; [done|]. done.
Qed.

(** ** Scenarios *)

(** C6: [scenario_base] returns the dict it was given and leaves every
    table as it was. *)
Theorem scenario_base_identity (data : pydict) (σ : store) :
  scenario_base data σ = (Ret data, σ).
Proof. reflexivity. Qed.
(** ** [compare_scenarios]: the base scenario *)

Lemma list_index_Ret (x : string) (l : list string) (i : nat) :
  list_index x l = Ret i ->
  l !! i = Some x /\ forall j, j < i -> l !! j <> Some x.
Proof.
  revert i. induction l as [|y l IH]; intros i E; simpl in E; [done|].
  destruct (String.eqb x y) eqn:Exy.
  - injection E as <-. apply String.eqb_eq in Exy as ->.
    split; [done|]. intros j Hj. lia.
  - apply rbind_inv in E as (i' & E' & [= <-]).
    destruct (IH _ E') as [Hi Hlt]. split; [done|].
    intros [|j] Hj; simpl.
    + apply String.eqb_neq in Exy. congruence.
    + apply Hlt. lia.
Qed.

Lemma list_index_elem (x : string) (l : list string) :
  x ∈ l -> exists i, list_index x l = Ret i.
Proof.
  induction l as [|y l IH]; intros Hx; [by apply elem_of_nil in Hx|].
  simpl. destruct (String.eqb x y) eqn:Exy; [eauto|].
  apply elem_of_cons in Hx as [->|Hx].
  - by rewrite String.eqb_refl in Exy.
  - destruct (IH Hx) as [i ->]. simpl. eauto.
Qed.

Lemma list_index_not_elem (x : string) (l : list string) :
  x ∉ l -> list_index x l = Raise ValueError.
Proof.
  induction l as [|y l IH]; intros Hx; [done|].
  apply not_elem_of_cons in Hx as [Hne Hx]. simpl.
  apply String.eqb_neq in Hne. rewrite Hne. by rewrite IH.
Qed.

Lemma scenario_names_of_length (result_files : list string) :
  length (scenario_names_of result_files) = length result_files.
Proof. unfold scenario_names_of. apply length_map. Qed.

(** C10: when a derived scenario name equals 'base', the first such
    name and its result file are moved to the end of both lists; when
    none does, the ValueError of the index lookup is caught and both
    lists stay as they are; the step always completes normally. *)
Theorem compare_scenarios_base_last (result_files : list string) :
  let scenario_names := scenario_names_of result_files in
  ("base" ∈ scenario_names ->
   exists i rf,
     scenario_names !! i = Some "base"
     /\ (forall j, j < i -> scenario_names !! j <> Some "base")
     /\ result_files !! i = Some rf
     /\ compare_scenarios_reorder result_files
        = (Ret tt, (delete i result_files ++ [rf],
                    delete i scenario_names ++ ["base"])))
  /\ ("base" ∉ scenario_names ->
      list_index "base" scenario_names = Raise ValueError
      /\ compare_scenarios_reorder result_files
         = (Ret tt, (result_files, scenario_names)))
  /\ (exists st, compare_scenarios_reorder result_files = (Ret tt, st)).
Proof.
  intros scenario_names.
  assert ("base" ∈ scenario_names ->
   exists i rf,
     scenario_names !! i = Some "base"
     /\ (forall j, j < i -> scenario_names !! j <> Some "base")
     /\ result_files !! i = Some rf
     /\ compare_scenarios_reorder result_files
        = (Ret tt, (delete i result_files ++ [rf],
                    delete i scenario_names ++ ["base"]))) as Hin.
  { intros Hb. destruct (list_index_elem _ _ Hb) as [i Hi].
    destruct (list_index_Ret _ _ _ Hi) as [Hn Hfirst].
    assert (i < length result_files) as Hlt.
    { rewrite <- scenario_names_of_length. by eapply lookup_lt_Some. }
    destruct (lookup_lt_is_Some_2 _ _ Hlt) as [rf Hrf].
    exists i, rf. repeat (split; [done|]).
    unfold compare_scenarios_reorder, move_base, list_pop.
    fold scenario_names. by rewrite Hi, Hrf, Hn. }
  assert ("base" ∉ scenario_names ->
      list_index "base" scenario_names = Raise ValueError
      /\ compare_scenarios_reorder result_files
         = (Ret tt, (result_files, scenario_names))) as Hout.
  { intros Hb. split; [by apply list_index_not_elem|].
    unfold compare_scenarios_reorder, move_base. fold scenario_names.
    by rewrite list_index_not_elem. }
  split; [done|]. split; [done|].
  destruct (decide ("base" ∈ scenario_names)) as [Hb|Hb].
  - destruct (Hin Hb) as (i & rf & _ & _ & _ & ->). eauto.
  - destruct (Hout Hb) as [_ ->]. eauto.
Qed.
(** ** [deduplicate_legend] *)

Section LegendProps.
Variable Handle : Type.

Lemma first_handle_app_Some (lbl : string) (ps qs : list (Handle * string))
    (h : Handle) :
  first_handle lbl ps = Some h -> first_handle lbl (ps ++ qs) = Some h.
Proof.
  induction ps as [|[h' l'] ps IH]; simpl; [done|].
  by destruct (String.eqb lbl l').
Qed.

Lemma first_handle_None (lbl : string) (ps : list (Handle * string)) :
  lbl ∉ map snd ps -> first_handle lbl ps = None.
Proof.
  induction ps as [|[h' l'] ps IH]; simpl; [done|]. intros Hn.
  apply not_elem_of_cons in Hn as [Hne Hn].
  apply String.eqb_neq in Hne. rewrite Hne. auto.
Qed.

Lemma first_handle_app_None (lbl : string) (ps qs : list (Handle * string)) :
  first_handle lbl ps = None ->
  first_handle lbl (ps ++ qs) = first_handle lbl qs.
Proof.
  induction ps as [|[h' l'] ps IH]; simpl; [done|].
  by destruct (String.eqb lbl l').
Qed.

Lemma first_handle_zip (lbl : string) (handles : list Handle)
    (labels : list string) (h : Handle) :
  first_handle lbl (zip handles labels) = Some h ->
  exists j, labels !! j = Some lbl /\ handles !! j = Some h
            /\ forall j', j' < j -> labels !! j' <> Some lbl.
Proof.
  revert labels. induction handles as [|h' handles IH];
    intros [|l' labels]; simpl; try done.
  destruct (String.eqb lbl l') eqn:E.
  - intros [= ->]. apply String.eqb_eq in E as ->. exists 0.
    repeat split; try done. intros j' Hj'. lia.
  - intros Hf. destruct (IH _ Hf) as (j & Hl & Hh & Hfirst).
    exists (S j). repeat split; try done.
    intros [|j'] Hj'; simpl.
    + apply String.eqb_neq in E. congruence.
    + apply Hfirst. lia.
Qed.

Lemma dedup_step_inv (ps : list (Handle * string))
    (acc : list Handle * list string) (p : Handle * string) :
  dedup_inv ps acc -> dedup_inv (ps ++ [p]) (dedup_step acc p).
Proof.
  destruct acc as [hs ls], p as [hdl lbl].
  intros (Hlen & Hnd & Hin & Hfirst). cbn [fst snd] in *.
  unfold dedup_step. case_bool_decide as Hl.
  - repeat split; cbn [fst snd]; try done.
    + rewrite map_app, elem_of_app. rewrite Hin. auto.
    + rewrite map_app, elem_of_app. intros [?|Hx]; [by apply Hin|].
      simpl in Hx. apply list_elem_of_singleton in Hx as ->. done.
    + intros k l h Hk Hh. apply first_handle_app_Some. eauto.
  - repeat split; cbn [fst snd].
    + rewrite !length_app. simpl. lia.
    + apply NoDup_app. repeat split; [done| |apply NoDup_singleton].
      intros x Hx Hx'. apply list_elem_of_singleton in Hx' as ->. done.
    + rewrite map_app, !elem_of_app, Hin. done.
    + rewrite map_app, !elem_of_app, Hin. done.
    + intros k l h Hk Hh.
      destruct (decide (k < length ls)) as [Hlt|Hge].
      * rewrite lookup_app_l in Hk by done.
        rewrite lookup_app_l in Hh by lia.
        apply first_handle_app_Some. eauto.
      * rewrite lookup_app_r in Hk by lia.
        rewrite lookup_app_r in Hh by lia. rewrite Hlen in Hh.
        destruct (k - length ls) as [|n]; [|done].
        simpl in Hk, Hh. injection Hk as <-. injection Hh as <-.
        rewrite first_handle_app_None.
        -- simpl. by rewrite String.eqb_refl.
        -- apply first_handle_None. by rewrite <- Hin.
Qed.

Lemma dedup_loop_inv (qs ps : list (Handle * string))
    (acc : list Handle * list string) :
  dedup_inv ps acc ->
  dedup_inv (ps ++ qs) (fold_left (dedup_step) qs acc).
Proof.
  revert ps acc. induction qs as [|q qs IH]; intros ps acc Hinv; simpl.
  - by rewrite app_nil_r.
  - replace (ps ++ q :: qs) with ((ps ++ [q]) ++ qs)
      by (by rewrite <- app_assoc).
    apply IH. by apply dedup_step_inv.
Qed.

Lemma leb_ltb (a b : string) :
  String.leb a b = true -> a <> b -> String.ltb a b = true.
Proof.
  unfold String.leb, String.ltb. intros Hle Hne.
  destruct (String.compare a b) eqn:E; try done.
  by apply String.compare_eq_iff in E.
Qed.

Lemma Sorted_leb_ltb (l : list string) :
  Sorted (fun a b => String.leb a b = true) l -> NoDup l ->
  Sorted (fun a b => String.ltb a b = true) l.
Proof.
  induction 1 as [|a l Hl IH Ha]; intros Hnd; [constructor|].
  apply NoDup_cons in Hnd as [Hal Hnd]. constructor; [by apply IH|].
  destruct Ha as [|b l' Hab]; constructor.
  apply leb_ltb; [done|]. intros ->. apply Hal. apply list_elem_of_here.
Qed.

Lemma Sorted_pair_leb_fst (l : list (string * Handle)) :
  Sorted (fun p q => pair_leb p q = true) l ->
  Sorted (fun a b => String.leb a b = true) (map fst l).
Proof.
  induction 1 as [|p l Hl IH Hp]; simpl; constructor; [done|].
  destruct Hp as [|q l' Hpq]; simpl; constructor. exact Hpq.
Qed.

Lemma pair_leb_total (p q : string * Handle) :
  pair_leb p q = true \/ pair_leb q p = true.
Proof. apply String.leb_total. Qed.

(** C9: on non-empty lists of equal length [deduplicate_legend]
    returns two lists of equal length; no label occurs twice, the
    labels ascend, they are the labels of the input, and each comes
    with the handle of its first occurrence in the input.  On empty
    lists it raises. *)
Theorem deduplicate_legend_sorted_unique (handles : list Handle)
    (labels : list string) :
  (length handles = length labels -> labels <> [] ->
   exists hs ls,
     deduplicate_legend handles labels = Ret (hs, ls)
     /\ length hs = length ls
     /\ NoDup ls
     /\ Sorted (fun a b => String.ltb a b = true) ls
     /\ (forall l, l ∈ ls <-> l ∈ labels)
     /\ (forall i l h,
           ls !! i = Some l -> hs !! i = Some h ->
           exists j, labels !! j = Some l /\ handles !! j = Some h
                     /\ forall j', j' < j -> labels !! j' <> Some l))
  /\ (handles = [] -> labels = [] ->
      deduplicate_legend handles labels = Raise ValueError).
Proof.
  split; [|by intros -> ->].
  intros Hlen Hne. unfold deduplicate_legend.
  pose proof (dedup_loop_inv (zip handles labels) [] ([], [])) as Hinv.
  cbn [app] in Hinv.
  destruct (fold_left dedup_step (zip handles labels) ([], []))
    as [nh nl] eqn:Hfold.
  destruct Hinv as (Hl & Hnd & Hin & Hfirst).
  { repeat split; try done. apply NoDup_nil_2. }
  cbn [fst snd] in *.
  rewrite snd_zip in Hin by lia.
  pose proof (sort_by_Permutation pair_leb (zip nl nh)) as Hperm.
  pose proof (sort_by_Sorted pair_leb pair_leb_total (zip nl nh)) as Hsort.
  assert (map fst (sort_by pair_leb (zip nl nh)) ≡ₚ nl) as Hpl.
  { rewrite Hperm. by rewrite fst_zip by lia. }
  destruct (sort_by pair_leb (zip nl nh)) as [|p sorted] eqn:Hs.
  { exfalso. apply Permutation_nil_l in Hpl. subst nl.
    destruct labels as [|l labels]; [done|].
    assert (l ∈ @nil string) as Hx by (apply Hin, list_elem_of_here).
    by apply elem_of_nil in Hx. }
  eexists _, _. split; [reflexivity|].
  split; [by rewrite !length_map|].
  split; [by rewrite Hpl|].
  split; [apply Sorted_leb_ltb;
          [by apply Sorted_pair_leb_fst | by rewrite Hpl]|].
  split; [intros l; by rewrite Hpl|].
  intros i l h Hil Hih.
  change (map fst (p :: sorted)) with (fst <$> (p :: sorted)) in Hil.
  change (map snd (p :: sorted)) with (snd <$> (p :: sorted)) in Hih.
  rewrite list_lookup_fmap in Hil. rewrite list_lookup_fmap in Hih.
  destruct ((p :: sorted) !! i) as [[l' h']|] eqn:Hi; [|done].
  cbn in Hil, Hih. injection Hil as ->. injection Hih as ->.
  apply list_elem_of_lookup_2 in Hi. rewrite Hperm in Hi.
  apply list_elem_of_lookup in Hi as [k Hk].
  apply lookup_zip_with_Some in Hk as (l' & h' & [= <- <-] & Hkl & Hkh).
  apply first_handle_zip. eauto.
Qed.
End LegendProps.
(** ** Writing one entry of a row *)

Lemma nth_set_nth_eq (i : nat) (v : cell) (vs : list cell) :
  nth i (set_nth i v vs) NaN = v.
Proof.
  unfold set_nth. rewrite nth_lookup. case_bool_decide as Hi.
  - by rewrite list_lookup_insert_eq.
  - rewrite lookup_app_r by lia.
    rewrite lookup_app_r by (rewrite length_replicate; lia).
    rewrite length_replicate. by rewrite Nat.sub_diag.
Qed.

Lemma nth_set_nth_ne (i j : nat) (v : cell) (vs : list cell) :
  i <> j -> nth j (set_nth i v vs) NaN = nth j vs NaN.
Proof.
  intros Hij. unfold set_nth. rewrite !nth_lookup. case_bool_decide as Hi.
  - by rewrite list_lookup_insert_ne.
  - destruct (decide (j < length vs)) as [Hj|Hj].
    + by rewrite lookup_app_l.
    + rewrite lookup_app_r by lia.
      rewrite (lookup_ge_None_2 vs j) by lia. simpl.
      destruct (decide (j - length vs < i - length vs)) as [Hlt|Hge].
      * rewrite lookup_app_l by (rewrite length_replicate; lia).
        by rewrite lookup_replicate_2.
      * rewrite lookup_app_r by (rewrite length_replicate; lia).
        rewrite length_replicate.
        destruct (j - length vs - (i - length vs)) as [|n] eqn:E; [lia|].
        done.
Qed.

(** ** [scenario_Node_2_process_caps] *)

Lemma scale_row_key (key : list string) (i : nat) (x : F)
    (r : list cell * list cell) :
  (scale_row key i x r).1 = r.1.
Proof. unfold scale_row. by destruct (key_matches key r.1). Qed.

Lemma scale_rows_ret (key : list string) (i : nat) (x : F)
    (rs : list (list cell * list cell)) :
  Forall (fun r => key_matches key r.1 = true ->
                   exists y, nth i r.2 NaN = CNum y) rs ->
  rmapM (fun r : list cell * list cell =>
           if key_matches key r.1
           then rbind (cell_mul (nth i r.2 NaN) x)
                  (fun v => Ret (r.1, set_nth i v r.2))
           else Ret r) rs
  = Ret (map (scale_row key i x) rs).
Proof.
  induction 1 as [|r rs Hr _ IH]; simpl; [done|].
  rewrite IH. unfold scale_row.
  destruct (key_matches key r.1) eqn:Hk; [|done].
  destruct (Hr eq_refl) as [y ->]. done.
Qed.

Lemma loc_imul_ret (df : DataFrame) (key : list string) (label : string)
    (x : F) (labels : list string) (i : nat) :
  length key = length (index_names df) ->
  columns df = Index labels -> index_of label labels = Some i ->
  Exists (fun r => key_matches key r.1 = true) (rows df) ->
  Forall (fun r => key_matches key r.1 = true ->
                   exists y, nth i r.2 NaN = CNum y) (rows df) ->
  loc_imul df key label x
  = Ret (mkFrame (index_names df) (Index labels)
           (map (scale_row key i x) (rows df))).
Proof.
  intros Hlev Hc Hi Hex Hnum. unfold loc_imul. rewrite Hc, Hi.
  assert (existsb (fun r : list cell * list cell => key_matches key r.1)
                  (rows df) = true) as ->.
  { apply existsb_exists. apply Exists_exists in Hex as (r & Hr & Hk).
    exists r. split; [by apply list_elem_of_In|done]. }
  rewrite scale_rows_ret by done. cbn [rbind].
  by rewrite bool_decide_eq_true_2.
Qed.

Lemma loc_imul_at_ret (pro : loc) (df : DataFrame) (key : list string)
    (label : string) (x : F) (labels : list string) (i : nat) (σ : store) :
  σ !! pro = Some df ->
  length key = length (index_names df) ->
  columns df = Index labels -> index_of label labels = Some i ->
  Exists (fun r => key_matches key r.1 = true) (rows df) ->
  Forall (fun r => key_matches key r.1 = true ->
                   exists y, nth i r.2 NaN = CNum y) (rows df) ->
  loc_imul_at pro key label x σ
  = (Ret tt,
     <[pro := mkFrame (index_names df) (Index labels)
                (map (scale_row key i x) (rows df))]> σ).
Proof.
  intros Hl Hlev Hc Hi Hex Hnum. unfold loc_imul_at.
  rewrite (bind_ret _ _ _ _ _ (load_ret _ _ _ Hl)).
  by rewrite (loc_imul_ret _ _ _ _ _ _ Hlev Hc Hi Hex Hnum).
Qed.

Lemma key_matches_gas_biomass (k : list cell) :
  key_matches ["Node_2"; "Gas plant"] k = true ->
  key_matches ["Node_2"; "Biomass plant"] k = false.
Proof.
  destruct k as [|a [|b k]]; cbn [key_matches]; try done.
  - by rewrite andb_false_r.
  - destruct (cell_is_str "Node_2" a); [|done]. cbn [andb].
    rewrite !andb_true_r.
    destruct b as [y|t]; cbn [cell_is_str]; [done|].
    intros E. apply String.eqb_eq in E as <-. done.
Qed.
(** C7: when the 'process' table has the two index levels that the
    keys name, and rows ('Node_2', 'Gas plant') and
    ('Node_2', 'Biomass plant') with numeric 'cap-up' entries,
    [scenario_Node_2_process_caps] returns the dict it was given; the
    'cap-up' entry of the first is multiplied by 0.5 and that of the
    second by 0.25; every other entry of the table, its index and its
    columns stay, and so does every other object of the store. *)
Theorem scenario_Node_2_process_caps_frame (data : pydict) (σ : store)
    (pro : loc) (df : DataFrame) (labels : list string) (i : nat) :
  let gas := ["Node_2"; "Gas plant"] in
  let biomass := ["Node_2"; "Biomass plant"] in
  dict_find data "process" = Some pro ->
  σ !! pro = Some df ->
  length (index_names df) = 2 ->
  columns df = Index labels ->
  index_of "cap-up" labels = Some i ->
  Exists (fun r => key_matches gas r.1 = true) (rows df) ->
  Exists (fun r => key_matches biomass r.1 = true) (rows df) ->
  Forall (fun r => key_matches gas r.1 = true \/ key_matches biomass r.1 = true ->
                   exists y, nth i r.2 NaN = CNum y) (rows df) ->
  exists df',
    scenario_Node_2_process_caps data σ = (Ret data, <[pro := df']> σ)
    /\ (forall l, l <> pro -> (<[pro := df']> σ) !! l = σ !! l)
    /\ index_names df' = index_names df
    /\ columns df' = columns df
    /\ length (rows df') = length (rows df)
    /\ forall j r,
         rows df !! j = Some r ->
         exists r',
           rows df' !! j = Some r'
           /\ r'.1 = r.1
           /\ (forall y, key_matches gas r.1 = true ->
                         nth i r.2 NaN = CNum y ->
                         nth i r'.2 NaN = CNum (fmul y (flit 0.5)))
           /\ (forall y, key_matches biomass r.1 = true ->
                         nth i r.2 NaN = CNum y ->
                         nth i r'.2 NaN = CNum (fmul y (flit 0.25)))
           /\ (key_matches gas r.1 = false ->
               key_matches biomass r.1 = false -> r' = r)
           /\ (forall c, c <> i -> nth c r'.2 NaN = nth c r.2 NaN).
Proof.
  intros gas biomass Hd Hl Hlev Hc Hi Hgas Hbio Hnum.
  set (rows1 := map (scale_row gas i (flit 0.5)) (rows df)).
  set (df1 := mkFrame (index_names df) (Index labels) rows1).
  set (rows2 := map (scale_row biomass i (flit 0.25)) rows1).
  exists (mkFrame (index_names df) (Index labels) rows2).
  assert (loc_imul_at pro gas "cap-up" (flit 0.5) σ
          = (Ret tt, <[pro := df1]> σ)) as E1.
  { eapply loc_imul_at_ret; try done.
    eapply Forall_impl; [exact Hnum|]. cbn beta. auto. }
  assert (loc_imul_at pro biomass "cap-up" (flit 0.25) (<[pro := df1]> σ)
          = (Ret tt, <[pro := mkFrame (index_names df) (Index labels) rows2]>
                       (<[pro := df1]> σ))) as E2.
  { eapply (loc_imul_at_ret pro df1); try done.
    - apply lookup_insert_eq.
    - subst df1 rows1. cbn [rows]. apply Exists_fmap.
      eapply Exists_impl; [exact Hbio|]. intros r Hr. cbv [compose].
      by rewrite scale_row_key.
    - subst df1 rows1. cbn [rows]. apply Forall_fmap.
      eapply Forall_impl; [exact Hnum|]. intros r Hr. cbv [compose].
      rewrite scale_row_key. intros Hb. unfold scale_row.
      destruct (key_matches gas r.1) eqn:Hg.
      + apply key_matches_gas_biomass in Hg. fold biomass in Hg. congruence.
      + auto. }
  split.
  { unfold scenario_Node_2_process_caps, dict_get. rewrite Hd.
    unfold mbind at 1, M_bind at 1, lift.
    rewrite (bind_ret _ _ _ _ _ E1), (bind_ret _ _ _ _ _ E2).
    by rewrite insert_insert_eq. }
  split; [intros l Hne; by rewrite lookup_insert_ne|].
  split; [done|]. split; [by rewrite Hc|].
  split; [subst rows2 rows1; cbn [rows]; by rewrite !length_map|].
  intros j r Hj. cbn [rows]. subst rows2 rows1.
  exists (scale_row biomass i (flit 0.25) (scale_row gas i (flit 0.5) r)).
  split.
  { change (map ?f ?l) with (f <$> l).
    rewrite !list_lookup_fmap, Hj. done. }
  split; [by rewrite !scale_row_key|].
  unfold scale_row at 2 4 6 8.
  destruct (key_matches gas r.1) eqn:Hg.
  - pose proof (key_matches_gas_biomass _ Hg) as Hb. fold biomass in Hb.
    unfold scale_row. cbn [fst snd]. rewrite Hb.
    split; [|split; [|split]].
    + intros y _ Hy. cbn [fst snd]. rewrite nth_set_nth_eq, Hy. done.
    + done.
    + done.
    + intros c Hci. cbn [fst snd]. by rewrite nth_set_nth_ne.
  - unfold scale_row. destruct (key_matches biomass r.1) eqn:Hb; cbn [fst snd].
    + split; [done|]. split; [|split].
      * intros y _ Hy. cbn [fst snd]. rewrite nth_set_nth_eq, Hy. done.
      * done.
      * intros c Hci. cbn [fst snd]. by rewrite nth_set_nth_ne.
    + done.
Qed.
(** ** The annuity factor column *)

Lemma index_of_Some (x : string) (l : list string) (i : nat) :
  index_of x l = Some i -> l !! i = Some x.
Proof.
  revert i. induction l as [|y l IH]; intros i; simpl; [done|].
  destruct (String.eqb x y) eqn:E.
  - intros [= <-]. by apply String.eqb_eq in E as ->.
  - destruct (index_of x l) as [j|]; [|done]. intros [= <-]. by apply IH.
Qed.

Lemma index_of_app (x : string) (l l' : list string) (i : nat) :
  index_of x l = Some i -> index_of x (l ++ l') = Some i.
Proof.
  revert i. induction l as [|y l IH]; intros i; simpl; [done|].
  destruct (String.eqb x y); [done|].
  destruct (index_of x l) as [j|]; [|done]. intros [= <-].
  by rewrite (IH j).
Qed.

Lemma index_of_app_new (x : string) (l : list string) :
  index_of x l = None -> index_of x (l ++ [x]) = Some (length l).
Proof.
  induction l as [|y l IH]; simpl.
  - by rewrite String.eqb_refl.
  - destruct (String.eqb x y); [done|].
    destruct (index_of x l) as [j|]; [done|]. intros _. by rewrite IH.
Qed.

Lemma annuity_items (i_n i_w : nat) (rs : list (list cell * list cell))
    (items : list (list cell * cell)) :
  rmapM (fun p : (list cell * cell) * (list cell * cell) =>
           match p.1.2, p.2.2 with
           | CNum dn, CNum di => Ret (p.1.1, CNum (annuity_factor dn di))
           | _, _ => Raise TypeError
           end)
        (zip (map (fun r => (r.1, nth i_n r.2 NaN)) rs)
             (map (fun r => (r.1, nth i_w r.2 NaN)) rs))
  = Ret items ->
  Forall2 (fun (r : list cell * list cell) (it : list cell * cell) =>
             exists n i, nth i_n r.2 NaN = CNum n
                         /\ nth i_w r.2 NaN = CNum i
                         /\ it.2 = CNum (annuity_factor n i))
          rs items.
Proof.
  revert items. induction rs as [|r rs IH]; intros items E; simpl in E.
  - injection E as <-. constructor.
  - apply rbind_inv in E as (it & Eit & E).
    apply rbind_inv in E as (its & Eits & [= <-]).
    constructor; [|by apply IH]. cbn [fst snd] in Eit.
    destruct (nth i_n r.2 NaN) as [dn|]; [|done].
    destruct (nth i_w r.2 NaN) as [di|]; [|done].
    injection Eit as <-. eauto.
Qed.

Lemma zip_rows_annuity (i_n i_w i_a : nat)
    (rs : list (list cell * list cell)) (items : list (list cell * cell)) :
  Forall2 (fun (r : list cell * list cell) (it : list cell * cell) =>
             exists n i, nth i_n r.2 NaN = CNum n
                         /\ nth i_w r.2 NaN = CNum i
                         /\ it.2 = CNum (annuity_factor n i))
          rs items ->
  Forall2 (fun r r' : list cell * list cell =>
             r'.1 = r.1
             /\ (exists n i,
                   nth i_n r.2 NaN = CNum n
                   /\ nth i_w r.2 NaN = CNum i
                   /\ nth i_a r'.2 NaN
                      = CNum (fdiv (fmul (fpow (fadd (flit 1) i) n) i)
                                   (fsub (fpow (fadd (flit 1) i) n)
                                         (flit 1))))
             /\ forall c, c <> i_a -> nth c r'.2 NaN = nth c r.2 NaN)
          rs (zip_rows rs items i_a).
Proof.
  induction 1 as [|r it rs items (n & i & En & Ei & Eit) _ IH];
    simpl; constructor; [|done].
  cbn [fst snd]. split; [done|]. split.
  - exists n, i. rewrite nth_set_nth_eq. by rewrite Eit.
  - intros c Hc. by rewrite nth_set_nth_ne.
Qed.

(** One assignment of the column, read off the code. *)
Lemma with_annuity_factor_added (df df' : DataFrame) :
  with_annuity_factor df df' -> annuity_added df df'.
Proof.
  intros (n & i & a & En & Ei & Ea & Eset).
  unfold getitem in En, Ei. unfold setitem in Eset.
  destruct (columns df) as [labels| |] eqn:Hc; [|done..].
  destruct (index_of "depreciation" labels) as [i_n|] eqn:Hn; [|done].
  destruct (index_of "wacc" labels) as [i_w|] eqn:Hw; [|done].
  injection En as <-. injection Ei as <-.
  unfold annuity_factor_series in Ea. cbn [s_items s_names] in Ea.
  apply rbind_inv in Ea as (items & Eitems & [= <-]).
  apply annuity_items in Eitems. cbn [s_items] in Eset.
  destruct (bool_decide (length items = length (rows df))); [|done].
  destruct (index_of "annuity-factor" labels) as [i_a|] eqn:Ha.
  - injection Eset as <-. exists labels, i_n, i_w, i_a.
    do 4 (split; [done|]). split; [by left|].
    cbn [rows]. by apply zip_rows_annuity.
  - injection Eset as <-. exists labels, i_n, i_w, (length labels).
    do 4 (split; [done|]). split; [by right|].
    cbn [rows]. by apply zip_rows_annuity.
Qed.

(** Assigning the column a second time changes nothing: the entries
    under 'depreciation' and 'wacc' are as before, so the same values
    are written to the same place. *)
Lemma annuity_added_again (df0 dfa dfb : DataFrame) :
  annuity_added df0 dfa -> annuity_added dfa dfb -> annuity_added df0 dfb.
Proof.
  intros (labels & i_n & i_w & i_a & Hc & Hn & Hw & Hnames & Hcols & Hrows)
         (la & i_n' & i_w' & i_a' & Hc' & Hn' & Hw' & Hnames' & Hcols' & Hrows').
  assert (columns dfa = Index la -> index_of "depreciation" la = Some i_n
          /\ index_of "wacc" la = Some i_w
          /\ index_of "annuity-factor" la = Some i_a) as Hla.
  { destruct Hcols as [[Ha Hca]|(Ha & -> & Hca)]; rewrite Hca; intros [= <-].
    - done.
    - split; [by apply index_of_app|]. split; [by apply index_of_app|].
      by apply index_of_app_new. }
  destruct (Hla Hc') as (Hna & Hwa & Haa).
  rewrite Hna in Hn'. injection Hn' as <-.
  rewrite Hwa in Hw'. injection Hw' as <-.
  assert (i_a' = i_a /\ columns dfb = columns dfa) as [-> Hcb].
  { destruct Hcols' as [[Ha' Hcb]|(Ha' & _ & _)]; [|congruence].
    rewrite Haa in Ha'. injection Ha' as <-. by rewrite Hcb. }
  assert (i_n <> i_a /\ i_w <> i_a) as [Hne_n Hne_w].
  { apply index_of_Some in Hna, Hwa, Haa. split; congruence. }
  exists labels, i_n, i_w, i_a. do 3 (split; [done|]).
  split; [congruence|]. split.
  { destruct Hcols as [[Ha Hca]|(Ha & Hia & Hca)]; [left|right];
      rewrite Hcb, Hca; done. }
  eapply Forall2_trans; [|exact Hrows|exact Hrows'].
  intros r ra rb (Hk & (n & i & En & Ei & Ea) & Hkeep)
         (Hk' & (n' & i' & En' & Ei' & Ea') & Hkeep').
  split; [congruence|]. split.
  - exists n, i. rewrite (Hkeep i_n Hne_n) in En'.
    rewrite (Hkeep i_w Hne_w) in Ei'.
    rewrite En in En'. rewrite Ei in Ei'.
    injection En' as <-. injection Ei' as <-. done.
  - intros c Hci. by rewrite Hkeep', Hkeep.
Qed.

Lemma derive_annuity_factor_inv (l : loc) (σ σ' : store) (u : unit) :
  derive_annuity_factor l σ = (Ret u, σ') ->
  exists df df', σ !! l = Some df /\ with_annuity_factor df df'
                 /\ σ' = <[l := df']> σ.
Proof.
  unfold derive_annuity_factor. intros E.
  apply bind_inv in E as (df & σ1 & E1 & E). apply load_inv in E1 as [Hl ->].
  apply bind_inv in E as (n & σ1 & E1 & E). apply lift_inv in E1 as [En ->].
  apply bind_inv in E as (i & σ1 & E1 & E). apply lift_inv in E1 as [Ei ->].
  apply bind_inv in E as (a & σ1 & E1 & E). apply lift_inv in E1 as [Ea ->].
  apply bind_inv in E as (df' & σ1 & E1 & E). apply lift_inv in E1 as [Es ->].
  apply store_at_inv in E. exists df, df'. split; [done|].
  split; [|done]. by exists n, i, a.
Qed.

(** What one assignment does to the object behind [l0], in terms of
    the table [df0] that the object held at the start. *)
Lemma derive_annuity_factor_step (l l0 : loc) (σ σ' : store) (u : unit)
    (df0 dfa : DataFrame) :
  derive_annuity_factor l σ = (Ret u, σ') ->
  σ !! l0 = Some dfa ->
  dfa = df0 \/ annuity_added df0 dfa ->
  exists dfb,
    σ' !! l0 = Some dfb
    /\ (dfb = df0 \/ annuity_added df0 dfb)
    /\ (l = l0 -> annuity_added df0 dfb)
    /\ (annuity_added df0 dfa -> annuity_added df0 dfb).
Proof.
  intros E Hl0 Hrel.
  apply derive_annuity_factor_inv in E as (df & df' & Hl & Hw & ->).
  destruct (decide (l = l0)) as [->|Hne].
  - rewrite Hl0 in Hl. injection Hl as <-. exists df'.
    rewrite lookup_insert_eq. split; [done|].
    apply with_annuity_factor_added in Hw.
    assert (annuity_added df0 df') as Hadd.
    { destruct Hrel as [->|Hrel]; [done|]. by eapply annuity_added_again. }
    auto.
  - exists dfa. rewrite lookup_insert_ne by done. by auto.
Qed.

(** ** [pyomo_model_prep] *)

Lemma dict_get_inv (d : pydict) (k : string) (l : loc) :
  dict_get d k = Ret l -> dict_find d k = Some l.
Proof. unfold dict_get. by destruct (dict_find d k) as [l'|]; intros [= ->]. Qed.

Ltac prep_step E :=
  let a := fresh "a" in let σ1 := fresh "σ" in let Hc := fresh "Hc" in
  cbv beta zeta in E;
  apply bind_inv in E as (a & σ1 & Hc & E);
  first [ apply new_inv in Hc as (? & ? & ? & ->)
        | apply load_inv in Hc as [Hc ->]
        | apply lift_inv in Hc as [Hc ->]
        | idtac ].

Lemma attrs_setattr_eq (m : Model) (k : string) (v : value) :
  attrs (setattr m k v) !! k = Some v.
Proof. apply lookup_insert_eq. Qed.

Lemma attrs_setattr_ne (m : Model) (k k' : string) (v : value) :
  String.eqb k k' = false -> attrs (setattr m k v) !! k' = attrs m !! k'.
Proof. intros E. apply String.eqb_neq in E. by apply lookup_insert_ne. Qed.

Ltac attr_lookup :=
  repeat (rewrite attrs_setattr_ne by reflexivity); apply attrs_setattr_eq.

(** What a normal return of [pyomo_model_prep] tells: the attributes
    under the names of the input tables, the three objects it creates,
    and the three in-place updates. *)
Lemma pyomo_model_prep_inv (data : pydict) (timesteps : list Z)
    (σ σ' : store) (m : Model) :
  pyomo_model_prep data timesteps σ = (Ret m, σ') ->
  exists (gp gp' lp lt ls : loc) (gpdf gpdf' : DataFrame) (σ3 σ4 σ5 : store),
    dict_find data "global_prop" = Some gp
    /\ σ !! gp = Some gpdf
    /\ drop "description" gpdf = Ret gpdf'
    /\ σ !! gp' = None
    /\ σ3 !! gp' = Some gpdf'
    /\ attrs m !! "global_prop" = Some (VFrame gp')
    /\ Forall (fun k => exists l, dict_find data k = Some l
                                  /\ attrs m !! k = Some (VFrame l))
              ["site"; "commodity"; "process"; "process_commodity";
               "transmission"; "storage"; "demand"; "supim";
               "buy_sell_price"; "dsm"]
    /\ (forall l, is_Some (σ !! l) -> σ3 !! l = σ !! l)
    /\ dict_find data "process" = Some lp
    /\ dict_find data "transmission" = Some lt
    /\ dict_find data "storage" = Some ls
    /\ derive_annuity_factor lp σ3 = (Ret tt, σ4)
    /\ derive_annuity_factor lt σ4 = (Ret tt, σ5)
    /\ derive_annuity_factor ls σ5 = (Ret tt, σ').
Proof.
  unfold pyomo_model_prep. intros E.
  repeat prep_step E.
  injection E as <- <-.
  repeat match goal with
         | Hd : dict_get _ _ = Ret _ |- _ => apply dict_get_inv in Hd
         | u : unit |- _ => destruct u
         end.
  match goal with
  | H1 : derive_annuity_factor ?lp ?s3 = (_, ?s4),
    H2 : derive_annuity_factor ?lt ?s4 = (_, ?s5),
    H3 : derive_annuity_factor ?ls ?s5 = (_, _),
    Hgp : dict_find data "global_prop" = Some ?gp,
    Hx : drop "description" ?gpdf = Ret ?gpdf',
    Hfr : σ !! ?gp' = None |- _ =>
      exists gp, gp', lp, lt, ls, gpdf, gpdf', s3, s4, s5
  end.
  repeat match goal with
         | Hfr : <[_ := _]> _ !! _ = None |- _ =>
             apply lookup_insert_None in Hfr as [Hfr ?]
         end.
  split; [done|]. split; [done|]. split; [done|]. split; [done|].
  split; [by rewrite !lookup_insert_ne by done; apply lookup_insert_eq|].
  split; [attr_lookup|].
  split.
  { repeat (apply Forall_cons_2; [eexists; split; [eassumption|attr_lookup]|]).
    apply Forall_nil_2. }
  split.
  { intros l [df Hl].
    rewrite !lookup_insert_ne; [done|intros ->; congruence..]. }
  done.
Qed.
Lemma dict_find_elem (d : pydict) (k : string) (l : loc) :
  dict_find d k = Some l -> (k, l) ∈ d.
Proof.
  induction d as [|[k' l'] d IH]; simpl; [done|].
  destruct (String.eqb k k') eqn:E.
  - intros [= ->]. apply String.eqb_eq in E as ->. apply list_elem_of_here.
  - intros Hd. apply list_elem_of_further. by apply IH.
Qed.

(** C1: [pyomo_model_prep] adds the column 'annuity-factor' to each of
    the tables 'process', 'transmission' and 'storage': the object
    under the key, which is also the attribute of the model, holds
    afterwards the table it held before with that one column written,
    and in every row the entry of the column is
    (1+i)^n * i / ((1+i)^n - 1) for the row's entries [n] under
    'depreciation' and [i] under 'wacc'; the index, the other columns
    and the order of the rows are as before. *)
Theorem pyomo_model_prep_annuity_factor (data : pydict)
    (timesteps : list Z) (σ σ' : store) (m : Model) :
  Forall (fun p : string * loc => is_Some (σ !! p.2)) data ->
  pyomo_model_prep data timesteps σ = (Ret m, σ') ->
  Forall (fun table =>
            exists l df df',
              dict_find data table = Some l
              /\ attrs m !! table = Some (VFrame l)
              /\ σ !! l = Some df
              /\ σ' !! l = Some df'
              /\ annuity_added df df')
         ["process"; "transmission"; "storage"].
Proof.
  intros Hlive E.
  apply pyomo_model_prep_inv in E
    as (gp & gp' & lp & lt & ls & gpdf & gpdf' & σ3 & σ4 & σ5
        & _ & _ & _ & _ & _ & _ & Hattrs & Hframe & Hp & Ht & Hs
        & E4 & E5 & E6).
  rewrite Forall_forall in Hattrs. rewrite Forall_forall in Hlive.
  assert (forall k l, dict_find data k = Some l ->
                      exists df, σ !! l = Some df /\ σ3 !! l = Some df)
    as Hold.
  { intros k l Hk. apply dict_find_elem in Hk.
    destruct (Hlive _ Hk) as [df Hdf]. cbn [snd] in Hdf.
    exists df. split; [done|]. rewrite Hframe by eauto. done. }
  assert (forall k l, k ∈ ["process"; "transmission"; "storage"] ->
                      dict_find data k = Some l ->
                      attrs m !! k = Some (VFrame l)) as Hattr.
  { intros k l Hk Hl. destruct (Hattrs k) as (l' & Hl' & Ha).
    - repeat (apply elem_of_cons in Hk as [->|Hk];
        [repeat first [apply list_elem_of_here | apply list_elem_of_further]|]).
      by apply elem_of_nil in Hk.
    - congruence. }
  assert (forall l df, σ3 !! l = Some df ->
            exists df4 df5 df6,
              σ4 !! l = Some df4 /\ σ5 !! l = Some df5 /\ σ' !! l = Some df6
              /\ (l = lp \/ l = lt \/ l = ls -> annuity_added df df6))
    as Hrun.
  { intros l df Hl.
    destruct (derive_annuity_factor_step _ l _ _ _ df df E4 Hl (or_introl eq_refl))
      as (df4 & H4 & R4 & A4 & _).
    destruct (derive_annuity_factor_step _ l _ _ _ df df4 E5 H4 R4)
      as (df5 & H5 & R5 & A5 & K5).
    destruct (derive_annuity_factor_step _ l _ _ _ df df5 E6 H5 R5)
      as (df6 & H6 & R6 & A6 & K6).
    exists df4, df5, df6. do 3 (split; [done|]).
    intros [Hl'|[Hl'|Hl']]; auto. }
  repeat apply Forall_cons_2; [| | |apply Forall_nil_2].
  - destruct (Hold _ _ Hp) as (df & Hdf & Hdf3).
    destruct (Hrun _ _ Hdf3) as (df4 & df5 & df6 & _ & _ & H6 & Hadd).
    exists lp, df, df6. split; [done|]. split.
    { apply Hattr; [|done].
      repeat first [apply list_elem_of_here | apply list_elem_of_further]. }
    do 2 (split; [done|]). apply Hadd. auto.
  - destruct (Hold _ _ Ht) as (df & Hdf & Hdf3).
    destruct (Hrun _ _ Hdf3) as (df4 & df5 & df6 & _ & _ & H6 & Hadd).
    exists lt, df, df6. split; [done|]. split.
    { apply Hattr; [|done].
      repeat first [apply list_elem_of_here | apply list_elem_of_further]. }
    do 2 (split; [done|]). apply Hadd. auto.
  - destruct (Hold _ _ Hs) as (df & Hdf & Hdf3).
    destruct (Hrun _ _ Hdf3) as (df4 & df5 & df6 & _ & _ & H6 & Hadd).
    exists ls, df, df6. split; [done|]. split.
    { apply Hattr; [|done].
      repeat first [apply list_elem_of_here | apply list_elem_of_further]. }
    do 2 (split; [done|]). apply Hadd. auto.
Qed.
(** ** The round trip of the input tables *)

Lemma NoDup_snd_inj (d : pydict) (k k' : string) (l : loc) :
  NoDup (map snd d) -> (k, l) ∈ d -> (k', l) ∈ d -> k = k'.
Proof.
  induction d as [|[k0 l0] d IH]; intros Hnd Hk Hk'.
  - by apply elem_of_nil in Hk.
  - simpl in Hnd. apply NoDup_cons in Hnd as [Hl0 Hnd].
    assert (forall k1, (k1, l0) ∈ d -> False) as Hno.
    { intros k1 Hk1. apply Hl0. change (map snd d) with (snd <$> d).
      apply list_elem_of_fmap. by exists (k1, l0). }
    apply elem_of_cons in Hk as [Hk|Hk];
      apply elem_of_cons in Hk' as [Hk'|Hk'].
    + congruence.
    + injection Hk as -> ->. by destruct (Hno k').
    + injection Hk' as -> ->. by destruct (Hno k).
    + by apply IH.
Qed.

Lemma dict_find_distinct (d : pydict) (k k' : string) (l l' : loc) :
  NoDup (map snd d) -> dict_find d k = Some l -> dict_find d k' = Some l' ->
  k <> k' -> l <> l'.
Proof.
  intros Hnd Hk Hk' Hne ->. apply Hne.
  eapply NoDup_snd_inj; eauto using dict_find_elem.
Qed.

Lemma get_input_attr (m : Model) (k : string) (v : value) (σ : store) :
  String.eqb k "_data" = false -> attrs m !! k = Some v ->
  get_input m k σ = (Ret v, σ).
Proof.
  intros Hk Hv. unfold get_input, hasattr, getattr. rewrite Hk, Hv.
  by rewrite bool_decide_eq_true_2 by eauto.
Qed.

(** C2, as the code has it: [get_input] on the prepared model yields
    the very object of the input dict for every key but 'global_prop';
    seven of these objects are as [read_excel] left them, while
    'process', 'transmission' and 'storage' have gained the column
    'annuity-factor'; under 'global_prop' it yields a new table, the
    input table without its column 'description', and the input table
    itself is untouched. *)
Theorem get_input_after_prep (xls : gmap string Sheet) (σ σ1 σ2 : store)
    (data : pydict) (timesteps : list Z) (m : Model) :
  read_excel xls σ = (Ret data, σ1) ->
  pyomo_model_prep data timesteps σ1 = (Ret m, σ2) ->
  Forall (fun k =>
            exists l df,
              dict_find data k = Some l
              /\ get_input m k σ2 = (Ret (VFrame l), σ2)
              /\ σ1 !! l = Some df
              /\ σ2 !! l = Some df)
         ["site"; "commodity"; "process_commodity"; "demand"; "supim";
          "buy_sell_price"; "dsm"]
  /\ Forall (fun k =>
               exists l df df',
                 dict_find data k = Some l
                 /\ get_input m k σ2 = (Ret (VFrame l), σ2)
                 /\ σ1 !! l = Some df
                 /\ σ2 !! l = Some df'
                 /\ with_annuity_factor df df')
            ["process"; "transmission"; "storage"]
  /\ exists l l' df df',
       dict_find data "global_prop" = Some l
       /\ get_input m "global_prop" σ2 = (Ret (VFrame l'), σ2)
       /\ l' <> l
       /\ σ1 !! l = Some df
       /\ σ2 !! l = Some df
       /\ σ2 !! l' = Some df'
       /\ drop "description" df = Ret df'.
Proof.
  intros Eread Eprep.
  destruct (read_excel_inv _ _ _ _ Eread) as (_ & Hnd & _ & _ & Htab).
  assert (forall k l, k ∈ map (fun e : string * string * list string => e.1.1)
                            schema ->
                      dict_find data k = Some l -> is_Some (σ1 !! l)) as Hdom.
  { intros k l Hk Hl. change (map ?f ?x) with (f <$> x) in Hk.
    apply list_elem_of_fmap in Hk as (e & -> & He).
    rewrite Forall_forall in Htab.
    destruct (Htab e He) as (l' & df & Hl' & _ & Hdf).
    rewrite Hl in Hl'. injection Hl' as <-. eauto. }
  clear Htab.
  apply pyomo_model_prep_inv in Eprep
    as (gp & gp' & lp & lt & ls & gpdf & gpdf' & σ3 & σ4 & σ5
        & Hgp & Hgpdf & Hdrop & Hfresh & Hgp' & Hagp & Hattrs & Hσ3
        & Hp & Ht & Hs & E4 & E5 & E6).
  apply derive_annuity_factor_inv in E4 as (dfp & dfp' & Hlp & Hwp & ->).
  apply derive_annuity_factor_inv in E5 as (dft & dft' & Hlt & Hwt & ->).
  apply derive_annuity_factor_inv in E6 as (dfs & dfs' & Hls & Hws & ->).
  assert (lp <> lt) as Hpt by (by eapply dict_find_distinct).
  assert (lp <> ls) as Hps by (by eapply dict_find_distinct).
  assert (lt <> ls) as Hts by (by eapply dict_find_distinct).
  rewrite lookup_insert_ne in Hlt by done.
  rewrite !lookup_insert_ne in Hls by done.
  assert (forall k l, dict_find data k = Some l ->
                      k ∈ map (fun e : string * string * list string => e.1.1)
                            schema ->
                      σ3 !! l = σ1 !! l) as Hold.
  { intros k l Hl Hk. apply Hσ3. by eapply Hdom. }
  assert (forall l, is_Some (σ1 !! l) -> gp' <> l) as Hnew.
  { intros l [d Hl] <-. congruence. }
  rewrite Forall_forall in Hattrs.
  assert (forall k, k ∈ map (fun e : string * string * list string => e.1.1)
                          schema <->
                    k ∈ ["global_prop"; "site"; "commodity"; "process";
                         "process_commodity"; "transmission"; "storage";
                         "demand"; "supim"; "buy_sell_price"; "dsm"])
    as Hkeys by done.
  setoid_rewrite Hkeys in Hdom. setoid_rewrite Hkeys in Hold. clear Hkeys.
  assert (σ1 !! lp = Some dfp) as Hlp1.
  { rewrite <- Hlp. symmetry. eapply Hold; [done|].
    repeat first [apply list_elem_of_here | apply list_elem_of_further]. }
  assert (σ1 !! lt = Some dft) as Hlt1.
  { rewrite <- Hlt. symmetry. eapply Hold; [done|].
    repeat first [apply list_elem_of_here | apply list_elem_of_further]. }
  assert (σ1 !! ls = Some dfs) as Hls1.
  { rewrite <- Hls. symmetry. eapply Hold; [done|].
    repeat first [apply list_elem_of_here | apply list_elem_of_further]. }
  split; [|split].
  - repeat (apply Forall_cons_2;
      [match goal with
       | |- exists l df, dict_find data ?k = _ /\ _ =>
           destruct (Hattrs k) as (l & Hl & Ha);
           [repeat first [apply list_elem_of_here | apply list_elem_of_further]|];
           destruct (Hdom k l) as [df Hdf];
           [repeat first [apply list_elem_of_here | apply list_elem_of_further]
           |done|];
           exists l, df; split; [done|];
           split; [by apply get_input_attr|]; split; [done|];
           rewrite !lookup_insert_ne
             by (eapply dict_find_distinct; [exact Hnd|eassumption..|done]);
           rewrite Hσ3 by eauto; done
       end|]).
    apply Forall_nil_2.
  - repeat apply Forall_cons_2; [| | |apply Forall_nil_2].
    + destruct (Hattrs "process") as (l & Hl & Ha);
        [repeat first [apply list_elem_of_here | apply list_elem_of_further]|].
      rewrite Hp in Hl. injection Hl as <-.
      exists lp, dfp, dfp'. split; [done|].
      split; [by apply get_input_attr|]. split; [done|]. split; [|done].
      rewrite !lookup_insert_ne by done. apply lookup_insert_eq.
    + destruct (Hattrs "transmission") as (l & Hl & Ha);
        [repeat first [apply list_elem_of_here | apply list_elem_of_further]|].
      rewrite Ht in Hl. injection Hl as <-.
      exists lt, dft, dft'. split; [done|].
      split; [by apply get_input_attr|]. split; [done|]. split; [|done].
      rewrite !lookup_insert_ne by done. apply lookup_insert_eq.
    + destruct (Hattrs "storage") as (l & Hl & Ha);
        [repeat first [apply list_elem_of_here | apply list_elem_of_further]|].
      rewrite Hs in Hl. injection Hl as <-.
      exists ls, dfs, dfs'. split; [done|].
      split; [by apply get_input_attr|]. split; [done|]. split; [|done].
      apply lookup_insert_eq.
  - exists gp, gp', gpdf, gpdf'. split; [done|].
    split; [by apply get_input_attr|].
    split; [apply Hnew; eauto|]. split; [done|].
    split.
    + rewrite !lookup_insert_ne
        by (eapply dict_find_distinct; [exact Hnd|eassumption..|done]).
      rewrite Hσ3 by eauto. done.
    + rewrite !lookup_insert_ne by (symmetry; apply Hnew; eauto). done.
Qed.
(** * Further properties of the code *)

(** ** [read_excel]: when it returns, and what it allocates *)

Lemma table_inv (xls : gmap string Sheet) (sheet : string)
    (idx : list string) (df : DataFrame) :
  rbind (parse xls sheet) (set_index idx) = Ret df ->
  exists sh, xls !! sheet = Some sh
             /\ Forall (fun c => CStr c ∈ header sh) idx
             /\ length (rows df) = length (body sh).
Proof.
  intros E. apply table_sheet in E as (sh & ps & Hsh & Hps & ->).
  exists sh. split; [done|]. split.
  - eapply first_title_elem. by apply title_positions_inv.
  - cbn [rows]. by rewrite length_map.
Qed.

Lemma first_title_texts (ts : list cell) (keys : list string)
    (ps : list nat) (p : nat) (x : cell) :
  Forall2 (first_title ts) keys ps -> p ∈ ps -> ts !! p = Some x ->
  exists s, x = CStr s.
Proof.
  induction 1 as [|k q keys ps [Hk _] _ IH]; intros Hp Hx.
  - by apply elem_of_nil in Hp.
  - apply elem_of_cons in Hp as [->|Hp]; [|by apply IH].
    rewrite Hk in Hx. injection Hx as <-. eauto.
Qed.

(** X1: [read_excel] returns normally exactly on the workbooks that
    adhere to the schema: every sheet is there with its index columns,
    and the titles of the time series sheets are texts. *)
Theorem read_excel_returns_iff_adheres (xls : gmap string Sheet) (σ : store) :
  returns (read_excel xls σ) <-> adheres xls.
Proof.
  split; [|apply read_excel_returns].
  intros (data & σ' & E). apply read_excel_tables in E.
  unfold adheres. eapply Forall_impl; [exact E|].
  intros [[key sheet] idx]
         (l & df & sh & ps & _ & _ & _ & Hsh & Hps & _ & _ & Hts & _).
  cbn [fst snd] in *. exists sh. split; [done|].
  split; [by eapply first_title_elem|].
  intros Htime. destruct (Hts Htime) as (labels & Hd & _).
  rewrite <- drop_at_others in Hd. apply (drop_at_Forall_inv _ ps 0).
  - rewrite Hd. apply Forall_forall. intros t Ht.
    change (map CStr labels) with (CStr <$> labels) in Ht.
    apply list_elem_of_fmap in Ht as (s & -> & _). eauto.
  - intros p x Hp _ Hx. rewrite Nat.sub_0_r in Hx.
    by eapply first_title_texts.
Qed.

Lemma dict_find_of_elem (d : pydict) (k : string) (l : loc) :
  NoDup (map fst d) -> (k, l) ∈ d -> dict_find d k = Some l.
Proof.
  induction d as [|[k0 l0] d IH]; intros Hnd Hkl.
  - by apply elem_of_nil in Hkl.
  - simpl in Hnd. apply NoDup_cons in Hnd as [Hk0 Hnd]. simpl.
    apply elem_of_cons in Hkl as [[= -> ->]|Hkl].
    + by rewrite String.eqb_refl.
    + destruct (String.eqb k k0) eqn:E; [|by apply IH].
      apply String.eqb_eq in E as ->. exfalso. apply Hk0.
      change (map fst d) with (fst <$> d). apply list_elem_of_fmap.
      by exists (k0, l).
Qed.

Lemma schema_keys_NoDup :
  NoDup (map (fun e : string * string * list string => e.1.1) schema).
Proof.
  cbn. repeat (apply NoDup_cons_2;
               [rewrite ?not_elem_of_cons; repeat split;
                first [discriminate | apply not_elem_of_nil] |]).
  apply NoDup_nil_2.
Qed.

(** X2: the eleven tables that [read_excel] returns are pairwise
    different objects, none of which existed before, and no object that
    existed before is changed. *)
Theorem read_excel_allocates_fresh (xls : gmap string Sheet) (σ σ' : store)
    (data : pydict) :
  read_excel xls σ = (Ret data, σ') ->
  length data = 11
  /\ NoDup (map snd data)
  /\ (forall l, l ∈ map snd data -> σ !! l = None /\ is_Some (σ' !! l))
  /\ (forall l, is_Some (σ !! l) -> σ' !! l = σ !! l).
Proof.
  intros E.
  destruct (read_excel_inv _ _ _ _ E) as (Hkeys & Hnd & Hfresh & Hframe & Htab).
  split; [by rewrite <- (length_map fst data), Hkeys|].
  split; [done|]. split.
  - intros l' Hl'. split; [by apply Hfresh|].
    change (map snd data) with (snd <$> data) in Hl'.
    apply list_elem_of_fmap in Hl' as ([k l0] & -> & Hkl). cbn [snd].
    assert (dict_find data k = Some l0) as Hfind.
    { apply dict_find_of_elem; [|done]. rewrite Hkeys. apply schema_keys_NoDup. }
    assert (k ∈ map fst data) as Hk.
    { change (map fst data) with (fst <$> data).
      apply list_elem_of_fmap. by exists (k, l0). }
    rewrite Hkeys in Hk. change (map ?f ?x) with (f <$> x) in Hk.
    apply list_elem_of_fmap in Hk as (e & Hek & He).
    rewrite Forall_forall in Htab.
    destruct (Htab e He) as (l & df & Hl & _ & Hdf). rewrite <- Hek in Hl.
    rewrite Hfind in Hl. injection Hl as <-. eauto.
  - intros l Hl. apply Hframe. intros Hin. apply Hfresh in Hin.
    destruct Hl as [d Hd]. congruence.
Qed.

(** X3: what [read_excel] puts under a key depends on the workbook
    alone: reading the same workbook from two stores, for instance before
    and after a scenario has changed the tables of an earlier read,
    gives equal tables under every key. *)
Theorem read_excel_independent_of_store (xls : gmap string Sheet)
    (σ1 σ1' σ2 σ2' : store) (data1 data2 : pydict) (k : string) (l1 l2 : loc) :
  read_excel xls σ1 = (Ret data1, σ1') ->
  read_excel xls σ2 = (Ret data2, σ2') ->
  dict_find data1 k = Some l1 ->
  dict_find data2 k = Some l2 ->
  is_Some (σ1' !! l1) /\ σ1' !! l1 = σ2' !! l2.
Proof.
  intros E1 E2 H1 H2.
  destruct (read_excel_inv _ _ _ _ E1) as (Hkeys & _ & _ & _ & Htab1).
  destruct (read_excel_inv _ _ _ _ E2) as (_ & _ & _ & _ & Htab2).
  assert (k ∈ map fst data1) as Hk.
  { change (map fst data1) with (fst <$> data1).
    apply list_elem_of_fmap. exists (k, l1). split; [done|].
    by apply dict_find_elem. }
  rewrite Hkeys in Hk. change (map ?f ?x) with (f <$> x) in Hk.
  apply list_elem_of_fmap in Hk as (e & -> & He).
  rewrite Forall_forall in Htab1, Htab2.
  destruct (Htab1 e He) as (l & df & Hl & Ht & Hdf).
  destruct (Htab2 e He) as (l' & df' & Hl' & Ht' & Hdf').
  rewrite H1 in Hl. injection Hl as <-. rewrite H2 in Hl'. injection Hl' as <-.
  rewrite Ht in Ht'. injection Ht' as <-. split; [eauto|congruence].
Qed.

(** X4: no row of a sheet is lost or repeated: the table under a key
    has the rows of its sheet, index columns taken out as the key of the
    row, rearranged when the index is a MultiIndex and in the order of
    the sheet otherwise. *)
Theorem read_excel_keeps_rows (xls : gmap string Sheet) (σ σ' : store)
    (data : pydict) (key sheet : string) (idx : list string) :
  read_excel xls σ = (Ret data, σ') ->
  (key, sheet, idx) ∈ schema ->
  exists l df df0 sh,
    dict_find data key = Some l
    /\ σ' !! l = Some df
    /\ xls !! sheet = Some sh
    /\ rbind (parse xls sheet) (set_index idx) = Ret df0
    /\ length (rows df) = length (body sh)
    /\ rows df ≡ₚ rows df0
    /\ (length idx < 2 -> rows df = rows df0).
Proof.
  intros E He.
  destruct (read_excel_inv _ _ _ _ E) as (_ & _ & _ & _ & Htab).
  rewrite Forall_forall in Htab.
  destruct (Htab _ He) as (l & df & Hl & Ht & Hdf). cbn [fst snd] in Hl.
  apply table_of_inv in Ht as (df0 & cols & E0 & _ & ->).
  destruct (table_inv _ _ _ _ E0) as (sh & Hsh & _ & Hlen).
  eexists l, _, df0, sh. repeat (split; [done|]).
  unfold sorted_if_multiindex, has_multiindex. cbn [index_names].
  case_bool_decide as Hm.
  - split; [|split].
    + rewrite <- Hlen. apply Permutation_length, sort_by_Permutation.
    + apply sort_by_Permutation.
    + intros Hlt. lia.
  - done.
Qed.

(** ** [split_columns]: totality, and that no two labels collapse *)

(** X5: on a flat Index [split_columns] never raises and returns as
    many labels as it was given, whatever separator is passed; on a
    MultiIndex that is not empty, such as its own result, it raises
    AttributeError. *)
Theorem split_columns_total_on_Index :
  (forall (labels : list string) (sep : string),
      exists cols, split_columns (Index labels) sep = Ret cols
                   /\ ncols cols = length labels)
  /\ (forall (tuples : list (list string)) (sep : string),
         tuples <> [] ->
         split_columns (MultiIndex tuples) sep = Raise AttributeError)
  /\ (forall (labels : list string) (sep sep' : string) (cols : Columns),
         labels <> [] ->
         split_columns (Index labels) sep = Ret cols ->
         split_columns cols sep' = Raise AttributeError).
Proof.
  assert (forall (tuples : list (list string)) (sep : string),
             tuples <> [] ->
             split_columns (MultiIndex tuples) sep = Raise AttributeError) as Hm.
  { intros [|t tuples] sep Hne; [done|]. reflexivity. }
  split; [|split; [exact Hm|]].
  - intros labels sep.
    destruct (split_columns_Index_returns labels sep) as [cols Hcols].
    exists cols. split; [done|]. by apply split_columns_ncols in Hcols.
  - intros labels sep sep' cols Hne E.
    rewrite split_columns_nonempty in E by done. injection E as <-.
    apply Hm. by destruct labels.
Qed.

Lemma split_go_dot_nonempty (s : string) : PyStr.split_go "." 0 s <> [].
Proof.
  destruct s as [|c s]; [done|]. cbn [PyStr.split_go]. rewrite prefix_cons.
  destruct (ascii_dec "." c); [by rewrite prefix_nil|].
  by destruct (PyStr.split_go "." 0 s).
Qed.

Lemma str_join_cons_char (c : ascii) (f : string) (fs : list string) :
  str_join "." (String c f :: fs) = String c (str_join "." (f :: fs)).
Proof. by destruct fs. Qed.

(** Joining what was split gives the label back. *)
Lemma str_join_split_on (s : string) :
  str_join "." (PyStr.split_on "." s) = s.
Proof.
  unfold PyStr.split_on. induction s as [|c s IH]; [done|].
  cbn [PyStr.split_go]. rewrite prefix_cons.
  destruct (ascii_dec "." c) as [<-|Hc].
  - rewrite prefix_nil.
    change (PyStr.split_go "." (String.length "." - 1) s)
      with (PyStr.split_go "." 0 s).
    pose proof (split_go_dot_nonempty s) as Hne.
    destruct (PyStr.split_go "." 0 s) as [|f fs] eqn:E; [done|].
    change (str_join "." ("" :: f :: fs))
      with ("" +:+ "." +:+ str_join "." (f :: fs)).
    by rewrite IH.
  - pose proof (split_go_dot_nonempty s) as Hne.
    destruct (PyStr.split_go "." 0 s) as [|f fs] eqn:E; [done|].
    rewrite str_join_cons_char. by rewrite IH.
Qed.

(** X6: [split_columns] is injective on flat labels: two lists of
    labels with the same result are the same list, so different column
    labels of a sheet never become the same tuple. *)
Theorem split_columns_injective (labels1 labels2 : list string)
    (sep1 sep2 : string) :
  split_columns (Index labels1) sep1 = split_columns (Index labels2) sep2 ->
  labels1 = labels2.
Proof.
  intros E.
  destruct labels1 as [|a l1], labels2 as [|b l2].
  - done.
  - rewrite (split_columns_nonempty (b :: l2)) in E by discriminate.
    discriminate E.
  - rewrite (split_columns_nonempty (a :: l1)) in E by discriminate.
    discriminate E.
  - rewrite (split_columns_nonempty (a :: l1)) in E by discriminate.
    rewrite (split_columns_nonempty (b :: l2)) in E by discriminate.
    assert (map (PyStr.split_on ".") (a :: l1)
            = map (PyStr.split_on ".") (b :: l2)) as Em by congruence.
    apply (f_equal (map (str_join "."))) in Em.
    rewrite !map_map in Em.
    by rewrite !(map_ext _ id str_join_split_on), !map_id in Em.
Qed.

(** ** [scenario_Node_2_process_caps]: repetition and failure *)

Lemma bind_raise {A B} (c : M A) (k : A -> M B) (σ σ1 : store) (e : exn) :
  c σ = (Raise e, σ1) -> (c ≫= k) σ = (Raise e, σ1).
Proof. unfold mbind, M_bind. by intros ->. Qed.

Lemma loc_imul_at_raise (pro : loc) (df : DataFrame) (key : list string)
    (label : string) (x : F) (e : exn) (σ : store) :
  σ !! pro = Some df -> loc_imul df key label x = Raise e ->
  loc_imul_at pro key label x σ = (Raise e, σ).
Proof.
  intros Hl E. unfold loc_imul_at.
  rewrite (bind_ret _ _ _ _ _ (load_ret _ _ _ Hl)).
  apply bind_raise. unfold lift. by rewrite E.
Qed.

Lemma existsb_key_matches_false (key : list string)
    (rs : list (list cell * list cell)) :
  Forall (fun r => key_matches key r.1 = false) rs ->
  existsb (fun r : list cell * list cell => key_matches key r.1) rs = false.
Proof. induction 1 as [|r rs Hr _ IH]; simpl; [done|]. by rewrite Hr, IH. Qed.

Lemma scale_rows_raise (key : list string) (i : nat) (x : F)
    (rs : list (list cell * list cell)) :
  Exists (fun r => key_matches key r.1 = true
                   /\ exists s, nth i r.2 NaN = CStr s) rs ->
  rmapM (fun r : list cell * list cell =>
           if key_matches key r.1
           then rbind (cell_mul (nth i r.2 NaN) x)
                  (fun v => Ret (r.1, set_nth i v r.2))
           else Ret r) rs
  = Raise TypeError.
Proof.
  induction 1 as [r rs (Hk & s & Hs)|r rs _ IH]; simpl.
  - by rewrite Hk, Hs.
  - rewrite IH. destruct (key_matches key r.1); [|done].
    by destruct (nth i r.2 NaN).
Qed.

(** The two updates of the scenario on a table that has the entries. *)
Lemma scenario_Node_2_process_caps_run (data : pydict) (σ : store)
    (pro : loc) (df : DataFrame) (labels : list string) (i : nat) :
  let gas := ["Node_2"; "Gas plant"] in
  let biomass := ["Node_2"; "Biomass plant"] in
  dict_find data "process" = Some pro ->
  σ !! pro = Some df ->
  length (index_names df) = 2 ->
  columns df = Index labels ->
  index_of "cap-up" labels = Some i ->
  Exists (fun r => key_matches gas r.1 = true) (rows df) ->
  Exists (fun r => key_matches biomass r.1 = true) (rows df) ->
  Forall (fun r => key_matches gas r.1 = true \/ key_matches biomass r.1 = true ->
                   exists y, nth i r.2 NaN = CNum y) (rows df) ->
  scenario_Node_2_process_caps data σ
  = (Ret data,
     <[pro := mkFrame (index_names df) (Index labels)
                (map (scale_row biomass i (flit 0.25))
                     (map (scale_row gas i (flit 0.5)) (rows df)))]> σ).
Proof.
  intros gas biomass Hd Hl Hlev Hc Hi Hgas Hbio Hnum.
  set (rows1 := map (scale_row gas i (flit 0.5)) (rows df)).
  set (df1 := mkFrame (index_names df) (Index labels) rows1).
  assert (loc_imul_at pro gas "cap-up" (flit 0.5) σ
          = (Ret tt, <[pro := df1]> σ)) as E1.
  { eapply loc_imul_at_ret; try done.
    eapply Forall_impl; [exact Hnum|]. cbn beta. auto. }
  assert (loc_imul_at pro biomass "cap-up" (flit 0.25) (<[pro := df1]> σ)
          = (Ret tt, <[pro := mkFrame (index_names df) (Index labels)
                                (map (scale_row biomass i (flit 0.25)) rows1)]>
                       (<[pro := df1]> σ))) as E2.
  { eapply (loc_imul_at_ret pro df1); try done.
    - apply lookup_insert_eq.
    - subst df1 rows1. cbn [rows]. apply Exists_fmap.
      eapply Exists_impl; [exact Hbio|]. intros r Hr. cbv [compose].
      by rewrite scale_row_key.
    - subst df1 rows1. cbn [rows]. apply Forall_fmap.
      eapply Forall_impl; [exact Hnum|]. intros r Hr. cbv [compose].
      rewrite scale_row_key. intros Hb. unfold scale_row.
      destruct (key_matches gas r.1) eqn:Hg.
      + apply key_matches_gas_biomass in Hg. fold biomass in Hg. congruence.
      + auto. }
  unfold scenario_Node_2_process_caps, dict_get. rewrite Hd.
  unfold mbind at 1, M_bind at 1, lift.
  rewrite (bind_ret _ _ _ _ _ E1), (bind_ret _ _ _ _ _ E2).
  by rewrite insert_insert_eq.
Qed.

Lemma scale_row_numeric (key : list string) (i : nat) (x : F)
    (r : list cell * list cell) :
  (exists y, nth i r.2 NaN = CNum y) ->
  exists y, nth i (scale_row key i x r).2 NaN = CNum y.
Proof.
  intros [y Hy]. unfold scale_row. destruct (key_matches key r.1); [|eauto].
  cbn [snd]. rewrite nth_set_nth_eq, Hy. cbn. eauto.
Qed.

Lemma scale_row_match (key : list string) (i : nat) (x : F)
    (r : list cell * list cell) :
  key_matches key r.1 = true ->
  scale_row key i x r = (r.1, set_nth i (cell_times (nth i r.2 NaN) x) r.2).
Proof. unfold scale_row. by intros ->. Qed.

Lemma scale_row_skip (key : list string) (i : nat) (x : F)
    (r : list cell * list cell) :
  key_matches key r.1 = false -> scale_row key i x r = r.
Proof. unfold scale_row. by intros ->. Qed.

(** X7: the scenario is not idempotent.  On a 'process' table with the
    two index levels that the keys name, applied a second time to the
    dict it returned, it halves and quarters the two 'cap-up' entries
    once more, so that they end at 0.5 * 0.5 and 0.25 * 0.25 of their
    values; all other rows stay. *)
Theorem scenario_Node_2_process_caps_twice (data : pydict) (σ : store)
    (pro : loc) (df : DataFrame) (labels : list string) (i : nat) :
  let gas := ["Node_2"; "Gas plant"] in
  let biomass := ["Node_2"; "Biomass plant"] in
  dict_find data "process" = Some pro ->
  σ !! pro = Some df ->
  length (index_names df) = 2 ->
  columns df = Index labels ->
  index_of "cap-up" labels = Some i ->
  Exists (fun r => key_matches gas r.1 = true) (rows df) ->
  Exists (fun r => key_matches biomass r.1 = true) (rows df) ->
  Forall (fun r => key_matches gas r.1 = true \/ key_matches biomass r.1 = true ->
                   exists y, nth i r.2 NaN = CNum y) (rows df) ->
  exists σ1 df2,
    scenario_Node_2_process_caps data σ = (Ret data, σ1)
    /\ scenario_Node_2_process_caps data σ1 = (Ret data, <[pro := df2]> σ)
    /\ forall j r,
         rows df !! j = Some r ->
         exists r2,
           rows df2 !! j = Some r2
           /\ r2.1 = r.1
           /\ (forall y, key_matches gas r.1 = true ->
                         nth i r.2 NaN = CNum y ->
                         nth i r2.2 NaN
                         = CNum (fmul (fmul y (flit 0.5)) (flit 0.5)))
           /\ (forall y, key_matches biomass r.1 = true ->
                         nth i r.2 NaN = CNum y ->
                         nth i r2.2 NaN
                         = CNum (fmul (fmul y (flit 0.25)) (flit 0.25)))
           /\ (key_matches gas r.1 = false ->
               key_matches biomass r.1 = false -> r2 = r).
Proof.
  intros gas biomass Hd Hl Hlev Hc Hi Hgas Hbio Hnum.
  pose proof (scenario_Node_2_process_caps_run data σ pro df labels i
                Hd Hl Hlev Hc Hi Hgas Hbio Hnum) as E1.
  fold gas biomass in E1.
  set (once := fun r => scale_row biomass i (flit 0.25)
                          (scale_row gas i (flit 0.5) r)).
  set (df1 := mkFrame (index_names df) (Index labels)
                (map (scale_row biomass i (flit 0.25))
                     (map (scale_row gas i (flit 0.5)) (rows df)))) in E1.
  assert (rows df1 = map once (rows df)) as Hrows1.
  { unfold df1, once. cbn [rows]. by rewrite map_map. }
  assert (forall r, (once r).1 = r.1) as Hkey.
  { intros r. unfold once. by rewrite !scale_row_key. }
  pose proof (scenario_Node_2_process_caps_run data (<[pro := df1]> σ) pro df1
                labels i Hd (lookup_insert_eq _ _ _) Hlev eq_refl Hi) as E2.
  fold gas biomass in E2. rewrite insert_insert_eq in E2.
  rewrite Hrows1 in E2.
  eexists _, _. split; [exact E1|]. split.
  { apply E2.
    - apply Exists_fmap. eapply Exists_impl; [exact Hgas|].
      intros r Hr. cbv [compose]. by rewrite Hkey.
    - apply Exists_fmap. eapply Exists_impl; [exact Hbio|].
      intros r Hr. cbv [compose]. by rewrite Hkey.
    - apply Forall_fmap. eapply Forall_impl; [exact Hnum|].
      intros r Hr. cbv [compose]. rewrite Hkey. intros Hm.
      unfold once. apply scale_row_numeric, scale_row_numeric. by apply Hr. }
  intros j r Hj. cbn [rows].
  exists (once (once r)). split.
  { change (map ?f ?l) with (f <$> l).
    rewrite !list_lookup_fmap, Hj. done. }
  split; [by rewrite !Hkey|].
  assert (forall r0, key_matches gas r0.1 = true ->
            once r0 = (r0.1, set_nth i (cell_times (nth i r0.2 NaN) (flit 0.5))
                               r0.2)) as Hog.
  { intros r0 Hg0. unfold once. rewrite (scale_row_match gas _ _ r0 Hg0).
    apply scale_row_skip. by apply key_matches_gas_biomass. }
  assert (forall r0, key_matches gas r0.1 = false ->
            key_matches biomass r0.1 = true ->
            once r0 = (r0.1, set_nth i (cell_times (nth i r0.2 NaN) (flit 0.25))
                               r0.2)) as Hob.
  { intros r0 Hg0 Hb0. unfold once. rewrite (scale_row_skip gas _ _ r0 Hg0).
    by apply scale_row_match. }
  assert (forall r0, key_matches gas r0.1 = false ->
            key_matches biomass r0.1 = false -> once r0 = r0) as Hon.
  { intros r0 Hg0 Hb0. unfold once. rewrite (scale_row_skip gas _ _ r0 Hg0).
    by apply scale_row_skip. }
  destruct (key_matches gas r.1) eqn:Hg.
  - pose proof (key_matches_gas_biomass _ Hg) as Hb. fold biomass in Hb.
    rewrite (Hog r Hg). rewrite Hog by exact Hg.
    split; [|split; [intros; congruence|congruence]].
    intros y _ Hy. cbn [fst snd]. rewrite !nth_set_nth_eq, Hy. done.
  - destruct (key_matches biomass r.1) eqn:Hb.
    + rewrite (Hob r Hg Hb). rewrite Hob by (exact Hg || exact Hb).
      split; [intros; congruence|]. split; [|congruence].
      intros y _ Hy. cbn [fst snd]. rewrite !nth_set_nth_eq, Hy. done.
    + rewrite (Hon r Hg Hb), (Hon r Hg Hb). done.
Qed.

(** X8: a scenario that fails half way leaves its first update behind.
    When the table, with the two index levels that the keys name, has
    the Gas plant row but no Biomass plant row, the scenario raises
    KeyError after the 'cap-up' entry of the Gas plant has been halved
    in place. *)
Theorem scenario_Node_2_process_caps_partial (data : pydict) (σ : store)
    (pro : loc) (df : DataFrame) (labels : list string) (i : nat) :
  let gas := ["Node_2"; "Gas plant"] in
  let biomass := ["Node_2"; "Biomass plant"] in
  dict_find data "process" = Some pro ->
  σ !! pro = Some df ->
  length (index_names df) = 2 ->
  columns df = Index labels ->
  index_of "cap-up" labels = Some i ->
  Exists (fun r => key_matches gas r.1 = true) (rows df) ->
  Forall (fun r => key_matches gas r.1 = true ->
                   exists y, nth i r.2 NaN = CNum y) (rows df) ->
  Forall (fun r => key_matches biomass r.1 = false) (rows df) ->
  exists df1,
    scenario_Node_2_process_caps data σ = (Raise KeyError, <[pro := df1]> σ)
    /\ forall j r,
         rows df !! j = Some r ->
         exists r1,
           rows df1 !! j = Some r1
           /\ r1.1 = r.1
           /\ (forall y, key_matches gas r.1 = true ->
                         nth i r.2 NaN = CNum y ->
                         nth i r1.2 NaN = CNum (fmul y (flit 0.5)))
           /\ (key_matches gas r.1 = false -> r1 = r).
Proof.
  intros gas biomass Hd Hl Hlev Hc Hi Hgas Hnum Hbio.
  set (df1 := mkFrame (index_names df) (Index labels)
                (map (scale_row gas i (flit 0.5)) (rows df))).
  exists df1. split.
  - unfold scenario_Node_2_process_caps, dict_get. rewrite Hd.
    unfold mbind at 1, M_bind at 1, lift.
    rewrite (bind_ret _ _ _ _ _
               (loc_imul_at_ret pro df gas "cap-up" (flit 0.5) labels i σ
                  Hl (eq_sym Hlev) Hc Hi Hgas Hnum)).
    apply bind_raise. fold df1.
    apply (loc_imul_at_raise pro df1); [apply lookup_insert_eq|].
    unfold loc_imul. cbn [columns rows df1]. rewrite Hi.
    rewrite existsb_key_matches_false; [done|].
    apply Forall_fmap. eapply Forall_impl; [exact Hbio|].
    intros r Hr. cbv [compose]. by rewrite scale_row_key.
  - intros j r Hj. exists (scale_row gas i (flit 0.5) r). split.
    { cbn [rows df1]. change (map ?f ?l) with (f <$> l).
      by rewrite list_lookup_fmap, Hj. }
    split; [apply scale_row_key|]. split.
    + intros y Hg Hy. rewrite (scale_row_match _ _ _ _ Hg). cbn [snd].
      by rewrite nth_set_nth_eq, Hy.
    + intros Hg. by apply scale_row_skip.
Qed.

(** X9: when the first update cannot be made, the scenario raises and
    leaves every object as it was: KeyError when the dict has no
    'process' table, when that table has no column 'cap-up' or no row of
    the Gas plant, and TypeError when the entry of the Gas plant is a
    text. *)
Theorem scenario_Node_2_process_caps_fails_clean (data : pydict) (σ : store) :
  let gas := ["Node_2"; "Gas plant"] in
  (dict_find data "process" = None ->
   scenario_Node_2_process_caps data σ = (Raise KeyError, σ))
  /\ (forall pro df labels,
         dict_find data "process" = Some pro ->
         σ !! pro = Some df ->
         columns df = Index labels ->
         index_of "cap-up" labels = None ->
         scenario_Node_2_process_caps data σ = (Raise KeyError, σ))
  /\ (forall pro df labels i,
         dict_find data "process" = Some pro ->
         σ !! pro = Some df ->
         columns df = Index labels ->
         index_of "cap-up" labels = Some i ->
         Forall (fun r => key_matches gas r.1 = false) (rows df) ->
         scenario_Node_2_process_caps data σ = (Raise KeyError, σ))
  /\ (forall pro df labels i,
         dict_find data "process" = Some pro ->
         σ !! pro = Some df ->
         columns df = Index labels ->
         index_of "cap-up" labels = Some i ->
         Exists (fun r => key_matches gas r.1 = true
                          /\ exists s, nth i r.2 NaN = CStr s) (rows df) ->
         scenario_Node_2_process_caps data σ = (Raise TypeError, σ)).
Proof.
  intros gas. split; [|split; [|split]].
  - intros Hd. unfold scenario_Node_2_process_caps, dict_get. by rewrite Hd.
  - intros pro df labels Hd Hl Hc Hi.
    unfold scenario_Node_2_process_caps, dict_get. rewrite Hd.
    unfold mbind at 1, M_bind at 1, lift. apply bind_raise.
    apply (loc_imul_at_raise pro df); [done|].
    unfold loc_imul. by rewrite Hc, Hi.
  - intros pro df labels i Hd Hl Hc Hi Hno.
    unfold scenario_Node_2_process_caps, dict_get. rewrite Hd.
    unfold mbind at 1, M_bind at 1, lift. apply bind_raise.
    apply (loc_imul_at_raise pro df); [done|].
    unfold loc_imul. rewrite Hc, Hi.
    by rewrite existsb_key_matches_false.
  - intros pro df labels i Hd Hl Hc Hi Hbad.
    unfold scenario_Node_2_process_caps, dict_get. rewrite Hd.
    unfold mbind at 1, M_bind at 1, lift. apply bind_raise.
    apply (loc_imul_at_raise pro df); [done|].
    unfold loc_imul. rewrite Hc, Hi.
    assert (existsb (fun r : list cell * list cell =>
                       key_matches ["Node_2"; "Gas plant"] r.1)
                    (rows df) = true) as ->.
    { apply existsb_exists. apply Exists_exists in Hbad as (r & Hr & Hk & _).
      exists r. split; [by apply list_elem_of_In|done]. }
    by rewrite scale_rows_raise.
Qed.

(** * Further properties of comp.py *)

Section SortingMore.
Context {A : Type} (leb : A -> A -> bool).

Lemma sort_by_Sorted_id (l : list A) :
  Sorted (fun u v => leb u v = true) l -> sort_by leb l = l.
Proof.
  induction 1 as [|x l Hl IH Hx]; simpl; [done|].
  rewrite IH. destruct Hx as [|y l' Hxy]; simpl; [done|]. by rewrite Hxy.
Qed.

Lemma last_insert_by (x : A) (l : list A) :
  last (insert_by leb x l)
  = if existsb (leb x) l then last l else Some x.
Proof.
  induction l as [|y l IH]; simpl; [done|].
  destruct (leb x y) eqn:E; simpl; [done|].
  rewrite last_cons, IH.
  destruct (existsb (leb x) l); [|done]. by rewrite last_cons.
Qed.
End SortingMore.

Section LegendMore.
Variable Handle : Type.

Lemma dedup_loop_NoDup (hs : list Handle) (ls : list string)
    (ah : list Handle) (al : list string) :
  length hs = length ls -> NoDup (al ++ ls) ->
  fold_left dedup_step (zip hs ls) (ah, al) = (ah ++ hs, al ++ ls).
Proof.
  revert ls ah al. induction hs as [|h hs IH]; intros [|l ls] ah al Hlen Hnd;
    simpl in *; try done.
  - by rewrite !app_nil_r.
  - rewrite bool_decide_eq_false_2.
    + rewrite IH.
      * by rewrite <- !app_assoc.
      * lia.
      * by rewrite <- app_assoc.
    + apply NoDup_app in Hnd as (_ & Hd & _). intros Hl. apply (Hd l Hl).
      apply list_elem_of_here.
Qed.

Lemma zip_fst_snd {B C} (l : list (B * C)) : zip (map fst l) (map snd l) = l.
Proof. induction l as [|[b c] l IH]; simpl; [done|]. by rewrite IH. Qed.

Lemma zip_snd_fst_swap {B C} (l : list (B * C)) :
  zip (map snd l) (map fst l) = map (fun p => (p.2, p.1)) l.
Proof. induction l as [|[b c] l IH]; simpl; [done|]. by rewrite IH. Qed.

(** X10: [deduplicate_legend] is idempotent: applied to its own result
    it returns that result, whatever the lengths of the lists it was
    first given. *)
Theorem deduplicate_legend_idempotent (handles : list Handle)
    (labels : list string) (hs : list Handle) (ls : list string) :
  deduplicate_legend handles labels = Ret (hs, ls) ->
  deduplicate_legend hs ls = Ret (hs, ls).
Proof.
  unfold deduplicate_legend at 1.
  pose proof (dedup_loop_inv Handle (zip handles labels) [] ([], [])) as Hinv.
  cbn [app] in Hinv.
  destruct (fold_left dedup_step (zip handles labels) ([], []))
    as [nh nl] eqn:Hfold.
  destruct Hinv as (Hl & Hnd & _ & _).
  { repeat split; try done. apply NoDup_nil_2. }
  cbn [fst snd] in *.
  pose proof (sort_by_Permutation pair_leb (zip nl nh)) as Hperm.
  pose proof (sort_by_Sorted pair_leb (pair_leb_total Handle) (zip nl nh))
    as Hsort.
  destruct (sort_by pair_leb (zip nl nh)) as [|p sorted] eqn:Hs; [done|].
  intros E.
  assert (hs = map snd (p :: sorted) /\ ls = map fst (p :: sorted))
    as [-> ->] by (by injection E).
  clear E.
  assert (NoDup (map fst (p :: sorted))) as Hnd'.
  { rewrite Hperm. by rewrite fst_zip by lia. }
  unfold deduplicate_legend.
  rewrite (dedup_loop_NoDup _ _ [] []);
    [|exact (eq_trans (length_map _ _) (eq_sym (length_map _ _)))
     |exact Hnd'].
  cbn [app]. rewrite zip_fst_snd.
  by rewrite (sort_by_Sorted_id _ _ Hsort).
Qed.
End LegendMore.

(** ** [get_most_recent_entry] *)

Lemma existsb_mtime_leb (getmtime : string -> Q) (x : string)
    (l : list string) :
  existsb (mtime_leb getmtime x) l = true
  <-> exists y, y ∈ l /\ (getmtime x <= getmtime y)%Q.
Proof.
  rewrite existsb_exists. unfold mtime_leb. split.
  - intros (y & Hy & Hle). exists y. split; [by apply list_elem_of_In|].
    by apply Qle_bool_iff.
  - intros (y & Hy & Hle). exists y. split; [by apply list_elem_of_In|].
    by apply Qle_bool_iff.
Qed.

Lemma last_sort_by_mtime (getmtime : string -> Q) (l : list string) :
  l <> [] ->
  exists i e,
    last (sort_by (mtime_leb getmtime) l) = Some e
    /\ l !! i = Some e
    /\ (forall j e', l !! j = Some e' -> (getmtime e' <= getmtime e)%Q)
    /\ (forall j e', i < j -> l !! j = Some e' ->
                     (getmtime e' < getmtime e)%Q).
Proof.
  induction l as [|x l IH]; [done|]. intros _. simpl.
  rewrite last_insert_by.
  destruct (existsb (mtime_leb getmtime x) (sort_by (mtime_leb getmtime) l))
    eqn:Ex.
  - apply existsb_mtime_leb in Ex as (y & Hy & Hxy).
    rewrite sort_by_Permutation in Hy.
    destruct IH as (i & e & Hlast & Hi & Hmax & Hlater).
    { intros ->. by apply elem_of_nil in Hy. }
    apply list_elem_of_lookup in Hy as [k Hk].
    exists (S i), e. split; [done|]. split; [done|]. split.
    + intros [|j] e' Hj; simpl in Hj.
      * injection Hj as <-. eapply Qle_trans; [exact Hxy|]. eauto.
      * eauto.
    + intros [|j] e' Hlt Hj; [lia|]. simpl in Hj.
      apply (Hlater j); [lia|done].
  - assert (forall y, y ∈ l -> (getmtime y < getmtime x)%Q) as Hall.
    { intros y Hy. apply Qnot_le_lt. intros Hle.
      assert (existsb (mtime_leb getmtime x)
                (sort_by (mtime_leb getmtime) l) = true) as Ht.
      { apply existsb_mtime_leb. exists y.
        split; [by rewrite sort_by_Permutation|done]. }
      congruence. }
    exists 0, x. split; [done|]. split; [done|]. split.
    + intros [|j] e' Hj; simpl in Hj.
      * injection Hj as <-. apply Qle_refl.
      * apply Qlt_le_weak, Hall. by eapply list_elem_of_lookup_2.
    + intros [|j] e' Hlt Hj; [lia|]. simpl in Hj.
      apply Hall. by eapply list_elem_of_lookup_2.
Qed.

(** X11: [get_most_recent_entry] raises IndexError when the directory
    has no entry; otherwise it returns an entry of the listing that no
    entry is newer than, and among several entries with that
    modification time the one that comes last in the listing. *)
Theorem get_most_recent_entry_latest (entries : list string)
    (getmtime : string -> Q) :
  (entries = [] ->
   get_most_recent_entry entries getmtime = Raise IndexError)
  /\ (entries <> [] ->
      exists i e,
        get_most_recent_entry entries getmtime = Ret e
        /\ entries !! i = Some e
        /\ (forall j e', entries !! j = Some e' ->
                         (getmtime e' <= getmtime e)%Q)
        /\ (forall j e', i < j -> entries !! j = Some e' ->
                         (getmtime e' < getmtime e)%Q)).
Proof.
  split; [by intros ->|]. intros Hne.
  destruct (last_sort_by_mtime getmtime entries Hne)
    as (i & e & Hlast & Hrest).
  exists i, e. unfold get_most_recent_entry. by rewrite Hlast.
Qed.

(** ** The order of the scenarios in [__main__] *)

Lemma leb_trans (a b c : string) :
  String.leb a b = true -> String.leb b c = true -> String.leb a c = true.
Proof.
  unfold String.leb. revert b c.
  induction a as [|x a IH]; intros [|y b] [|z c]; simpl; try done.
  unfold Ascii.compare.
  destruct (N.compare_spec (N_of_ascii x) (N_of_ascii y)),
           (N.compare_spec (N_of_ascii y) (N_of_ascii z)),
           (N.compare_spec (N_of_ascii x) (N_of_ascii z));
    try done; try lia.
  apply IH.
Qed.

Lemma geb_trans : Transitive (fun a b : string => String.leb b a = true).
Proof. intros a b c Hab Hbc. by apply (leb_trans c b a). Qed.

Lemma StronglySorted_delete {A} (R : relation A) (l : list A) (i : nat) :
  StronglySorted R l -> StronglySorted R (delete i l).
Proof.
  intros Hl. revert i. induction Hl as [|x l Hl IH Hx]; intros [|i]; simpl.
  - constructor.
  - constructor.
  - done.
  - constructor; [apply IH|]. by apply Forall_delete.
Qed.

Lemma glob_result_files_reverse_Sorted (matches : list string) :
  StronglySorted (fun a b => String.leb b a = true)
                 (reverse (glob_result_files matches)).
Proof.
  apply (@Sorted_StronglySorted _ _ geb_trans).
  apply (Sorted_reverse (fun a b => String.leb a b = true)).
  apply sort_by_Sorted, String.leb_total.
Qed.

(** X12: for the files that the glob finds, [__main__] hands
    [compare_scenarios] the sorted list reversed, so after the
    reordering the files are those found, in descending order of their
    names, except that the file of the base scenario, if there is one,
    comes last; the scenario names stay those of the files, position by
    position. *)
Theorem main_compare_order (matches : list string) :
  exists files,
    main_compare matches = (Ret tt, (files, scenario_names_of files))
    /\ files ≡ₚ matches
    /\ ("base" ∉ scenario_names_of matches ->
        Sorted (fun a b => String.leb b a = true) files)
    /\ ("base" ∈ scenario_names_of matches ->
        exists rest rf,
          files = rest ++ [rf]
          /\ scenario_names_of [rf] = ["base"]
          /\ Sorted (fun a b => String.leb b a = true) rest).
Proof.
  unfold main_compare.
  pose proof (glob_result_files_reverse_Sorted matches) as Hsort.
  assert (reverse (glob_result_files matches) ≡ₚ matches) as Hperm.
  { rewrite reverse_Permutation. apply sort_by_Permutation. }
  set (rfs := reverse (glob_result_files matches)) in *.
  assert (forall x, x ∈ scenario_names_of rfs <-> x ∈ scenario_names_of matches)
    as Hnames.
  { intros x. unfold scenario_names_of. by rewrite Hperm. }
  destruct (decide ("base" ∈ scenario_names_of rfs)) as [Hb|Hb].
  - destruct (list_index_elem _ _ Hb) as [i Hi].
    destruct (list_index_Ret _ _ _ Hi) as [Hn _].
    assert (i < length rfs) as Hlt.
    { rewrite <- scenario_names_of_length. by eapply lookup_lt_Some. }
    destruct (lookup_lt_is_Some_2 _ _ Hlt) as [rf Hrf].
    assert (scenario_names_of [rf] = ["base"]) as Hrfn.
    { unfold scenario_names_of in Hn |- *.
      change (map ?f ?l) with (f <$> l) in Hn.
      rewrite list_lookup_fmap, Hrf in Hn. simpl in Hn. simpl. congruence. }
    exists (delete i rfs ++ [rf]). split; [|split; [|split]].
    + unfold compare_scenarios_reorder, move_base, list_pop.
      rewrite Hi, Hrf, Hn. do 2 f_equal.
      unfold scenario_names_of in Hrfn |- *.
      change (map ?f ?l) with (f <$> l) in Hrfn |- *.
      rewrite fmap_app, list_fmap_delete. by rewrite Hrfn.
    + rewrite <- Hperm. rewrite (delete_Permutation rfs i rf Hrf) at 2.
      by rewrite Permutation_app_comm.
    + intros Hno. by apply Hnames in Hb.
    + intros _. exists (delete i rfs), rf. split; [done|]. split; [done|].
      by apply StronglySorted_Sorted, StronglySorted_delete.
  - exists rfs. split; [|split; [|split]].
    + unfold compare_scenarios_reorder, move_base.
      by rewrite list_index_not_elem.
    + done.
    + intros _. by apply StronglySorted_Sorted.
    + intros Hyes. by apply Hnames in Hyes.
Qed.

(** * Further properties of runme.py: file names *)

Lemma append_nil_r (s : string) : s +:+ "" = s.
Proof.
  induction s as [|c s IH]; [done|].
  change (String c (s +:+ "") = String c s). by rewrite IH.
Qed.

Lemma append_assoc (a b c : string) : (a +:+ b) +:+ c = a +:+ b +:+ c.
Proof.
  induction a as [|x a IH]; [done|].
  change (String x ((a +:+ b) +:+ c) = String x (a +:+ b +:+ c)).
  by rewrite IH.
Qed.

Lemma rbind_Ret_id {A} (r : result A) : rbind r Ret = r.
Proof. by destruct r. Qed.

Lemma has_char_neq (c d : ascii) (s : string) :
  PyStr.has_char c (String d s) = false -> Ascii.eqb d c = false.
Proof.
  intros Hs. apply has_char_cons in Hs as [Hne _].
  apply Ascii.eqb_neq. congruence.
Qed.

(** Text without braces is copied by [format]. *)
Lemma format_plain_app (a s : string) (args : list string) :
  PyStr.has_char "{" a = false -> PyStr.has_char "}" a = false ->
  format (a +:+ s) args = rbind (format s args) (fun r => Ret (a +:+ r)).
Proof.
  induction a as [|c a IH]; intros Ho Hc.
  - simpl. by rewrite rbind_Ret_id.
  - pose proof (has_char_neq _ _ _ Ho) as Eo.
    pose proof (has_char_neq _ _ _ Hc) as Ec.
    apply has_char_cons in Ho as [_ Ho]. apply has_char_cons in Hc as [_ Hc].
    change (String c a +:+ s) with (String c (a +:+ s)).
    cbn [format]. rewrite Eo, Ec, (IH Ho Hc).
    by destruct (format s args).
Qed.

Lemma format_field (s : string) (a : string) (args : list string) :
  format ("{}" +:+ s) (a :: args)
  = rbind (format s args) (fun r => Ret (a +:+ r)).
Proof. reflexivity. Qed.

Lemma format_field_suffix (sce ext : string) :
  PyStr.has_char "{" ext = false -> PyStr.has_char "}" ext = false ->
  format ("{}" +:+ ext) [sce] = Ret (sce +:+ ext).
Proof.
  intros Ho Hc. rewrite format_field.
  rewrite <- (append_nil_r ext) at 1.
  rewrite (format_plain_app ext "" [] Ho Hc). simpl.
  by rewrite append_nil_r.
Qed.

Lemma path_join_relative (a b : string) :
  String.prefix "/" b = false ->
  exists sep, (sep = "" \/ sep = "/") /\ forall c,
    String.prefix "/" (b +:+ c) = false ->
    path_join a (b +:+ c) = a +:+ sep +:+ b +:+ c.
Proof.
  intros Hb. unfold path_join.
  destruct (String.eqb a "" || endswith_char "/" a).
  - exists "". split; [by left|]. intros c ->. done.
  - exists "/". split; [by right|]. intros c ->. done.
Qed.

Lemma filenames_stem (result_dir sce : string) :
  PyStr.has_char "{" result_dir = false ->
  PyStr.has_char "}" result_dir = false ->
  String.prefix "/" sce = false ->
  let stem := path_join result_dir sce in
  figure_basename result_dir sce = Ret stem
  /\ log_filename result_dir sce = Ret (stem +:+ ".log")
  /\ h5_filename result_dir sce = Ret (stem +:+ ".h5")
  /\ report_filename result_dir sce = Ret (stem +:+ ".xlsx").
Proof.
  intros Ho Hc Hs stem.
  assert (forall ext, String.prefix "/" ext = false ->
                      String.prefix "/" (sce +:+ ext) = false) as Hse.
  { intros ext Hext. destruct sce as [|c s]; [done|].
    change (String c s +:+ ext) with (String c (s +:+ ext)).
    rewrite prefix_cons in Hs |- *.
    destruct (ascii_dec "/" c); [|done]. by rewrite prefix_nil in Hs. }
  assert (forall ext, String.prefix "/" ext = false ->
             path_join result_dir (sce +:+ ext) = stem +:+ ext) as Hjoin.
  { intros ext Hext. unfold stem, path_join. rewrite Hs, (Hse _ Hext).
    destruct (String.eqb result_dir "" || endswith_char "/" result_dir);
      by rewrite !append_assoc. }
  assert (forall ext,
             PyStr.has_char "{" ext = false ->
             PyStr.has_char "}" ext = false ->
             format (path_join result_dir ("{}" +:+ ext)) [sce]
             = Ret (stem +:+ ext)) as Hfmt.
  { intros ext Hoe Hce. unfold stem, path_join. rewrite Hs.
    change (String.prefix "/" ("{}" +:+ ext)) with false. cbv iota.
    destruct (String.eqb result_dir "" || endswith_char "/" result_dir).
    - rewrite (format_plain_app result_dir _ _ Ho Hc).
      rewrite (format_field_suffix sce ext Hoe Hce). simpl.
      by rewrite append_assoc.
    - change (result_dir +:+ "/" +:+ "{}" +:+ ext)
        with (result_dir +:+ String "/" ("{}" +:+ ext)).
      rewrite (format_plain_app result_dir _ _ Ho Hc).
      change (format (String "/" ("{}" +:+ ext)) [sce])
        with (rbind (format ("{}" +:+ ext) [sce])
                    (fun r => Ret (String "/" r))).
      rewrite (format_field_suffix sce ext Hoe Hce). simpl.
      rewrite !append_assoc. done. }
  split; [|split; [|split]].
  - unfold figure_basename. simpl. rewrite append_nil_r. done.
  - apply (Hfmt ".log"); reflexivity.
  - unfold h5_filename.
    pose proof (format_field_suffix sce ".h5" eq_refl eq_refl) as E.
    change ("{}" +:+ ".h5") with "{}.h5" in E. rewrite E. simpl.
    by rewrite Hjoin.
  - apply (Hfmt ".xlsx"); reflexivity.
Qed.

(** X13: when the name of the result directory has no brace and the
    scenario name does not start with a slash, the four file names that
    [run_scenario] derives share one stem, the scenario name joined to
    the directory: the log file, the HDF5 file and the report are that
    stem with their extension. *)
Theorem run_scenario_filenames (result_dir sce : string) :
  PyStr.has_char "{" result_dir = false ->
  PyStr.has_char "}" result_dir = false ->
  String.prefix "/" sce = false ->
  let stem := path_join result_dir sce in
  figure_basename result_dir sce = Ret stem
  /\ log_filename result_dir sce = Ret (stem +:+ ".log")
  /\ h5_filename result_dir sce = Ret (stem +:+ ".h5")
  /\ report_filename result_dir sce = Ret (stem +:+ ".xlsx").
Proof. exact (filenames_stem result_dir sce). Qed.

(** X14: a pair of braces in the name of the result directory is taken
    for a replacement field by the log file name, which is formatted
    after the join: the scenario name goes into the directory name and
    the field of the file name finds no argument, so IndexError is
    raised; the HDF5 file name, formatted before the join, is not
    affected. *)
Theorem log_filename_braces (a b sce : string) :
  PyStr.has_char "{" a = false -> PyStr.has_char "}" a = false ->
  PyStr.has_char "{" b = false -> PyStr.has_char "}" b = false ->
  let result_dir := a +:+ "{}" +:+ b in
  log_filename result_dir sce = Raise IndexError
  /\ report_filename result_dir sce = Raise IndexError
  /\ h5_filename result_dir sce
     = Ret (path_join result_dir (sce +:+ ".h5")).
Proof.
  intros Hoa Hca Hob Hcb result_dir.
  assert (forall ext,
             format (path_join result_dir ("{}" +:+ ext)) [sce]
             = Raise IndexError) as Hfmt.
  { intros ext. unfold path_join.
    change (String.prefix "/" ("{}" +:+ ext)) with false. cbv iota.
    assert (forall t, format (result_dir +:+ "{}" +:+ t) [sce]
                      = Raise IndexError
                      /\ format (result_dir +:+ "/" +:+ "{}" +:+ t) [sce]
                         = Raise IndexError) as Ht.
    { intros t. unfold result_dir. rewrite !append_assoc.
      rewrite !(format_plain_app a _ _ Hoa Hca).
      change (("{}" +:+ b) +:+ "{}" +:+ t)
        with ("{}" +:+ (b +:+ "{}" +:+ t)).
      change (("{}" +:+ b) +:+ "/" +:+ "{}" +:+ t)
        with ("{}" +:+ (b +:+ "/" +:+ "{}" +:+ t)).
      rewrite !format_field.
      rewrite !(format_plain_app b _ _ Hob Hcb). done. }
    destruct (String.eqb result_dir "" || endswith_char "/" result_dir);
      apply Ht. }
  split; [apply (Hfmt ".log")|]. split; [apply (Hfmt ".xlsx")|].
  unfold h5_filename.
  pose proof (format_field_suffix sce ".h5" eq_refl eq_refl) as E.
  change ("{}" +:+ ".h5") with "{}.h5" in E. by rewrite E.
Qed.

Lemma has_char_app (c : ascii) (a b : string) :
  PyStr.has_char c (a +:+ b) = PyStr.has_char c a || PyStr.has_char c b.
Proof.
  unfold PyStr.has_char. induction a as [|x a IH]; [done|].
  change (String x a +:+ b) with (String x (a +:+ b)). simpl.
  by rewrite IH, orb_assoc.
Qed.

Lemma endswith_char_app (c : ascii) (a : string) (x : ascii) (b : string) :
  endswith_char c (a +:+ String x b) = endswith_char c (String x b).
Proof.
  induction a as [|y a IH]; [done|].
  change (String y a +:+ String x b) with (String y (a +:+ String x b)).
  cbn [endswith_char]. rewrite IH.
  destruct a; reflexivity.
Qed.

Lemma format_two_fields (a b : string) :
  format "{}-{}" [a; b] = Ret (a +:+ "-" +:+ b).
Proof.
  change "{}-{}" with ("{}" +:+ "-" +:+ "{}" +:+ "").
  rewrite format_field.
  rewrite (format_plain_app "-" ("{}" +:+ "") [b]) by reflexivity.
  rewrite format_field. simpl. by rewrite append_nil_r.
Qed.

(** X15: the time-stamped directory and the files of a run.  For a
    result name that does not start with a slash the directory is
    'result/name-stamp'; when name and stamp have no brace, the stamp
    does not end with a slash and the scenario name does not start with
    one, the log file, the HDF5 file, the report and the figures of the
    scenario all get the stem 'result/name-stamp/scenario'.  A result
    name that starts with a slash yields a directory outside
    'result'. *)
Theorem result_dir_file_names (result_name now sce : string) :
  (String.prefix "/" result_name = false ->
   result_dir_of result_name now
   = Ret ("result/" +:+ result_name +:+ "-" +:+ now))
  /\ (String.prefix "/" result_name = true ->
      result_dir_of result_name now = Ret (result_name +:+ "-" +:+ now))
  /\ (String.prefix "/" result_name = false ->
      PyStr.has_char "{" result_name = false ->
      PyStr.has_char "}" result_name = false ->
      PyStr.has_char "{" now = false ->
      PyStr.has_char "}" now = false ->
      endswith_char "/" now = false ->
      String.prefix "/" sce = false ->
      let result_dir := "result/" +:+ result_name +:+ "-" +:+ now in
      let stem := result_dir +:+ "/" +:+ sce in
      figure_basename result_dir sce = Ret stem
      /\ log_filename result_dir sce = Ret (stem +:+ ".log")
      /\ h5_filename result_dir sce = Ret (stem +:+ ".h5")
      /\ report_filename result_dir sce = Ret (stem +:+ ".xlsx")).
Proof.
  assert (String.prefix "/" result_name = false ->
          String.prefix "/" (result_name +:+ "-" +:+ now) = false) as Hrel.
  { intros Hr. destruct result_name as [|c s]; [done|].
    change (String c s +:+ "-" +:+ now)
      with (String c (s +:+ "-" +:+ now)).
    rewrite prefix_cons in Hr |- *.
    destruct (ascii_dec "/" c); [|done]. by rewrite prefix_nil in Hr. }
  split; [|split].
  - intros Hr. unfold result_dir_of. rewrite format_two_fields. simpl.
    unfold path_join. by rewrite (Hrel Hr).
  - intros Hr. unfold result_dir_of. rewrite format_two_fields. simpl.
    unfold path_join.
    destruct result_name as [|c s]; [done|].
    change (String c s +:+ "-" +:+ now) with (String c (s +:+ "-" +:+ now)).
    rewrite prefix_cons in Hr |- *.
    destruct (ascii_dec "/" c); [|done]. by rewrite prefix_nil.
  - intros Hr Hon Hcn Hos Hcs Hend Hs result_dir stem.
    assert (PyStr.has_char "{" result_dir = false) as Ho.
    { unfold result_dir. rewrite !has_char_app, Hon, Hos. reflexivity. }
    assert (PyStr.has_char "}" result_dir = false) as Hc.
    { unfold result_dir. rewrite !has_char_app, Hcn, Hcs. reflexivity. }
    assert (path_join result_dir sce = stem) as <-.
    { unfold stem, path_join. rewrite Hs.
      assert (String.eqb result_dir "" = false) as -> by reflexivity.
      assert (endswith_char "/" result_dir = false) as ->; [|done].
      unfold result_dir.
      change ("result/" +:+ result_name +:+ "-" +:+ now)
        with ("result/" +:+ result_name +:+ String "-" now).
      rewrite <- append_assoc, endswith_char_app.
      destruct now; [reflexivity|exact Hend]. }
    exact (filenames_stem result_dir sce Ho Hc Hs).
Qed.

(** * Further properties of comp.py: the commodities of a report *)

Lemma has_char_cons_false (c d : ascii) (s : string) :
  c <> d -> PyStr.has_char c s = false ->
  PyStr.has_char c (String d s) = false.
Proof.
  intros Hne Hs. unfold PyStr.has_char in *. simpl.
  apply orb_false_iff. split; [by apply Ascii.eqb_neq|done].
Qed.

Lemma split_on_dot_parts (s : string) :
  Forall (fun f => PyStr.has_char "." f = false) (PyStr.split_on "." s).
Proof.
  unfold PyStr.split_on. induction s as [|c s IH]; [by repeat constructor|].
  cbn [PyStr.split_go]. rewrite prefix_cons.
  destruct (ascii_dec "." c) as [<-|Hc].
  - rewrite prefix_nil. by constructor.
  - destruct (PyStr.split_go "." 0 s) as [|f fs].
    + repeat constructor. by apply has_char_cons_false.
    + apply Forall_cons in IH as [Hf Hfs]. constructor; [|done].
      by apply has_char_cons_false.
Qed.

Lemma unpack_site_commodity (pairs : list (string * string)) :
  Forall dotless pairs ->
  rmapM (fun sc : list string =>
           match sc with
           | [_; com] => Ret com
           | _ => Raise ValueError
           end)
        (map (PyStr.split_on ".") (map site_commodity pairs))
  = Ret (map snd pairs).
Proof.
  induction 1 as [|[sit com] pairs [Hs Hc] _ IH]; [done|].
  cbn [map]. unfold site_commodity at 1. cbn [fst snd].
  rewrite (split_on_site_commodity sit com Hs Hc).
  cbn [rmapM rbind]. by rewrite IH.
Qed.

Lemma unpack_inv (values : list string) (coms : list string) :
  rmapM (fun sc : list string =>
           match sc with
           | [_; com] => Ret com
           | _ => Raise ValueError
           end)
        (map (PyStr.split_on ".") values)
  = Ret coms ->
  exists pairs,
    Forall dotless pairs /\ values = map site_commodity pairs
    /\ coms = map snd pairs.
Proof.
  revert coms. induction values as [|v values IH]; intros coms E.
  - injection E as <-. by exists [].
  - cbn [map rmapM] in E.
    apply rbind_inv in E as (com & Ev & E).
    apply rbind_inv in E as (coms' & Ec & [= <-]).
    destruct (IH _ Ec) as (pairs & Hd & -> & ->).
    pose proof (split_on_dot_parts v) as Hparts.
    pose proof (str_join_split_on v) as Hjoin.
    destruct (PyStr.split_on "." v) as [|sit [|com' [|? ?]]]; try done.
    injection Ev as ->.
    apply Forall_cons in Hparts as [Hs Hparts].
    apply Forall_cons in Hparts as [Hc _].
    exists ((sit, com) :: pairs). split; [by constructor|].
    split; [|done]. cbn [map]. by rewrite <- Hjoin.
Qed.

Lemma unpack_raise (l : list (list string)) (e : exn) :
  rmapM (fun sc : list string =>
           match sc with
           | [_; com] => Ret com
           | _ => Raise ValueError
           end) l
  = Raise e ->
  e = ValueError.
Proof.
  induction l as [|sc l IH]; [done|]. cbn [rmapM].
  destruct sc as [|sit [|com [|? ?]]]; cbn [rbind]; try congruence.
  destruct (rmapM _ l) as [coms|e'] eqn:El; cbn [rbind]; [done|].
  intros [= <-]. by apply IH.
Qed.

(** X16: the commodities of a report are the parts after the dot of
    its column labels, provided every label is a site and a commodity
    joined by one dot; if some label has no dot or more than one, the
    unpacking raises ValueError. *)
Theorem commodities_of_labels (values : list string) :
  (forall pairs,
      Forall dotless pairs -> values = map site_commodity pairs ->
      commodities_of values = Ret (list_to_set (map snd pairs)))
  /\ ((forall pairs, Forall dotless pairs ->
                     values <> map site_commodity pairs) ->
      commodities_of values = Raise ValueError).
Proof.
  split.
  - intros pairs Hd ->. unfold commodities_of.
    by rewrite (unpack_site_commodity pairs Hd).
  - intros Hno. unfold commodities_of.
    destruct (rmapM _ (map (PyStr.split_on ".") values)) as [coms|e] eqn:E.
    + apply unpack_inv in E as (pairs & Hd & Hv & _).
      by destruct (Hno pairs Hd).
    + apply unpack_raise in E as ->. done.
Qed.

(** * Further properties of [pyomo_model_prep] *)

Lemma lift_get_step {B} (data : pydict) (k : string) (cont : loc -> M B)
    (σ : store) :
  (lift (dict_get data k) ≫= cont) σ
  = match dict_find data k with
    | Some l => cont l σ
    | None => (Raise KeyError, σ)
    end.
Proof. unfold mbind, M_bind, lift, dict_get. by destruct (dict_find data k). Qed.

Ltac get_or_raise σ3 Hsub :=
  cbv beta zeta; rewrite lift_get_step;
  lazymatch goal with
  | |- exists σ', match dict_find ?d ?k with _ => _ end = _ /\ _ =>
      let l := fresh "l" in let E := fresh "E" in
      destruct (dict_find d k) as [l|] eqn:E;
      [|exists σ3; split; [reflexivity|exact Hsub]]
  end.

(** X17: when the input dict lacks one of the eleven tables,
    [pyomo_model_prep] raises KeyError before it has changed any table:
    every object of the store is as it was.  (The table 'global_prop',
    if present, is supposed to have its column 'description'.) *)
Theorem pyomo_model_prep_missing_table (data : pydict) (timesteps : list Z)
    (σ : store) (k : string) :
  k ∈ ["global_prop"; "site"; "commodity"; "process"; "process_commodity";
       "transmission"; "storage"; "demand"; "supim"; "buy_sell_price";
       "dsm"] ->
  dict_find data k = None ->
  (forall gp, dict_find data "global_prop" = Some gp ->
              exists gpdf labels,
                σ !! gp = Some gpdf /\ columns gpdf = Index labels
                /\ "description" ∈ labels) ->
  exists σ',
    pyomo_model_prep data timesteps σ = (Raise KeyError, σ')
    /\ forall l df, σ !! l = Some df -> σ' !! l = Some df.
Proof.
  intros Hin Hk Hgp. unfold pyomo_model_prep.
  assert (forall l df, σ !! l = Some df -> σ !! l = Some df) as Hsub0 by done.
  get_or_raise σ Hsub0.
  destruct (Hgp _ eq_refl) as (gpdf & labels & Hl & Hc & Hd).
  apply index_of_elem in Hd as [i Hi].
  cbv beta zeta. rewrite (bind_ret _ _ _ _ _ (load_ret _ _ _ Hl)).
  assert (drop "description" gpdf
          = Ret (mkFrame (index_names gpdf) (Index (drop_at [i] 0 labels))
                   (map (fun r => (r.1, drop_at [i] 0 r.2)) (rows gpdf))))
    as Hdrop.
  { unfold drop. by rewrite Hc, Hi. }
  destruct (new_ret _ _ σ Hdrop) as (l' & Hfr & Enew).
  rewrite (bind_ret _ _ _ _ _ Enew).
  set (σ3 := <[l' := _]> σ).
  assert (forall l df, σ !! l = Some df -> σ3 !! l = Some df) as Hsub.
  { intros l0 df Hl0. unfold σ3. rewrite lookup_insert_ne; [done|].
    intros ->. congruence. }
  clearbody σ3. clear Hdrop Enew.
  do 10 get_or_raise σ3 Hsub.
  exfalso.
  repeat (apply elem_of_cons in Hin as [->|Hin]; [congruence|]).
  by apply elem_of_nil in Hin.
Qed.

(** * Further properties: the generated scenarios of run1node.py *)

Lemma length_set_nth (i : nat) (v : cell) (vs : list cell) :
  length (set_nth i v vs) = Nat.max (length vs) (S i).
Proof.
  unfold set_nth. case_bool_decide as Hi.
  - rewrite length_insert. lia.
  - rewrite !length_app, length_replicate. simpl. lia.
Qed.

Lemma nth_set_nth (i k : nat) (v : cell) (vs : list cell) :
  nth k (set_nth i v vs) NaN = if decide (i = k) then v else nth k vs NaN.
Proof.
  destruct (decide (i = k)) as [<-|Hne].
  - apply nth_set_nth_eq.
  - by apply nth_set_nth_ne.
Qed.

Lemma cells_ext (l1 l2 : list cell) :
  length l1 = length l2 ->
  (forall k, nth k l1 NaN = nth k l2 NaN) -> l1 = l2.
Proof. intros Hlen Hnth. apply (nth_ext l1 l2 NaN NaN Hlen). auto. Qed.

Lemma set_row_key (key : list string) (i : nat) (v : F)
    (r : list cell * list cell) :
  (set_row key i v r).1 = r.1.
Proof. unfold set_row. by destruct (key_matches key r.1). Qed.

Lemma set_row_snd (key : list string) (i : nat) (v : F)
    (r : list cell * list cell) :
  (set_row key i v r).2
  = if key_matches key r.1 then set_nth i (CNum v) r.2 else r.2.
Proof. unfold set_row. by destruct (key_matches key r.1). Qed.

Lemma pro_row_key (pv dg : F) (i f : nat) (r : list cell * list cell) :
  (pro_row pv dg i f r).1 = r.1.
Proof. unfold pro_row. by rewrite !set_row_key. Qed.

Lemma sto_row_key (bat : F) (i f : nat) (r : list cell * list cell) :
  (sto_row bat i f r).1 = r.1.
Proof. unfold sto_row. by rewrite !set_row_key. Qed.

Lemma Exists_key_map (key : list string)
    (g : list cell * list cell -> list cell * list cell)
    (rs : list (list cell * list cell)) :
  (forall r, (g r).1 = r.1) ->
  Exists (fun r => key_matches key r.1 = true) rs ->
  Exists (fun r => key_matches key r.1 = true) (map g rs).
Proof.
  intros Hg Hex. apply Exists_fmap.
  eapply Exists_impl; [exact Hex|]. intros r Hr. cbv [compose].
  by rewrite Hg.
Qed.

Lemma loc_set_at_ret (l : loc) (df : DataFrame) (key : list string)
    (label : string) (v : F) (labels : list string) (i : nat) (σ : store) :
  σ !! l = Some df ->
  columns df = Index labels -> index_of label labels = Some i ->
  Exists (fun r => key_matches key r.1 = true) (rows df) ->
  loc_set_at l key label v σ
  = (Ret tt,
     <[l := mkFrame (index_names df) (Index labels)
              (map (set_row key i v) (rows df))]> σ).
Proof.
  intros Hl Hc Hi Hex. unfold loc_set_at.
  rewrite (bind_ret _ _ _ _ _ (load_ret _ _ _ Hl)).
  unfold loc_set. rewrite Hc, Hi.
  assert (existsb (fun r : list cell * list cell => key_matches key r.1)
                  (rows df) = true) as ->.
  { apply existsb_exists. apply Exists_exists in Hex as (r & Hr & Hk).
    exists r. split; [by apply list_elem_of_In|done]. }
  reflexivity.
Qed.

(** The seven assignments of a generated scenario on three different
    tables that have the rows and columns. *)
Lemma scenario_generator_run (name : string) (pv bat dg fuel : F)
    (data : pydict) (σ : store) (com pro sto : loc)
    (dfc dfp dfs : DataFrame) (lc lp ls : list string)
    (ic ip fp isto fsto : nat) :
  dict_find data "commodity" = Some com ->
  dict_find data "process" = Some pro ->
  dict_find data "storage" = Some sto ->
  com <> pro -> com <> sto -> pro <> sto ->
  σ !! com = Some dfc -> σ !! pro = Some dfp -> σ !! sto = Some dfs ->
  columns dfc = Index lc -> index_of "price" lc = Some ic ->
  columns dfp = Index lp ->
  index_of "inv-cost" lp = Some ip -> index_of "fix-cost" lp = Some fp ->
  columns dfs = Index ls ->
  index_of "inv-cost-c" ls = Some isto ->
  index_of "fix-cost-c" ls = Some fsto ->
  Exists (fun r => key_matches ["StRupertMayer"; "Diesel"; "Stock"] r.1
                   = true) (rows dfc) ->
  Exists (fun r => key_matches ["StRupertMayer"; "Photovoltaics"] r.1
                   = true) (rows dfp) ->
  Exists (fun r => key_matches ["StRupertMayer"; "Diesel generator"] r.1
                   = true) (rows dfp) ->
  Exists (fun r => key_matches ["StRupertMayer"; "Battery"; "Electricity"]
                     r.1 = true) (rows dfs) ->
  (scenario_generator name pv bat dg fuel).2 data σ
  = (Ret data,
     <[pro := mkFrame (index_names dfp) (Index lp)
                (map (pro_row pv dg ip fp) (rows dfp))]>
       (<[sto := mkFrame (index_names dfs) (Index ls)
                   (map (sto_row bat isto fsto) (rows dfs))]>
          (<[com := mkFrame (index_names dfc) (Index lc)
                      (map (set_row ["StRupertMayer"; "Diesel"; "Stock"]
                              ic fuel) (rows dfc))]> σ))).
Proof.
  intros Hdc Hdp Hds Hcp Hcs Hps Hlc Hlp Hls Hcc Hic Hcp' Hip Hfp Hcs'
    His Hfs Hxd Hxpv Hxdg Hxb.
  set (pv_plant := ["StRupertMayer"; "Photovoltaics"]) in *.
  set (diesel_gen := ["StRupertMayer"; "Diesel generator"]) in *.
  set (battery := ["StRupertMayer"; "Battery"; "Electricity"]) in *.
  set (diesel := ["StRupertMayer"; "Diesel"; "Stock"]) in *.
  set (P1 := mkFrame (index_names dfp) (Index lp)
               (map (set_row pv_plant ip pv) (rows dfp))).
  set (S1 := mkFrame (index_names dfs) (Index ls)
               (map (set_row battery isto bat) (rows dfs))).
  set (P2 := mkFrame (index_names dfp) (Index lp)
               (map (set_row diesel_gen ip dg) (rows P1))).
  set (C1 := mkFrame (index_names dfc) (Index lc)
               (map (set_row diesel ic fuel) (rows dfc))).
  set (P3 := mkFrame (index_names dfp) (Index lp)
               (map (set_row pv_plant fp (fmul (flit 0.05) pv)) (rows P2))).
  set (S2 := mkFrame (index_names dfs) (Index ls)
               (map (set_row battery fsto (fmul (flit 0.05) bat)) (rows S1))).
  set (P4 := mkFrame (index_names dfp) (Index lp)
               (map (set_row diesel_gen fp (fmul (flit 0.1) dg)) (rows P3))).
  set (σ1 := <[pro := P1]> σ).
  set (σ2 := <[sto := S1]> σ1).
  set (σ3 := <[pro := P2]> σ2).
  set (σ4 := <[com := C1]> σ3).
  set (σ5 := <[pro := P3]> σ4).
  set (σ6 := <[sto := S2]> σ5).
  set (σ7 := <[pro := P4]> σ6).
  assert (loc_set_at pro pv_plant "inv-cost" pv σ = (Ret tt, σ1)) as E1.
  { by apply (loc_set_at_ret pro dfp). }
  assert (loc_set_at sto battery "inv-cost-c" bat σ1 = (Ret tt, σ2)) as E2.
  { apply (loc_set_at_ret sto dfs); try done.
    unfold σ1. by rewrite lookup_insert_ne. }
  assert (loc_set_at pro diesel_gen "inv-cost" dg σ2 = (Ret tt, σ3)) as E3.
  { apply (loc_set_at_ret pro P1); try done.
    - unfold σ2, σ1. rewrite lookup_insert_ne by done.
      apply lookup_insert_eq.
    - apply Exists_key_map; [apply set_row_key|done]. }
  assert (loc_set_at com diesel "price" fuel σ3 = (Ret tt, σ4)) as E4.
  { apply (loc_set_at_ret com dfc); try done.
    unfold σ3, σ2, σ1. by rewrite !lookup_insert_ne by done. }
  assert (loc_set_at pro pv_plant "fix-cost" (fmul (flit 0.05) pv) σ4
          = (Ret tt, σ5)) as E5.
  { apply (loc_set_at_ret pro P2); try done.
    - unfold σ4, σ3. rewrite lookup_insert_ne by done.
      apply lookup_insert_eq.
    - do 2 (apply Exists_key_map; [apply set_row_key|]). done. }
  assert (loc_set_at sto battery "fix-cost-c" (fmul (flit 0.05) bat) σ5
          = (Ret tt, σ6)) as E6.
  { apply (loc_set_at_ret sto S1); try done.
    - unfold σ5, σ4, σ3, σ2. rewrite !lookup_insert_ne by done.
      apply lookup_insert_eq.
    - apply Exists_key_map; [apply set_row_key|done]. }
  assert (loc_set_at pro diesel_gen "fix-cost" (fmul (flit 0.1) dg) σ6
          = (Ret tt, σ7)) as E7.
  { apply (loc_set_at_ret pro P3); try done.
    - unfold σ6, σ5. rewrite lookup_insert_ne by done.
      apply lookup_insert_eq.
    - do 3 (apply Exists_key_map; [apply set_row_key|]). done. }
  cbn [snd scenario_generator]. unfold dict_get. rewrite Hdc, Hdp, Hds.
  unfold mbind at 1, M_bind at 1, lift.
  unfold mbind at 1, M_bind at 1.
  unfold mbind at 1, M_bind at 1.
  fold pv_plant diesel_gen battery diesel.
  rewrite (bind_ret _ _ _ _ _ E1), (bind_ret _ _ _ _ _ E2),
    (bind_ret _ _ _ _ _ E3), (bind_ret _ _ _ _ _ E4),
    (bind_ret _ _ _ _ _ E5), (bind_ret _ _ _ _ _ E6),
    (bind_ret _ _ _ _ _ E7).
  unfold mret, M_ret. f_equal.
  apply map_eq. intros l. unfold σ7, σ6, σ5, σ4, σ3, σ2, σ1.
  destruct (decide (l = pro)) as [->|Hp].
  { rewrite !lookup_insert_eq. unfold P4, P3, P2, P1. cbn [rows].
    by rewrite !map_map. }
  destruct (decide (l = sto)) as [->|Hs].
  { repeat first [rewrite lookup_insert_eq
                 | rewrite lookup_insert_ne by done].
    unfold S2, S1. cbn [rows]. by rewrite !map_map. }
  destruct (decide (l = com)) as [->|Hc].
  { repeat first [rewrite lookup_insert_eq
                 | rewrite lookup_insert_ne by done]. done. }
  by rewrite !lookup_insert_ne by done.
Qed.

Lemma key_matches_pv_diesel_gen (k : list cell) :
  key_matches ["StRupertMayer"; "Photovoltaics"] k = true ->
  key_matches ["StRupertMayer"; "Diesel generator"] k = false.
Proof.
  destruct k as [|a [|b k]]; cbn [key_matches]; try done.
  - by rewrite andb_false_r.
  - destruct (cell_is_str "StRupertMayer" a); [|done]. cbn [andb].
    rewrite !andb_true_r.
    destruct b as [y|t]; cbn [cell_is_str]; [done|].
    intros E. apply String.eqb_eq in E as <-. done.
Qed.

Lemma index_of_distinct (x y : string) (l : list string) (i j : nat) :
  x <> y -> index_of x l = Some i -> index_of y l = Some j -> i <> j.
Proof.
  intros Hxy Hi Hj ->. apply index_of_Some in Hi, Hj. congruence.
Qed.

Lemma set_row_pair (key : list string) (i : nat) (v : F)
    (k vs : list cell) :
  set_row key i v (k, vs)
  = (k, if key_matches key k then set_nth i (CNum v) vs else vs).
Proof. unfold set_row. cbn [fst snd]. by destruct (key_matches key k). Qed.

Ltac row_cases k :=
  rewrite ?set_row_pair; cbn [fst snd];
  repeat match goal with
         | |- context [key_matches ?key k] =>
             destruct (key_matches key k) eqn:?
         end.

Lemma set_nth_idem (i : nat) (v w : cell) (vs : list cell) :
  set_nth i v (set_nth i w vs) = set_nth i v vs.
Proof.
  apply cells_ext.
  - rewrite !length_set_nth. lia.
  - intros n. rewrite !nth_set_nth. by destruct (decide (i = n)).
Qed.

Lemma set_nth_comm (i j : nat) (v w : cell) (vs : list cell) :
  i <> j ->
  set_nth i v (set_nth j w vs) = set_nth j w (set_nth i v vs).
Proof.
  intros Hij. apply cells_ext.
  - rewrite !length_set_nth. lia.
  - intros n. rewrite !nth_set_nth.
    destruct (decide (i = n)), (decide (j = n)); congruence.
Qed.

(** A later scenario overwrites what an earlier one wrote. *)
Lemma pro_row_absorb (pv dg pv' dg' : F) (i f : nat)
    (r : list cell * list cell) :
  i <> f ->
  pro_row pv' dg' i f (pro_row pv dg i f r) = pro_row pv' dg' i f r.
Proof.
  intros Hif. destruct r as [k vs].
  pose proof (key_matches_pv_diesel_gen k) as Hdis.
  unfold pro_row. row_cases k;
    try (by specialize (Hdis eq_refl)); try reflexivity;
    rewrite (set_nth_comm i f) by done; by rewrite !set_nth_idem.
Qed.

Lemma sto_row_absorb (bat bat' : F) (i f : nat) (r : list cell * list cell) :
  i <> f ->
  sto_row bat' i f (sto_row bat i f r) = sto_row bat' i f r.
Proof.
  intros Hif. destruct r as [k vs]. unfold sto_row.
  row_cases k; try reflexivity.
  rewrite (set_nth_comm i f) by done. by rewrite !set_nth_idem.
Qed.

Lemma set_row_absorb (key : list string) (i : nat) (v v' : F)
    (r : list cell * list cell) :
  set_row key i v' (set_row key i v r) = set_row key i v' r.
Proof.
  destruct r as [k vs]. row_cases k; try reflexivity.
  by rewrite set_nth_idem.
Qed.

Lemma pro_row_spec (pv dg : F) (i f : nat) (r : list cell * list cell) :
  i <> f ->
  (key_matches ["StRupertMayer"; "Photovoltaics"] r.1 = true ->
   nth i (pro_row pv dg i f r).2 NaN = CNum pv
   /\ nth f (pro_row pv dg i f r).2 NaN = CNum (fmul (flit 0.05) pv))
  /\ (key_matches ["StRupertMayer"; "Diesel generator"] r.1 = true ->
      nth i (pro_row pv dg i f r).2 NaN = CNum dg
      /\ nth f (pro_row pv dg i f r).2 NaN = CNum (fmul (flit 0.1) dg))
  /\ (forall k, k <> i -> k <> f ->
                nth k (pro_row pv dg i f r).2 NaN = nth k r.2 NaN)
  /\ (key_matches ["StRupertMayer"; "Photovoltaics"] r.1 = false ->
      key_matches ["StRupertMayer"; "Diesel generator"] r.1 = false ->
      pro_row pv dg i f r = r).
Proof.
  intros Hif. destruct r as [k vs]. cbn [fst snd].
  pose proof (key_matches_pv_diesel_gen k) as Hdis.
  unfold pro_row. row_cases k;
    try (by specialize (Hdis eq_refl));
    (split; [intros ?|split; [intros ?|split; [intros n ? ?|intros ? ?]]]);
    try done;
    rewrite ?nth_set_nth; repeat case_decide; try congruence; try done;
    split; rewrite ?nth_set_nth; repeat case_decide; congruence.
Qed.

Lemma sto_row_spec (bat : F) (i f : nat) (r : list cell * list cell) :
  i <> f ->
  (key_matches ["StRupertMayer"; "Battery"; "Electricity"] r.1 = true ->
   nth i (sto_row bat i f r).2 NaN = CNum bat
   /\ nth f (sto_row bat i f r).2 NaN = CNum (fmul (flit 0.05) bat))
  /\ (forall k, k <> i -> k <> f ->
                nth k (sto_row bat i f r).2 NaN = nth k r.2 NaN)
  /\ (key_matches ["StRupertMayer"; "Battery"; "Electricity"] r.1 = false ->
      sto_row bat i f r = r).
Proof.
  intros Hif. destruct r as [k vs]. cbn [fst snd].
  unfold sto_row. row_cases k;
    (split; [intros ?|split; [intros n ? ?|intros ?]]);
    try done;
    rewrite ?nth_set_nth; repeat case_decide; try congruence; try done;
    split; rewrite ?nth_set_nth; repeat case_decide; congruence.
Qed.

Lemma set_row_spec (key : list string) (i : nat) (v : F)
    (r : list cell * list cell) :
  (key_matches key r.1 = true -> nth i (set_row key i v r).2 NaN = CNum v)
  /\ (forall k, k <> i -> nth k (set_row key i v r).2 NaN = nth k r.2 NaN)
  /\ (key_matches key r.1 = false -> set_row key i v r = r).
Proof.
  destruct r as [k vs]. row_cases k;
    (split; [intros ?|split; [intros n ?|intros ?]]);
    try done; rewrite ?nth_set_nth; repeat case_decide; congruence.
Qed.

(** X18: a generated scenario on tables that have the rows and columns
    it writes.  It returns the dict it was given; in 'process' the
    rows of the photovoltaics plant and of the diesel generator get the
    given investment cost and 0.05 resp. 0.1 times it as fix cost, in
    'storage' the battery gets its investment cost and 0.05 times it,
    in 'commodity' the diesel stock gets the fuel price; every other
    entry, the index and the columns of the three tables stay, and so
    does every other object. *)
Theorem scenario_generator_sets_costs (name : string) (pv bat dg fuel : F)
    (data : pydict) (σ : store) (com pro sto : loc)
    (dfc dfp dfs : DataFrame) (lc lp ls : list string)
    (ic ip fp isto fsto : nat) :
  let pv_plant := ["StRupertMayer"; "Photovoltaics"] in
  let diesel_gen := ["StRupertMayer"; "Diesel generator"] in
  let battery := ["StRupertMayer"; "Battery"; "Electricity"] in
  let diesel := ["StRupertMayer"; "Diesel"; "Stock"] in
  dict_find data "commodity" = Some com ->
  dict_find data "process" = Some pro ->
  dict_find data "storage" = Some sto ->
  com <> pro -> com <> sto -> pro <> sto ->
  σ !! com = Some dfc -> σ !! pro = Some dfp -> σ !! sto = Some dfs ->
  columns dfc = Index lc -> index_of "price" lc = Some ic ->
  columns dfp = Index lp ->
  index_of "inv-cost" lp = Some ip -> index_of "fix-cost" lp = Some fp ->
  columns dfs = Index ls ->
  index_of "inv-cost-c" ls = Some isto ->
  index_of "fix-cost-c" ls = Some fsto ->
  Exists (fun r => key_matches ["StRupertMayer"; "Diesel"; "Stock"] r.1
                   = true) (rows dfc) ->
  Exists (fun r => key_matches ["StRupertMayer"; "Photovoltaics"] r.1
                   = true) (rows dfp) ->
  Exists (fun r => key_matches ["StRupertMayer"; "Diesel generator"] r.1
                   = true) (rows dfp) ->
  Exists (fun r => key_matches ["StRupertMayer"; "Battery"; "Electricity"]
                     r.1 = true) (rows dfs) ->
  exists σ' dfc' dfp' dfs',
    (scenario_generator name pv bat dg fuel).2 data σ = (Ret data, σ')
    /\ σ' !! com = Some dfc' /\ σ' !! pro = Some dfp'
    /\ σ' !! sto = Some dfs'
    /\ (forall l, l <> com -> l <> pro -> l <> sto -> σ' !! l = σ !! l)
    /\ (index_names dfc' = index_names dfc /\ columns dfc' = columns dfc
        /\ length (rows dfc') = length (rows dfc))
    /\ (index_names dfp' = index_names dfp /\ columns dfp' = columns dfp
        /\ length (rows dfp') = length (rows dfp))
    /\ (index_names dfs' = index_names dfs /\ columns dfs' = columns dfs
        /\ length (rows dfs') = length (rows dfs))
    /\ (forall j r,
          rows dfp !! j = Some r ->
          exists r',
            rows dfp' !! j = Some r' /\ r'.1 = r.1
            /\ (key_matches pv_plant r.1 = true ->
                nth ip r'.2 NaN = CNum pv
                /\ nth fp r'.2 NaN = CNum (fmul (flit 0.05) pv))
            /\ (key_matches diesel_gen r.1 = true ->
                nth ip r'.2 NaN = CNum dg
                /\ nth fp r'.2 NaN = CNum (fmul (flit 0.1) dg))
            /\ (forall k, k <> ip -> k <> fp ->
                          nth k r'.2 NaN = nth k r.2 NaN)
            /\ (key_matches pv_plant r.1 = false ->
                key_matches diesel_gen r.1 = false -> r' = r))
    /\ (forall j r,
          rows dfs !! j = Some r ->
          exists r',
            rows dfs' !! j = Some r' /\ r'.1 = r.1
            /\ (key_matches battery r.1 = true ->
                nth isto r'.2 NaN = CNum bat
                /\ nth fsto r'.2 NaN = CNum (fmul (flit 0.05) bat))
            /\ (forall k, k <> isto -> k <> fsto ->
                          nth k r'.2 NaN = nth k r.2 NaN)
            /\ (key_matches battery r.1 = false -> r' = r))
    /\ (forall j r,
          rows dfc !! j = Some r ->
          exists r',
            rows dfc' !! j = Some r' /\ r'.1 = r.1
            /\ (key_matches diesel r.1 = true ->
                nth ic r'.2 NaN = CNum fuel)
            /\ (forall k, k <> ic -> nth k r'.2 NaN = nth k r.2 NaN)
            /\ (key_matches diesel r.1 = false -> r' = r)).
Proof.
  intros pv_plant diesel_gen battery diesel.
  intros Hdc Hdp Hds Hcp Hcs Hps Hlc Hlp Hls Hcc Hic Hcp' Hip Hfp Hcs'
    His Hfs Hxd Hxpv Hxdg Hxb.
  assert (ip <> fp) as Hipfp.
  { by apply (index_of_distinct "inv-cost" "fix-cost" lp). }
  assert (isto <> fsto) as Hisfs.
  { by apply (index_of_distinct "inv-cost-c" "fix-cost-c" ls). }
  eexists _, _, _, _. split.
  { exact (scenario_generator_run name pv bat dg fuel
             data σ com pro sto dfc dfp dfs lc lp ls ic ip fp isto fsto
             Hdc Hdp Hds Hcp Hcs Hps Hlc Hlp Hls Hcc Hic Hcp' Hip Hfp Hcs'
             His Hfs Hxd Hxpv Hxdg Hxb). }
  split.
  { rewrite !lookup_insert_ne by done. apply lookup_insert_eq. }
  split; [apply lookup_insert_eq|]. split.
  { rewrite lookup_insert_ne by done. apply lookup_insert_eq. }
  split.
  { intros l Hc Hp Hs. by rewrite !lookup_insert_ne by done. }
  cbn [index_names columns rows]. rewrite !length_map.
  split; [by rewrite Hcc|]. split; [by rewrite Hcp'|].
  split; [by rewrite Hcs'|].
  split; [|split].
  - intros j r Hj. exists (pro_row pv dg ip fp r). split.
    { change (map ?f ?l) with (f <$> l). by rewrite list_lookup_fmap, Hj. }
    split; [apply pro_row_key|].
    exact (pro_row_spec pv dg ip fp r Hipfp).
  - intros j r Hj. exists (sto_row bat isto fsto r). split.
    { change (map ?f ?l) with (f <$> l). by rewrite list_lookup_fmap, Hj. }
    split; [apply sto_row_key|].
    exact (sto_row_spec bat isto fsto r Hisfs).
  - intros j r Hj. exists (set_row diesel ic fuel r). split.
    { change (map ?f ?l) with (f <$> l). by rewrite list_lookup_fmap, Hj. }
    split; [apply set_row_key|].
    exact (set_row_spec diesel ic fuel r).
Qed.

(** X19: generated scenarios do not build on one another.  On tables
    that have the rows and columns, a generated scenario applied after
    another one leaves exactly the store that it leaves when applied
    alone; in particular a scenario applied twice changes nothing the
    second time. *)
Theorem scenario_generator_overrides (name name' : string)
    (pv bat dg fuel pv' bat' dg' fuel' : F)
    (data : pydict) (σ : store) (com pro sto : loc)
    (dfc dfp dfs : DataFrame) (lc lp ls : list string)
    (ic ip fp isto fsto : nat) :
  dict_find data "commodity" = Some com ->
  dict_find data "process" = Some pro ->
  dict_find data "storage" = Some sto ->
  com <> pro -> com <> sto -> pro <> sto ->
  σ !! com = Some dfc -> σ !! pro = Some dfp -> σ !! sto = Some dfs ->
  columns dfc = Index lc -> index_of "price" lc = Some ic ->
  columns dfp = Index lp ->
  index_of "inv-cost" lp = Some ip -> index_of "fix-cost" lp = Some fp ->
  columns dfs = Index ls ->
  index_of "inv-cost-c" ls = Some isto ->
  index_of "fix-cost-c" ls = Some fsto ->
  Exists (fun r => key_matches ["StRupertMayer"; "Diesel"; "Stock"] r.1
                   = true) (rows dfc) ->
  Exists (fun r => key_matches ["StRupertMayer"; "Photovoltaics"] r.1
                   = true) (rows dfp) ->
  Exists (fun r => key_matches ["StRupertMayer"; "Diesel generator"] r.1
                   = true) (rows dfp) ->
  Exists (fun r => key_matches ["StRupertMayer"; "Battery"; "Electricity"]
                     r.1 = true) (rows dfs) ->
  exists σ1 σ2,
    (scenario_generator name pv bat dg fuel).2 data σ = (Ret data, σ1)
    /\ (scenario_generator name' pv' bat' dg' fuel').2 data σ
       = (Ret data, σ2)
    /\ (scenario_generator name' pv' bat' dg' fuel').2 data σ1
       = (Ret data, σ2).
Proof.
  intros Hdc Hdp Hds Hcp Hcs Hps Hlc Hlp Hls Hcc Hic Hcp' Hip Hfp Hcs'
    His Hfs Hxd Hxpv Hxdg Hxb.
  assert (ip <> fp) as Hipfp.
  { by apply (index_of_distinct "inv-cost" "fix-cost" lp). }
  assert (isto <> fsto) as Hisfs.
  { by apply (index_of_distinct "inv-cost-c" "fix-cost-c" ls). }
  set (C := mkFrame (index_names dfc) (Index lc)
              (map (set_row ["StRupertMayer"; "Diesel"; "Stock"] ic fuel)
                   (rows dfc))).
  set (P := mkFrame (index_names dfp) (Index lp)
              (map (pro_row pv dg ip fp) (rows dfp))).
  set (S := mkFrame (index_names dfs) (Index ls)
              (map (sto_row bat isto fsto) (rows dfs))).
  set (σ1 := <[pro := P]> (<[sto := S]> (<[com := C]> σ))).
  assert (σ1 !! com = Some C) as Hl1.
  { unfold σ1. rewrite !lookup_insert_ne by done. apply lookup_insert_eq. }
  assert (σ1 !! pro = Some P) as Hl2 by apply lookup_insert_eq.
  assert (σ1 !! sto = Some S) as Hl3.
  { unfold σ1. rewrite lookup_insert_ne by done. apply lookup_insert_eq. }
  assert (Exists (fun r => key_matches ["StRupertMayer"; "Diesel"; "Stock"]
                             r.1 = true) (rows C)) as Hx1.
  { apply Exists_key_map; [apply set_row_key|done]. }
  assert (Exists (fun r => key_matches ["StRupertMayer"; "Photovoltaics"]
                             r.1 = true) (rows P)) as Hx2.
  { apply Exists_key_map; [apply pro_row_key|done]. }
  assert (Exists (fun r => key_matches ["StRupertMayer"; "Diesel generator"]
                             r.1 = true) (rows P)) as Hx3.
  { apply Exists_key_map; [apply pro_row_key|done]. }
  assert (Exists (fun r => key_matches
                             ["StRupertMayer"; "Battery"; "Electricity"]
                             r.1 = true) (rows S)) as Hx4.
  { apply Exists_key_map; [apply sto_row_key|done]. }
  exists σ1. eexists. split.
  { exact (scenario_generator_run name pv bat dg fuel
             data σ com pro sto dfc dfp dfs lc lp ls ic ip fp isto fsto
             Hdc Hdp Hds Hcp Hcs Hps Hlc Hlp Hls Hcc Hic Hcp' Hip Hfp Hcs'
             His Hfs Hxd Hxpv Hxdg Hxb). }
  split.
  { exact (scenario_generator_run name' pv' bat' dg' fuel'
             data σ com pro sto dfc dfp dfs lc lp ls ic ip fp isto fsto
             Hdc Hdp Hds Hcp Hcs Hps Hlc Hlp Hls Hcc Hic Hcp' Hip Hfp Hcs'
             His Hfs Hxd Hxpv Hxdg Hxb). }
  rewrite (scenario_generator_run name' pv' bat' dg' fuel'
             data σ1 com pro sto C P S lc lp ls ic ip fp isto fsto
             Hdc Hdp Hds Hcp Hcs Hps Hl1 Hl2 Hl3 eq_refl Hic eq_refl Hip Hfp
             eq_refl His Hfs Hx1 Hx2 Hx3 Hx4).
  f_equal. unfold σ1, C, P, S. cbn [index_names rows].
  apply map_eq. intros l.
  destruct (decide (l = pro)) as [->|Hp].
  { rewrite !lookup_insert_eq. do 2 f_equal. rewrite map_map.
    apply map_ext. intros r. by apply pro_row_absorb. }
  destruct (decide (l = sto)) as [->|Hs].
  { repeat first [rewrite lookup_insert_eq
                 | rewrite lookup_insert_ne by done].
    do 2 f_equal. rewrite map_map.
    apply map_ext. intros r. by apply sto_row_absorb. }
  destruct (decide (l = com)) as [->|Hc].
  { repeat first [rewrite lookup_insert_eq
                 | rewrite lookup_insert_ne by done].
    do 2 f_equal. rewrite map_map.
    apply map_ext. intros r. by apply set_row_absorb. }
  by rewrite !lookup_insert_ne by done.
Qed.

(** * Reading a workbook and applying a scenario *)

Lemma Exists_Permutation {A} (P : A -> Prop) (l l' : list A) :
  l ≡ₚ l' -> Exists P l -> Exists P l'.
Proof.
  intros Hp Hex. apply Exists_exists in Hex as (x & Hx & HP).
  apply Exists_exists. exists x. split; [by rewrite <- Hp|done].
Qed.

(** X20: the first two steps of [run_scenario].  When the workbook has
    been read and its Process sheet, indexed by site and process, has
    rows of the Gas plant and of the Biomass plant of Node_2 with
    numeric 'cap-up' entries, [scenario_Node_2_process_caps] returns
    normally on the dict that was read; the 'process' table then holds
    the rows of the sheet in the order of the index, the two entries
    scaled, and no other table is touched. *)
Theorem read_excel_then_scenario (xls : gmap string Sheet) (σ σ1 : store)
    (data : pydict) (df0 : DataFrame) (labels : list string) (i : nat) :
  let gas := ["Node_2"; "Gas plant"] in
  let biomass := ["Node_2"; "Biomass plant"] in
  read_excel xls σ = (Ret data, σ1) ->
  rbind (parse xls "Process") (set_index ["Site"; "Process"]) = Ret df0 ->
  columns df0 = Index labels ->
  index_of "cap-up" labels = Some i ->
  Exists (fun r => key_matches gas r.1 = true) (rows df0) ->
  Exists (fun r => key_matches biomass r.1 = true) (rows df0) ->
  Forall (fun r => key_matches gas r.1 = true \/ key_matches biomass r.1 = true ->
                   exists y, nth i r.2 NaN = CNum y) (rows df0) ->
  exists pro df',
    dict_find data "process" = Some pro
    /\ scenario_Node_2_process_caps data σ1 = (Ret data, <[pro := df']> σ1)
    /\ index_names df' = ["Site"; "Process"]
    /\ columns df' = Index labels
    /\ rows df'
       = map (scale_row biomass i (flit 0.25))
             (map (scale_row gas i (flit 0.5)) (sort_by row_leb (rows df0)))
    /\ forall l, l <> pro -> (<[pro := df']> σ1) !! l = σ1 !! l.
Proof.
  intros gas biomass Eread E0 Hc Hi Hgas Hbio Hnum.
  destruct (read_excel_inv _ _ _ _ Eread) as (_ & _ & _ & _ & Htab).
  rewrite Forall_forall in Htab.
  destruct (Htab ("process", "Process", ["Site"; "Process"]))
    as (pro & df & Hl & Ht & Hdf).
  { unfold schema.
    repeat first [apply list_elem_of_here | apply list_elem_of_further]. }
  cbn [fst snd] in Hl.
  apply table_of_inv in Ht as (df0' & cols & E0' & Ecols & ->).
  rewrite E0 in E0'. injection E0' as <-.
  cbn in Ecols. injection Ecols as <-.
  assert (sorted_if_multiindex
            (mkFrame ["Site"; "Process"] (columns df0) (rows df0))
          = mkFrame ["Site"; "Process"] (columns df0)
              (sort_by row_leb (rows df0))) as Hsorted by reflexivity.
  rewrite Hsorted in Hdf. clear Hsorted.
  set (df := mkFrame ["Site"; "Process"] (columns df0)
               (sort_by row_leb (rows df0))) in *.
  assert (rows df ≡ₚ rows df0) as Hperm by apply sort_by_Permutation.
  exists pro. eexists. split; [exact Hl|]. split.
  { apply (scenario_Node_2_process_caps_run data σ1 pro df labels i);
      try done.
    - by apply (Exists_Permutation _ (rows df0)).
    - by apply (Exists_Permutation _ (rows df0)).
    - by rewrite Hperm. }
  cbn [index_names columns rows].
  repeat (split; [done|]).
  intros l Hne. by rewrite lookup_insert_ne.
Qed.

(** * The dict attributes of the prepared model *)

(** X21: when the tables of the input dict are different objects, the
    model that [pyomo_model_prep] returns has, for each of the eight
    tables it converts, a dict attribute that is [to_dict] of the table
    as it is at the return; for 'process', 'transmission' and
    'storage' this includes the new column 'annuity-factor'.  The
    attribute 'timesteps' holds the time steps that were passed. *)
Theorem pyomo_model_prep_dicts (data : pydict) (timesteps : list Z)
    (σ σ' : store) (m : Model) :
  NoDup (map snd data) ->
  pyomo_model_prep data timesteps σ = (Ret m, σ') ->
  attrs m !! "timesteps" = Some (VTimesteps timesteps)
  /\ Forall (fun p : string * string =>
               exists l df,
                 dict_find data p.1 = Some l
                 /\ attrs m !! p.1 = Some (VFrame l)
                 /\ σ' !! l = Some df
                 /\ attrs m !! p.2 = Some (VDict (to_dict df)))
            [("commodity", "commodity_dict"); ("demand", "demand_dict");
             ("supim", "supim_dict"); ("dsm", "dsm_dict");
             ("buy_sell_price", "buy_sell_price_dict");
             ("process", "process_dict");
             ("transmission", "transmission_dict");
             ("storage", "storage_dict")].
Proof.
  intros Hnd E. unfold pyomo_model_prep in E.
  repeat prep_step E.
  injection E as <- <-.
  repeat match goal with
         | Hd : dict_get _ _ = Ret _ |- _ => apply dict_get_inv in Hd
         | u : unit |- _ => destruct u
         end.
  match goal with
  | H1 : derive_annuity_factor ?lp ?s3 = (_, ?s4),
    H2 : derive_annuity_factor ?lt ?s4 = (_, ?s5),
    H3 : derive_annuity_factor ?ls ?s5 = (_, ?s6),
    Hfr1 : <[?gp := ?x]> σ !! ?l1 = None,
    Hfr2 : <[?l1 := _]> (<[?gp := ?x]> σ) !! ?l2 = None |- _ =>
      let E4 := fresh "E4" in let E5 := fresh "E5" in
      let E6 := fresh "E6" in
      apply derive_annuity_factor_inv in H1 as (? & ? & _ & _ & E4);
      apply derive_annuity_factor_inv in H2 as (? & ? & _ & _ & E5);
      apply derive_annuity_factor_inv in H3 as (? & ? & _ & _ & E6);
      assert (forall l df, <[gp := x]> σ !! l = Some df ->
                           l <> lp -> l <> lt -> l <> ls ->
                           s6 !! l = Some df) as Hframe;
      [ intros l df Hl N1 N2 N3;
        apply lookup_insert_None in Hfr2 as [Hfr2 _];
        rewrite E6, E5, E4;
        do 5 (rewrite lookup_insert_ne by congruence); exact Hl
      | clear E4 E5 E6 ]
  end.
  split; [attr_lookup|].
  repeat apply Forall_cons_2; [..|apply Forall_nil_2]; cbn [fst snd];
    (eexists _, _; split; [eassumption|]; split; [attr_lookup|];
     split;
     [ first [ eassumption
             | apply Hframe;
               [ eassumption
               | eapply dict_find_distinct;
                 [exact Hnd|eassumption|eassumption|discriminate].. ] ]
     | attr_lookup ]).
Qed.

End Model.

(** * The development at work on the example workbook

    The float64 class is instantiated with exact rationals, and a new
    model starts without attributes. *)

#[local] Existing Instance QFloat.

Lemma read_excel_schema_witness :
  adheres (example_workbook (H := QFloat))
  /\ exists data σ',
       read_excel (H := QFloat) example_workbook ∅ = (Ret data, σ')
       /\ map fst data
          = ["global_prop"; "site"; "commodity"; "process";
             "process_commodity"; "transmission"; "storage"; "demand";
             "supim"; "buy_sell_price"; "dsm"]
       /\ Forall (fun e : string * string * list string =>
                    exists l df sh ps,
                      dict_find data e.1.1 = Some l
                      /\ σ' !! l = Some df
                      /\ table_of example_workbook e = Ret df
                      /\ example_workbook !! e.1.2 = Some sh
                      /\ Forall2 (first_title (header sh)) e.2 ps
                      /\ index_names df = e.2
                      /\ (time_series e.1.1 = false ->
                          columns df
                          = flat_index (others ps (header sh)))
                      /\ (time_series e.1.1 = true ->
                          exists labels,
                            others ps (header sh) = map CStr labels
                            /\ columns df
                               = match labels with
                                 | [] => Index []
                                 | _ :: _ =>
                                     MultiIndex
                                       (map (PyStr.split_on ".") labels)
                                 end)
                      /\ rows df ≡ₚ map (keyed ps) (body sh)
                      /\ (length e.2 < 2 ->
                          rows df = map (keyed ps) (body sh))
                      /\ (2 <= length e.2 ->
                          Sorted (fun r1 r2 => key_leb r1.1 r2.1 = true)
                                 (rows df)))
                 schema.
Proof.
  assert (adheres (example_workbook (H := QFloat))) as Hadh.
  { unfold adheres, schema.
    repeat (apply Forall_cons_2;
            [eexists; split; [vm_compute; reflexivity|]; split;
             [repeat (apply Forall_cons_2;
                      [repeat first [apply list_elem_of_here
                                    | apply list_elem_of_further]|]);
              apply Forall_nil_2
             |intros _;
              repeat (apply Forall_cons_2; [eexists; reflexivity|]);
              apply Forall_nil_2]|]).
    apply Forall_nil_2. }
  split; [exact Hadh|].
  exact (read_excel_schema example_workbook ∅ Hadh).
Defined.

Lemma read_excel_splits_labels_witness :
  (exists l df df0,
      dict_find (example_data (H := QFloat)) "demand" = Some l
      /\ (example_read (H := QFloat)).2 !! l = Some df
      /\ rbind (parse example_workbook "Demand") (set_index ["t"]) = Ret df0
      /\ split_columns (columns df0) "." = Ret (columns df)
      /\ forall pairs : list (string * string),
           columns df0 = Index (map (fun p => p.1 +:+ "." +:+ p.2) pairs) ->
           pairs <> [] ->
           Forall (fun p => PyStr.has_char "." p.1 = false
                            /\ PyStr.has_char "." p.2 = false) pairs ->
           columns df = MultiIndex (map (fun p => [p.1; p.2]) pairs))
  /\ split_columns (F := option Q) (Index ["DE.Elec"; "MA.Elec"; "NO.Wind"]) ","
     = Ret (MultiIndex [["DE"; "Elec"]; ["MA"; "Elec"]; ["NO"; "Wind"]])
  /\ split_columns (F := option Q) (Index []) "." = Ret (Index []).
Proof.
  destruct (read_excel_splits_labels (H := QFloat)) as (Hread & Hsplit & Hpairs & Hempty).
  split; [|split].
  - apply (Hread example_workbook ∅ (example_read (H := QFloat)).2
             (example_data (H := QFloat)) "demand" "Demand").
    + vm_compute. reflexivity.
    + apply list_elem_of_here.
  - apply (Hpairs [("DE", "Elec"); ("MA", "Elec"); ("NO", "Wind")] ",").
    + discriminate.
    + repeat (apply Forall_cons_2; [split; reflexivity|]). apply Forall_nil_2.
  - apply (Hempty (Index []) "."). reflexivity.
Defined.

Lemma pyomo_model_prep_annuity_factor_witness :
  (Forall (fun p : string * loc => is_Some (example_read.2 !! p.2))
          (example_data (H := QFloat))
   /\ pyomo_model_prep empty_model example_data [0%Z; 1%Z] example_read.2
      = (Ret (example_model empty_model), (example_prep empty_model).2))
  /\ Forall (fun table =>
               exists l df df',
                 dict_find example_data table = Some l
                 /\ attrs (example_model empty_model) !! table = Some (VFrame l)
                 /\ example_read.2 !! l = Some df
                 /\ (example_prep empty_model).2 !! l = Some df'
                 /\ annuity_added df df')
            ["process"; "transmission"; "storage"].
Proof.
  assert (Forall (fun p : string * loc => is_Some (example_read.2 !! p.2))
                 (example_data (H := QFloat))) as Hlive.
  { vm_compute.
    repeat (apply Forall_cons_2; [eexists; reflexivity|]).
    apply Forall_nil_2. }
  assert (pyomo_model_prep empty_model example_data [0%Z; 1%Z] example_read.2
          = (Ret (example_model empty_model), (example_prep empty_model).2))
    as Hprep by (vm_compute; reflexivity).
  split; [exact (conj Hlive Hprep)|].
  exact (pyomo_model_prep_annuity_factor empty_model _ _ _ _ _ Hlive Hprep).
Defined.

Lemma get_input_lookup_witness :
  (hasattr (F := option Q) example_prob "process" = true
   /\ exists v, getattr (F := option Q) example_prob "process" = Ret v
                /\ (get_input (F := option Q) example_prob "process" ∅).1 = Ret v)
  /\ (hasattr (F := option Q) example_prob "site" = false
      /\ cache (F := option Q) example_prob = Some [("site", 1%positive)]
      /\ dict_find [("site", 1%positive)] "site" = Some 1%positive
      /\ (get_input (F := option Q) example_prob "site" ∅).1 = Ret (VFrame 1%positive))
  /\ (hasattr (F := option Q) example_prob "area" = false
      /\ (forall d, cache (F := option Q) example_prob = Some d ->
                    dict_find d "area" = None)
      /\ (get_input (F := option Q) example_prob "area" ∅).1 = Raise ValueError).
Proof.
  split; [|split].
  - split; [reflexivity|].
    apply (proj1 (proj2 (get_input_lookup (F := option Q) example_prob "process" ∅))).
    reflexivity.
  - split; [reflexivity|]. split; [reflexivity|]. split; [reflexivity|].
    apply (proj1 (proj2 (proj2
             (get_input_lookup (F := option Q) example_prob "site" ∅)))
             [("site", 1%positive)] 1%positive); reflexivity.
  - assert (forall d, cache (F := option Q) example_prob = Some d ->
                      dict_find d "area" = None) as Hnone.
    { intros d [= <-]. reflexivity. }
    split; [reflexivity|]. split; [exact Hnone|].
    apply (proj1 (proj2 (proj2 (proj2
             (get_input_lookup (F := option Q) example_prob "area" ∅)))));
      [reflexivity | exact Hnone].
Defined.

Lemma get_input_after_prep_witness :
  read_excel example_workbook ∅ = (Ret example_data, example_read.2)
  /\ pyomo_model_prep empty_model example_data [0%Z; 1%Z] example_read.2
     = (Ret (example_model empty_model), (example_prep empty_model).2)
  /\ Forall (fun k =>
               exists l df,
                 dict_find example_data k = Some l
                 /\ get_input (example_model empty_model) k
                      (example_prep empty_model).2
                    = (Ret (VFrame l), (example_prep empty_model).2)
                 /\ example_read.2 !! l = Some df
                 /\ (example_prep empty_model).2 !! l = Some df)
            ["site"; "commodity"; "process_commodity"; "demand"; "supim";
             "buy_sell_price"; "dsm"]
  /\ Forall (fun k =>
               exists l df df',
                 dict_find example_data k = Some l
                 /\ get_input (example_model empty_model) k
                      (example_prep empty_model).2
                    = (Ret (VFrame l), (example_prep empty_model).2)
                 /\ example_read.2 !! l = Some df
                 /\ (example_prep empty_model).2 !! l = Some df'
                 /\ with_annuity_factor df df')
            ["process"; "transmission"; "storage"]
  /\ exists l l' df df',
       dict_find example_data "global_prop" = Some l
       /\ get_input (example_model empty_model) "global_prop"
            (example_prep empty_model).2
          = (Ret (VFrame l'), (example_prep empty_model).2)
       /\ l' <> l
       /\ example_read.2 !! l = Some df
       /\ (example_prep empty_model).2 !! l = Some df
       /\ (example_prep empty_model).2 !! l' = Some df'
       /\ drop "description" df = Ret df'.
Proof.
  assert (read_excel example_workbook ∅ = (Ret example_data, example_read.2))
    as Hread by (vm_compute; reflexivity).
  assert (pyomo_model_prep empty_model example_data [0%Z; 1%Z] example_read.2
          = (Ret (example_model empty_model), (example_prep empty_model).2))
    as Hprep by (vm_compute; reflexivity).
  split; [exact Hread|]. split; [exact Hprep|].
  exact (get_input_after_prep empty_model _ _ _ _ _ _ _ Hread Hprep).
Defined.

(** C2 as it is claimed fails on the example workbook: what [get_input]
    yields under 'global_prop' has lost the column 'description' of the
    input table. *)
Lemma round_trip_fails : ~ round_trip_claim (H := QFloat) empty_model.
Proof.
  intros Hclaim.
  destruct (Hclaim example_workbook ∅ example_read.2
              (example_prep empty_model).2 example_data [0%Z; 1%Z]
              (example_model empty_model) "global_prop")
    as (l & l' & df & Hl & Hget & Hdf' & Hdf).
  - vm_compute. reflexivity.
  - vm_compute. reflexivity.
  - apply list_elem_of_here.
  - vm_compute in Hl. injection Hl as <-.
    vm_compute in Hget. injection Hget as <-.
    vm_compute in Hdf, Hdf'.
    destruct Hdf as [Hdf|Hdf]; rewrite <- Hdf in Hdf'; discriminate Hdf'.
Qed.

Lemma scenario_Node_2_process_caps_frame_witness :
  let gas := ["Node_2"; "Gas plant"] in
  let biomass := ["Node_2"; "Biomass plant"] in
  let labels := ["cap-up"; "area-per-cap"; "wacc"; "depreciation"] in
  (dict_find example_data "process" = Some 3%positive
   /\ example_read.2 !! 3%positive = Some example_process
   /\ length (index_names example_process) = 2
   /\ columns example_process = Index labels
   /\ index_of "cap-up" labels = Some 0
   /\ Exists (fun r => key_matches gas r.1 = true) (rows example_process)
   /\ Exists (fun r => key_matches biomass r.1 = true) (rows example_process)
   /\ Forall (fun r => key_matches gas r.1 = true
                       \/ key_matches biomass r.1 = true ->
                       exists y, nth 0 r.2 NaN = CNum y)
             (rows example_process))
  /\ exists df',
       scenario_Node_2_process_caps example_data example_read.2
       = (Ret example_data, <[3%positive := df']> example_read.2)
       /\ (forall l, l <> 3%positive ->
                     (<[3%positive := df']> (snd example_read)) !! l
                     = example_read.2 !! l)
       /\ index_names df' = index_names example_process
       /\ columns df' = columns example_process
       /\ length (rows df') = length (rows example_process)
       /\ forall j r,
            rows example_process !! j = Some r ->
            exists r',
              rows df' !! j = Some r'
              /\ r'.1 = r.1
              /\ (forall y, key_matches gas r.1 = true ->
                            nth 0 r.2 NaN = CNum y ->
                            nth 0 r'.2 NaN = CNum (fmul y (flit 0.5)))
              /\ (forall y, key_matches biomass r.1 = true ->
                            nth 0 r.2 NaN = CNum y ->
                            nth 0 r'.2 NaN = CNum (fmul y (flit 0.25)))
              /\ (key_matches gas r.1 = false ->
                  key_matches biomass r.1 = false -> r' = r)
              /\ (forall c, c <> 0 -> nth c r'.2 NaN = nth c r.2 NaN).
Proof.
  intros gas biomass labels.
  assert (dict_find example_data "process" = Some 3%positive) as H1
    by (vm_compute; reflexivity).
  assert (example_read.2 !! 3%positive = Some example_process) as H2
    by (vm_compute; reflexivity).
  assert (length (index_names example_process) = 2) as Hlev
    by (vm_compute; reflexivity).
  assert (columns example_process = Index labels) as H3
    by (vm_compute; reflexivity).
  assert (index_of "cap-up" labels = Some 0) as H4 by reflexivity.
  assert (Exists (fun r => key_matches gas r.1 = true) (rows example_process))
    as H5.
  { apply Exists_exists.
    exists ([CStr "Node_2"; CStr "Gas plant"],
            [CNum (Some 80%Q); CNum (Some 0%Q); CNum (Some 0.07%Q); CNum (Some 30%Q)]).
    split; [|reflexivity]. vm_compute.
    repeat first [apply list_elem_of_here | apply list_elem_of_further]. }
  assert (Exists (fun r => key_matches biomass r.1 = true)
                 (rows example_process)) as H6.
  { apply Exists_exists.
    exists ([CStr "Node_2"; CStr "Biomass plant"],
            [CNum (Some 5%Q); CNum (Some 0%Q); CNum (Some 0.07%Q); CNum (Some 25%Q)]).
    split; [|reflexivity]. vm_compute.
    repeat first [apply list_elem_of_here | apply list_elem_of_further]. }
  assert (Forall (fun r => key_matches gas r.1 = true
                           \/ key_matches biomass r.1 = true ->
                           exists y, nth 0 r.2 NaN = CNum y)
                 (rows example_process)) as H7.
  { vm_compute.
    repeat (apply Forall_cons_2; [intros _; eexists; reflexivity|]).
    apply Forall_nil_2. }
  split;
    [exact (conj H1 (conj H2 (conj Hlev (conj H3 (conj H4
              (conj H5 (conj H6 H7)))))))|].
  exact (scenario_Node_2_process_caps_frame
           example_data example_read.2 3%positive example_process labels 0
           H1 H2 Hlev H3 H4 H5 H6 H7).
Defined.

Lemma deduplicate_legend_sorted_unique_witness :
  let handles := [1; 2; 3; 4] in
  let labels := ["b"; "a"; "b"; "c"] in
  (length handles = length labels /\ labels <> [])
  /\ exists hs ls,
       deduplicate_legend nat handles labels = Ret (hs, ls)
       /\ length hs = length ls
       /\ NoDup ls
       /\ Sorted (fun a b => String.ltb a b = true) ls
       /\ (forall l, l ∈ ls <-> l ∈ labels)
       /\ (forall i l h,
             ls !! i = Some l -> hs !! i = Some h ->
             exists j, labels !! j = Some l /\ handles !! j = Some h
                       /\ forall j', j' < j -> labels !! j' <> Some l).
Proof.
  intros handles labels.
  assert (length handles = length labels) as H1 by reflexivity.
  assert (labels <> []) as H2 by discriminate.
  split; [by split|].
  exact (proj1 (deduplicate_legend_sorted_unique nat handles labels) H1 H2).
Defined.

Lemma compare_scenarios_base_last_witness :
  let result_files := ["result/scenario_base.xlsx"; "result/scenario_x_y.xlsx"] in
  let others := ["result/scenario_x_y.xlsx"] in
  ("base" ∈ scenario_names_of result_files
   /\ exists i rf,
        scenario_names_of result_files !! i = Some "base"
        /\ (forall j, j < i -> scenario_names_of result_files !! j <> Some "base")
        /\ result_files !! i = Some rf
        /\ compare_scenarios_reorder result_files
           = (Ret tt, (delete i result_files ++ [rf],
                       delete i (scenario_names_of result_files) ++ ["base"])))
  /\ (("base" ∉ scenario_names_of others)
      /\ list_index "base" (scenario_names_of others) = Raise ValueError
      /\ compare_scenarios_reorder others
         = (Ret tt, (others, scenario_names_of others))).
Proof.
  intros result_files others.
  assert ("base" ∈ scenario_names_of result_files) as H1.
  { vm_compute. apply list_elem_of_here. }
  assert ("base" ∉ scenario_names_of others) as H2.
  { vm_compute. intros Hb. apply elem_of_cons in Hb as [Hb|Hb].
    - discriminate Hb.
    - by apply elem_of_nil in Hb. }
  split.
  - split; [exact H1|].
    exact (proj1 (compare_scenarios_base_last result_files) H1).
  - split; [exact H2|].
    exact (proj1 (proj2 (compare_scenarios_base_last others)) H2).
Defined.

(** Without its DSM sheet the workbook is no input workbook: [read_excel]
    raises what the parser raises. *)
Example read_excel_missing_sheet :
  (read_excel (H := QFloat) workbook_without_DSM ∅).1 = Raise XLRDError.
Proof. vm_compute. reflexivity. Qed.

(** A number among the titles of a time series sheet has no [split]
    method; among the titles of another sheet it stays a title. *)
Example read_excel_numeric_Demand_title :
  (read_excel (H := QFloat) workbook_numeric_Demand_title ∅).1
  = Raise AttributeError.
Proof. vm_compute. reflexivity. Qed.

Example read_excel_numeric_Process_title :
  table_of (H := QFloat) workbook_numeric_Process_title
    ("process", "Process", ["Site"; "Process"])
  = Ret (mkFrame ["Site"; "Process"] (MixedIndex [CNum (Some 2020%Q)])
           [ ([CStr "Node_2"; CStr "Gas plant"], [CNum (Some 80%Q)]) ]).
Proof. vm_compute. reflexivity. Qed.

(** Sorting the index puts the row with a blank site last, and a
    number before the texts. *)
Example read_excel_blank_Site :
  rbind (table_of (H := QFloat) workbook_blank_Site
           ("process", "Process", ["Site"; "Process"]))
        (fun df => Ret (rows df))
  = Ret [ ([CNum (Some 7%Q); CStr "Gas plant"], [CNum (Some 80%Q)]);
          ([CStr "Node_1"; CStr "Wind park"], [CNum (Some 13%Q)]);
          ([CStr "Node_2"; CStr "Gas plant"], [CNum (Some 80%Q)]);
          ([CNum None; CStr "Gas plant"], [CNum (Some 80%Q)]) ].
Proof. vm_compute. reflexivity. Qed.

(** On a table with a third index level the keys of the scenario are
    partial, which is outside of what is modelled. *)
Example scenario_Node_2_process_caps_three_levels :
  scenario_Node_2_process_caps (H := QFloat) caps_data
    {[ 1%positive := process_three_levels ]}
  = (Raise Unsupported, {[ 1%positive := process_three_levels ]}).
Proof. vm_compute. reflexivity. Qed.

Example deduplicate_legend_example :
  deduplicate_legend nat [1; 2; 3; 4] ["b"; "a"; "b"; "c"]
  = Ret ([2; 1; 4], ["a"; "b"; "c"]).
Proof. vm_compute. reflexivity. Qed.

Example deduplicate_legend_empty :
  deduplicate_legend nat [] [] = Raise ValueError.
Proof. reflexivity. Qed.

Example scenario_Node_2_process_caps_example :
  rows <$> ((scenario_Node_2_process_caps (H := QFloat)
               example_data example_read.2).2 !! 3%positive)
  = Some [ ([CStr "Node_1"; CStr "Wind park"],
            [CNum (Some 13%Q); CNum (Some 0.5%Q); CNum (Some 0.07%Q); CNum (Some 25%Q)]);
           ([CStr "Node_2"; CStr "Biomass plant"],
            [CNum (Some (5 # 4)); CNum (Some 0%Q); CNum (Some 0.07%Q); CNum (Some 25%Q)]);
           ([CStr "Node_2"; CStr "Gas plant"],
            [CNum (Some 40%Q); CNum (Some 0%Q); CNum (Some 0.07%Q); CNum (Some 30%Q)]) ].
Proof. vm_compute. reflexivity. Qed.

Lemma deduplicate_legend_idempotent_witness :
  deduplicate_legend nat [1; 2; 3; 4] ["b"; "a"; "b"; "c"]
  = Ret ([2; 1; 4], ["a"; "b"; "c"])
  /\ deduplicate_legend nat [2; 1; 4] ["a"; "b"; "c"]
     = Ret ([2; 1; 4], ["a"; "b"; "c"]).
Proof.
  assert (deduplicate_legend nat [1; 2; 3; 4] ["b"; "a"; "b"; "c"]
          = Ret ([2; 1; 4], ["a"; "b"; "c"])) as H1 by reflexivity.
  split; [exact H1|].
  exact (deduplicate_legend_idempotent nat _ _ _ _ H1).
Defined.

Lemma get_most_recent_entry_latest_witness :
  let entries := ["result/a-1"; "result/b-2"; "result/c-3"] in
  let getmtime := fun e : string =>
    if String.eqb e "result/a-1" then 10%Q else 20%Q in
  entries <> []
  /\ exists i e,
       get_most_recent_entry entries getmtime = Ret e
       /\ entries !! i = Some e
       /\ (forall j e', entries !! j = Some e' ->
                        (getmtime e' <= getmtime e)%Q)
       /\ (forall j e', i < j -> entries !! j = Some e' ->
                        (getmtime e' < getmtime e)%Q).
Proof.
  intros entries getmtime.
  assert (entries <> []) as H1 by discriminate.
  split; [exact H1|].
  exact (proj2 (get_most_recent_entry_latest entries getmtime) H1).
Defined.

Lemma main_compare_order_witness :
  let matches := ["r/scenario_base.xlsx"; "r/scenario_x.xlsx";
                  "r/scenario_a.xlsx"] in
  "base" ∈ scenario_names_of matches
  /\ exists files rest rf,
       main_compare matches = (Ret tt, (files, scenario_names_of files))
       /\ files = rest ++ [rf]
       /\ scenario_names_of [rf] = ["base"]
       /\ Sorted (fun a b => String.leb b a = true) rest.
Proof.
  intros matches.
  assert ("base" ∈ scenario_names_of matches) as H1.
  { vm_compute. apply list_elem_of_here. }
  split; [exact H1|].
  destruct (main_compare_order matches) as (files & E & _ & _ & Hbase).
  destruct (Hbase H1) as (rest & rf & Hf & Hn & Hs).
  exists files, rest, rf. by repeat split.
Defined.

Lemma run_scenario_filenames_witness :
  let result_dir := "result/mimo-20200101T0000" in
  let sce := "scenario_base" in
  figure_basename result_dir sce
  = Ret "result/mimo-20200101T0000/scenario_base"
  /\ log_filename result_dir sce
     = Ret ("result/mimo-20200101T0000/scenario_base" +:+ ".log")
  /\ h5_filename result_dir sce
     = Ret ("result/mimo-20200101T0000/scenario_base" +:+ ".h5")
  /\ report_filename result_dir sce
     = Ret ("result/mimo-20200101T0000/scenario_base" +:+ ".xlsx").
Proof.
  intros result_dir sce.
  exact (run_scenario_filenames result_dir sce eq_refl eq_refl eq_refl).
Defined.

Lemma log_filename_braces_witness :
  log_filename "result/a{}b-1" "s" = Raise IndexError
  /\ report_filename "result/a{}b-1" "s" = Raise IndexError
  /\ h5_filename "result/a{}b-1" "s"
     = Ret (path_join "result/a{}b-1" ("s" +:+ ".h5")).
Proof.
  exact (log_filename_braces "result/a" "b-1" "s"
           eq_refl eq_refl eq_refl eq_refl).
Defined.

Lemma result_dir_file_names_witness :
  result_dir_of "mimo" "20200101T0000" = Ret "result/mimo-20200101T0000"
  /\ result_dir_of "/tmp/mimo" "20200101T0000"
     = Ret "/tmp/mimo-20200101T0000"
  /\ log_filename "result/mimo-20200101T0000" "scenario_base"
     = Ret "result/mimo-20200101T0000/scenario_base.log".
Proof.
  split; [|split].
  - exact (proj1 (result_dir_file_names "mimo" "20200101T0000" "")
             eq_refl).
  - exact (proj1 (proj2 (result_dir_file_names "/tmp/mimo" "20200101T0000" ""))
             eq_refl).
  - exact (proj1 (proj2 (proj2 (proj2 (result_dir_file_names
             "mimo" "20200101T0000" "scenario_base"))
             eq_refl eq_refl eq_refl eq_refl eq_refl eq_refl eq_refl))).
Defined.

Lemma commodities_of_labels_witness :
  commodities_of ["Node_1.Elec"; "Node_2.Elec"; "Node_2.CO2"]
  = Ret {[ "Elec"; "CO2" ]}
  /\ commodities_of ["Node_1.Elec"; "Elec"] = Raise ValueError.
Proof.
  split.
  - assert (commodities_of ["Node_1.Elec"; "Node_2.Elec"; "Node_2.CO2"]
            = Ret (list_to_set ["Elec"; "Elec"; "CO2"])) as E.
    { assert (Forall dotless [("Node_1", "Elec"); ("Node_2", "Elec");
                              ("Node_2", "CO2")]) as Hd
        by (repeat constructor).
      exact (proj1 (commodities_of_labels _) _ Hd eq_refl). }
    rewrite E. f_equal.
  - apply (proj2 (commodities_of_labels _)).
    intros pairs Hd E.
    destruct pairs as [|p1 [|[sit com] [|p3 pairs]]]; try discriminate E.
    injection E as _ E.
    apply (f_equal (PyStr.has_char ".")) in E.
    unfold site_commodity in E. rewrite !has_char_app in E. cbn [fst snd] in E.
    rewrite orb_true_r in E. discriminate E.
Defined.

Lemma read_excel_allocates_fresh_witness :
  read_excel example_workbook ∅ = (Ret example_data, example_read.2)
  /\ length (example_data (H := QFloat)) = 11
  /\ NoDup (map snd (example_data (H := QFloat))).
Proof.
  assert (read_excel example_workbook ∅ = (Ret example_data, example_read.2))
    as Hread by (vm_compute; reflexivity).
  split; [exact Hread|].
  destruct (read_excel_allocates_fresh _ _ _ _ Hread) as (Hlen & Hnd & _).
  exact (conj Hlen Hnd).
Defined.

Lemma read_excel_independent_of_store_witness :
  let again := read_excel example_workbook example_read.2 in
  let data2 := match again.1 with Ret d => d | Raise _ => [] end in
  let l2 := match dict_find data2 "process" with
            | Some l => l
            | None => 1%positive
            end in
  (read_excel example_workbook ∅ = (Ret example_data, example_read.2)
   /\ again = (Ret data2, again.2)
   /\ dict_find example_data "process" = Some 3%positive
   /\ dict_find data2 "process" = Some l2)
  /\ l2 <> 3%positive
  /\ example_read.2 !! 3%positive = again.2 !! l2.
Proof.
  intros again data2 l2.
  assert (read_excel example_workbook ∅ = (Ret example_data, example_read.2))
    as H1 by (vm_compute; reflexivity).
  assert (again = (Ret data2, again.2)) as H2 by (vm_compute; reflexivity).
  assert (dict_find example_data "process" = Some 3%positive) as H3
    by (vm_compute; reflexivity).
  assert (dict_find data2 "process" = Some l2) as H4
    by (vm_compute; reflexivity).
  split; [exact (conj H1 (conj H2 (conj H3 H4)))|].
  split; [vm_compute; discriminate|].
  exact (proj2 (read_excel_independent_of_store
                  _ _ _ _ _ _ _ "process" _ _ H1 H2 H3 H4)).
Defined.

Lemma read_excel_keeps_rows_witness :
  (read_excel example_workbook ∅ = (Ret example_data, example_read.2)
   /\ ("process", "Process", ["Site"; "Process"]) ∈ schema)
  /\ exists l df df0,
       dict_find example_data "process" = Some l
       /\ example_read.2 !! l = Some df
       /\ rbind (parse example_workbook "Process")
                (set_index ["Site"; "Process"]) = Ret df0
       /\ rows df ≡ₚ rows df0.
Proof.
  assert (read_excel example_workbook ∅ = (Ret example_data, example_read.2))
    as H1 by (vm_compute; reflexivity).
  assert (("process", "Process", ["Site"; "Process"]) ∈ schema) as H2.
  { unfold schema.
    repeat first [apply list_elem_of_here | apply list_elem_of_further]. }
  split; [exact (conj H1 H2)|].
  destruct (read_excel_keeps_rows _ _ _ _ _ _ _ H1 H2)
    as (l & df & df0 & sh & Hl & Hdf & _ & Hdf0 & _ & Hperm & _).
  exists l, df, df0. exact (conj Hl (conj Hdf (conj Hdf0 Hperm))).
Defined.

Lemma split_columns_total_on_Index_witness :
  (["DE.Elec"; "MA.Elec"] <> []
   /\ split_columns (F := option Q) (Index ["DE.Elec"; "MA.Elec"]) "."
      = Ret (MultiIndex [["DE"; "Elec"]; ["MA"; "Elec"]]))
  /\ split_columns (F := option Q) (MultiIndex [["DE"; "Elec"]; ["MA"; "Elec"]]) "."
     = Raise AttributeError.
Proof.
  assert (["DE.Elec"; "MA.Elec"] <> []) as H1 by discriminate.
  assert (split_columns (F := option Q) (Index ["DE.Elec"; "MA.Elec"]) "."
          = Ret (MultiIndex [["DE"; "Elec"]; ["MA"; "Elec"]])) as H2
    by reflexivity.
  split; [exact (conj H1 H2)|].
  exact (proj2 (proj2 (split_columns_total_on_Index))
           _ "." "." _ H1 H2).
Defined.

Lemma split_columns_injective_witness :
  split_columns (F := option Q) (Index ["DE.Elec"; "MA.Elec"]) "."
  = split_columns (F := option Q) (Index ["DE.Elec"; "MA.Elec"]) "-"
  /\ ["DE.Elec"; "MA.Elec"] = ["DE.Elec"; "MA.Elec"].
Proof.
  assert (split_columns (F := option Q) (Index ["DE.Elec"; "MA.Elec"]) "."
          = split_columns (F := option Q) (Index ["DE.Elec"; "MA.Elec"]) "-") as H1
    by reflexivity.
  split; [exact H1|].
  exact (split_columns_injective _ _ _ _ H1).
Defined.

Lemma scenario_Node_2_process_caps_twice_witness :
  let gas := ["Node_2"; "Gas plant"] in
  let biomass := ["Node_2"; "Biomass plant"] in
  let labels := ["cap-up"; "area-per-cap"; "wacc"; "depreciation"] in
  (dict_find example_data "process" = Some 3%positive
   /\ example_read.2 !! 3%positive = Some example_process
   /\ length (index_names example_process) = 2
   /\ columns example_process = Index labels
   /\ index_of "cap-up" labels = Some 0
   /\ Exists (fun r => key_matches gas r.1 = true) (rows example_process)
   /\ Exists (fun r => key_matches biomass r.1 = true) (rows example_process)
   /\ Forall (fun r => key_matches gas r.1 = true
                       \/ key_matches biomass r.1 = true ->
                       exists y, nth 0 r.2 NaN = CNum y)
             (rows example_process))
  /\ exists σ1 df2,
       scenario_Node_2_process_caps example_data example_read.2
       = (Ret example_data, σ1)
       /\ scenario_Node_2_process_caps example_data σ1
          = (Ret example_data, <[3%positive := df2]> example_read.2).
Proof.
  intros gas biomass labels.
  assert (dict_find example_data "process" = Some 3%positive) as H1
    by (vm_compute; reflexivity).
  assert (example_read.2 !! 3%positive = Some example_process) as H2
    by (vm_compute; reflexivity).
  assert (length (index_names example_process) = 2) as Hlev
    by (vm_compute; reflexivity).
  assert (columns example_process = Index labels) as H3
    by (vm_compute; reflexivity).
  assert (index_of "cap-up" labels = Some 0) as H4 by reflexivity.
  assert (Exists (fun r => key_matches gas r.1 = true) (rows example_process))
    as H5.
  { vm_compute. apply Exists_cons_tl, Exists_cons_tl, Exists_cons_hd.
    reflexivity. }
  assert (Exists (fun r => key_matches biomass r.1 = true)
                 (rows example_process)) as H6.
  { vm_compute. apply Exists_cons_tl, Exists_cons_hd. reflexivity. }
  assert (Forall (fun r => key_matches gas r.1 = true
                           \/ key_matches biomass r.1 = true ->
                           exists y, nth 0 r.2 NaN = CNum y)
                 (rows example_process)) as H7.
  { vm_compute.
    repeat (apply Forall_cons_2; [intros _; eexists; reflexivity|]).
    apply Forall_nil_2. }
  split;
    [exact (conj H1 (conj H2 (conj Hlev (conj H3 (conj H4
              (conj H5 (conj H6 H7)))))))|].
  destruct (scenario_Node_2_process_caps_twice
              example_data example_read.2 3%positive example_process labels 0
              H1 H2 Hlev H3 H4 H5 H6 H7) as (σ1 & df2 & E1 & E2 & _).
  exists σ1, df2. exact (conj E1 E2).
Defined.

Lemma scenario_Node_2_process_caps_partial_witness :
  let σ : gmap loc DataFrame := {[ 1%positive := process_gas_only ]} in
  exists df1 r1,
    scenario_Node_2_process_caps caps_data σ
    = (Raise KeyError, <[1%positive := df1]> σ)
    /\ rows df1 !! 1 = Some r1
    /\ r1.1 = [CStr "Node_2"; CStr "Gas plant"]
    /\ nth 0 r1.2 NaN = CNum (fmul (flit 80) (flit 0.5)).
Proof.
  intros σ.
  assert (Exists (fun r => key_matches ["Node_2"; "Gas plant"] r.1 = true)
                 (rows process_gas_only)) as H5.
  { apply Exists_cons_tl, Exists_cons_hd. reflexivity. }
  assert (Forall (fun r => key_matches ["Node_2"; "Gas plant"] r.1 = true ->
                           exists y, nth 0 r.2 NaN = CNum y)
                 (rows process_gas_only)) as H6.
  { repeat (apply Forall_cons_2; [intros _; eexists; reflexivity|]).
    apply Forall_nil_2. }
  assert (Forall (fun r => key_matches ["Node_2"; "Biomass plant"] r.1 = false)
                 (rows process_gas_only)) as H7.
  { repeat (apply Forall_cons_2; [reflexivity|]). apply Forall_nil_2. }
  destruct (scenario_Node_2_process_caps_partial
              caps_data σ 1%positive process_gas_only ["cap-up"] 0
              eq_refl eq_refl eq_refl eq_refl eq_refl H5 H6 H7)
    as (df1 & E & Hrows).
  destruct (Hrows 1 _ eq_refl) as (r1 & Hr1 & Hk & Hgas & _).
  exists df1, r1.
  exact (conj E (conj Hr1 (conj Hk (Hgas _ eq_refl eq_refl)))).
Defined.

Lemma scenario_Node_2_process_caps_fails_clean_witness :
  scenario_Node_2_process_caps (H := QFloat) [] ∅ = (Raise KeyError, ∅)
  /\ scenario_Node_2_process_caps caps_data {[ 1%positive := process_no_cap_up ]}
     = (Raise KeyError, {[ 1%positive := process_no_cap_up ]})
  /\ scenario_Node_2_process_caps caps_data {[ 1%positive := process_no_gas ]}
     = (Raise KeyError, {[ 1%positive := process_no_gas ]})
  /\ scenario_Node_2_process_caps caps_data {[ 1%positive := process_text_entry ]}
     = (Raise TypeError, {[ 1%positive := process_text_entry ]}).
Proof.
  split; [|split; [|split]].
  - exact (proj1 (scenario_Node_2_process_caps_fails_clean [] ∅) eq_refl).
  - exact (proj1 (proj2 (scenario_Node_2_process_caps_fails_clean
                           caps_data {[ 1%positive := process_no_cap_up ]}))
             1%positive process_no_cap_up ["inst-cap"]
             eq_refl eq_refl eq_refl eq_refl).
  - assert (Forall (fun r => key_matches ["Node_2"; "Gas plant"] r.1 = false)
                   (rows process_no_gas)) as Hno.
    { repeat (apply Forall_cons_2; [reflexivity|]). apply Forall_nil_2. }
    exact (proj1 (proj2 (proj2 (scenario_Node_2_process_caps_fails_clean
                                  caps_data {[ 1%positive := process_no_gas ]})))
             1%positive process_no_gas ["cap-up"] 0
             eq_refl eq_refl eq_refl eq_refl Hno).
  - assert (Exists (fun r => key_matches ["Node_2"; "Gas plant"] r.1 = true
                             /\ exists s, nth 0 r.2 NaN = CStr s)
                   (rows process_text_entry)) as Hbad.
    { apply Exists_cons_hd. split; [reflexivity|]. eexists. reflexivity. }
    exact (proj2 (proj2 (proj2 (scenario_Node_2_process_caps_fails_clean
                                  caps_data
                                  {[ 1%positive := process_text_entry ]})))
             1%positive process_text_entry ["cap-up"] 0
             eq_refl eq_refl eq_refl eq_refl Hbad).
Defined.

Lemma pyomo_model_prep_missing_table_witness :
  let data := take 10 (example_data (H := QFloat)) in
  ("dsm" ∈ ["global_prop"; "site"; "commodity"; "process";
            "process_commodity"; "transmission"; "storage"; "demand";
            "supim"; "buy_sell_price"; "dsm"]
   /\ dict_find data "dsm" = None
   /\ dict_find data "global_prop" = Some 11%positive)
  /\ exists σ',
       pyomo_model_prep empty_model data [0%Z; 1%Z] example_read.2
       = (Raise KeyError, σ')
       /\ forall l df, example_read.2 !! l = Some df -> σ' !! l = Some df.
Proof.
  intros data.
  assert ("dsm" ∈ ["global_prop"; "site"; "commodity"; "process";
                   "process_commodity"; "transmission"; "storage"; "demand";
                   "supim"; "buy_sell_price"; "dsm"]) as H1.
  { repeat first [apply list_elem_of_here | apply list_elem_of_further]. }
  assert (dict_find data "dsm" = None) as H2 by (vm_compute; reflexivity).
  assert (dict_find data "global_prop" = Some 11%positive) as H3
    by (vm_compute; reflexivity).
  split; [exact (conj H1 (conj H2 H3))|].
  apply (pyomo_model_prep_missing_table empty_model data [0%Z; 1%Z]
           example_read.2 "dsm" H1 H2).
  intros gp Hgp. rewrite H3 in Hgp. injection Hgp as <-.
  eexists _, _. split; [vm_compute; reflexivity|].
  split; [reflexivity|].
  repeat first [apply list_elem_of_here | apply list_elem_of_further].
Defined.

Lemma scenario_generator_sets_costs_witness :
  exists σ' dfp',
    (scenario_generator "s01" (Some 2000%Q) (Some 1000%Q) (Some 200%Q) (Some 0.09%Q)).2
      node_data node_store
    = (Ret node_data, σ')
    /\ σ' !! 2%positive = Some dfp'
    /\ rows dfp'
       = [ ([CStr "StRupertMayer"; CStr "Diesel generator"],
            [CNum (Some 200%Q); CNum (Some 20%Q); CNum (Some 100%Q)]);
           ([CStr "StRupertMayer"; CStr "Photovoltaics"],
            [CNum (Some 2000%Q); CNum (Some 100%Q); CNum (Some 500%Q)]) ].
Proof.
  assert (Exists (fun r => key_matches ["StRupertMayer"; "Diesel"; "Stock"]
                             r.1 = true) (rows node_commodity)) as Hx1.
  { apply Exists_cons_hd. reflexivity. }
  assert (Exists (fun r => key_matches ["StRupertMayer"; "Photovoltaics"]
                             r.1 = true) (rows node_process)) as Hx2.
  { apply Exists_cons_tl, Exists_cons_hd. reflexivity. }
  assert (Exists (fun r => key_matches ["StRupertMayer"; "Diesel generator"]
                             r.1 = true) (rows node_process)) as Hx3.
  { apply Exists_cons_hd. reflexivity. }
  assert (Exists (fun r => key_matches
                             ["StRupertMayer"; "Battery"; "Electricity"]
                             r.1 = true) (rows node_storage)) as Hx4.
  { apply Exists_cons_hd. reflexivity. }
  assert (1%positive <> 2%positive) as N12 by discriminate.
  assert (1%positive <> 3%positive) as N13 by discriminate.
  assert (2%positive <> 3%positive) as N23 by discriminate.
  destruct (scenario_generator_sets_costs "s01" (Some 2000%Q) (Some 1000%Q) (Some 200%Q) (Some 0.09%Q)
              node_data node_store 1%positive 2%positive 3%positive
              node_commodity node_process node_storage
              ["price"; "max"] ["inv-cost"; "fix-cost"; "cap-up"]
              ["inv-cost-c"; "fix-cost-c"] 0 0 1 0 1
              eq_refl eq_refl eq_refl N12 N13 N23 eq_refl eq_refl eq_refl
              eq_refl eq_refl eq_refl eq_refl eq_refl eq_refl eq_refl eq_refl
              Hx1 Hx2 Hx3 Hx4)
    as (σ' & dfc' & dfp' & dfs' & E & _ & Hp & _).
  exists σ', dfp'. split; [exact E|]. split; [exact Hp|].
  pose proof (f_equal snd E) as Es. cbn [snd] in Es.
  rewrite <- Es in Hp. vm_compute in Hp. injection Hp as <-. reflexivity.
Defined.

Lemma scenario_generator_overrides_witness :
  exists σ1 σ2,
    (scenario_generator "s01" (Some 2000%Q) (Some 1000%Q) (Some 200%Q) (Some 0.09%Q)).2
      node_data node_store = (Ret node_data, σ1)
    /\ (scenario_generator "s10" (Some 500%Q) (Some 500%Q) (Some 200%Q) (Some 0.27%Q)).2
         node_data node_store = (Ret node_data, σ2)
    /\ (scenario_generator "s10" (Some 500%Q) (Some 500%Q) (Some 200%Q) (Some 0.27%Q)).2 node_data σ1
       = (Ret node_data, σ2).
Proof.
  assert (Exists (fun r => key_matches ["StRupertMayer"; "Diesel"; "Stock"]
                             r.1 = true) (rows node_commodity)) as Hx1.
  { apply Exists_cons_hd. reflexivity. }
  assert (Exists (fun r => key_matches ["StRupertMayer"; "Photovoltaics"]
                             r.1 = true) (rows node_process)) as Hx2.
  { apply Exists_cons_tl, Exists_cons_hd. reflexivity. }
  assert (Exists (fun r => key_matches ["StRupertMayer"; "Diesel generator"]
                             r.1 = true) (rows node_process)) as Hx3.
  { apply Exists_cons_hd. reflexivity. }
  assert (Exists (fun r => key_matches
                             ["StRupertMayer"; "Battery"; "Electricity"]
                             r.1 = true) (rows node_storage)) as Hx4.
  { apply Exists_cons_hd. reflexivity. }
  assert (1%positive <> 2%positive) as N12 by discriminate.
  assert (1%positive <> 3%positive) as N13 by discriminate.
  assert (2%positive <> 3%positive) as N23 by discriminate.
  exact (scenario_generator_overrides "s01" "s10"
           (Some 2000%Q) (Some 1000%Q) (Some 200%Q) (Some 0.09%Q) (Some 500%Q) (Some 500%Q) (Some 200%Q) (Some 0.27%Q)
           node_data node_store 1%positive 2%positive 3%positive
           node_commodity node_process node_storage
           ["price"; "max"] ["inv-cost"; "fix-cost"; "cap-up"]
           ["inv-cost-c"; "fix-cost-c"] 0 0 1 0 1
           eq_refl eq_refl eq_refl N12 N13 N23 eq_refl eq_refl eq_refl
           eq_refl eq_refl eq_refl eq_refl eq_refl eq_refl eq_refl eq_refl
           Hx1 Hx2 Hx3 Hx4).
Defined.

Lemma read_excel_then_scenario_witness :
  let df0 := match rbind (parse (F := option Q) example_workbook "Process")
                         (set_index ["Site"; "Process"]) with
             | Ret d => d
             | Raise _ => mkFrame [] (Index []) []
             end in
  let labels := ["cap-up"; "area-per-cap"; "wacc"; "depreciation"] in
  (read_excel example_workbook ∅ = (Ret example_data, example_read.2)
   /\ rbind (parse example_workbook "Process")
            (set_index ["Site"; "Process"]) = Ret df0
   /\ columns df0 = Index labels
   /\ index_of "cap-up" labels = Some 0)
  /\ exists pro df',
       dict_find example_data "process" = Some pro
       /\ scenario_Node_2_process_caps example_data example_read.2
          = (Ret example_data, <[pro := df']> example_read.2).
Proof.
  intros df0 labels.
  assert (read_excel example_workbook ∅ = (Ret example_data, example_read.2))
    as H1 by (vm_compute; reflexivity).
  assert (rbind (parse example_workbook "Process")
                (set_index ["Site"; "Process"]) = Ret df0) as H2
    by (vm_compute; reflexivity).
  assert (columns df0 = Index labels) as H3 by (vm_compute; reflexivity).
  assert (index_of "cap-up" labels = Some 0) as H4 by reflexivity.
  assert (Exists (fun r => key_matches ["Node_2"; "Gas plant"] r.1 = true)
                 (rows df0)) as H5.
  { vm_compute. apply Exists_cons_hd. reflexivity. }
  assert (Exists (fun r => key_matches ["Node_2"; "Biomass plant"] r.1 = true)
                 (rows df0)) as H6.
  { vm_compute. apply Exists_cons_tl, Exists_cons_hd. reflexivity. }
  assert (Forall (fun r => key_matches ["Node_2"; "Gas plant"] r.1 = true
                           \/ key_matches ["Node_2"; "Biomass plant"] r.1
                              = true ->
                           exists y, nth 0 r.2 NaN = CNum y)
                 (rows df0)) as H7.
  { vm_compute.
    repeat (apply Forall_cons_2; [intros _; eexists; reflexivity|]).
    apply Forall_nil_2. }
  split; [exact (conj H1 (conj H2 (conj H3 H4)))|].
  destruct (read_excel_then_scenario example_workbook ∅ example_read.2
              example_data df0 labels 0 H1 H2 H3 H4 H5 H6 H7)
    as (pro & df' & Hl & E & _).
  exists pro, df'. exact (conj Hl E).
Defined.

Lemma pyomo_model_prep_dicts_witness :
  (NoDup (map snd (example_data (H := QFloat)))
   /\ pyomo_model_prep empty_model example_data [0%Z; 1%Z] example_read.2
      = (Ret (example_model empty_model), (example_prep empty_model).2))
  /\ attrs (example_model (H := QFloat) empty_model) !! "timesteps"
     = Some (VTimesteps [0%Z; 1%Z])
  /\ exists l df,
       dict_find example_data "process" = Some l
       /\ (example_prep empty_model).2 !! l = Some df
       /\ attrs (example_model empty_model) !! "process_dict"
          = Some (VDict (to_dict df)).
Proof.
  assert (read_excel example_workbook ∅ = (Ret example_data, example_read.2))
    as Hread by (vm_compute; reflexivity).
  assert (pyomo_model_prep empty_model example_data [0%Z; 1%Z] example_read.2
          = (Ret (example_model empty_model), (example_prep empty_model).2))
    as Hprep by (vm_compute; reflexivity).
  destruct (read_excel_inv _ _ _ _ Hread) as (_ & Hnd & _).
  split; [exact (conj Hnd Hprep)|].
  destruct (pyomo_model_prep_dicts empty_model _ _ _ _ _ Hnd Hprep)
    as (Hts & Hall).
  split; [exact Hts|].
  apply Forall_cons in Hall as [_ Hall].
  apply Forall_cons in Hall as [_ Hall].
  apply Forall_cons in Hall as [_ Hall].
  apply Forall_cons in Hall as [_ Hall].
  apply Forall_cons in Hall as [_ Hall].
  apply Forall_cons in Hall as [(l & df & Hl & _ & Hdf & Hd) _].
  exists l, df. exact (conj Hl (conj Hdf Hd)).
Defined.
